(** * RAMSES-II codec: payload parsers and command constructors

    A shallow embedding of [ramses_rf/parsers.py] (primitive decoders, the
    index helper, the validation wrapper, a selection of payload parsers and
    the top-level [parse_payload]) and of [ramses_rf/protocol/command.py]
    (argument normalisation, the [Command] class and its constructors),
    followed by the properties the specification states about them.

    Conventions.
    - A Python call either returns a value or raises; it is a value of
      [res A].  Only the class of an exception is kept, not its message.
    - Python strings are [string]; a slice [s[i:j]] with constant bounds is
      [slice i j s], clamped the way Python clamps it.
    - A Python [float] is the rational it denotes ([Qc]); the quotient of two
      integers is the exact quotient.
    - A [dict] with string keys is a [gmap string _]; [{**a, **b}] is
      [b ∪ a] (the right operand of [**] wins). *)

From Stdlib Require Import ZArith QArith Qcanon String Ascii List Bool Lia.
From stdpp Require Import base numbers option list strings gmap.

Local Open Scope string_scope.
Local Open Scope Z_scope.

(** ** Exceptions and results *)

(** The exception classes that the modelled code raises or names in an
    [except] clause.  [CorruptPacketError] and [CorruptPayloadError] come from
    [exceptions.py]. *)
Inductive exc : Type :=
  | AssertionError
  | AttributeError
  | LookupError
  | KeyError
  | IndexError
  | TypeError
  | ValueError
  | UnicodeDecodeError
  | NotImplementedError
  | ArithmeticError
  | OverflowError
  | ZeroDivisionError
  | CorruptPacketError
  | CorruptPayloadError.

#[global] Instance exc_eq_dec : EqDecision exc.
Proof. solve_decision. Defined.

(** The direct base class of a builtin exception class, if it is one of the
    classes above. *)
Definition base_class (e : exc) : option exc :=
  match e with
  | KeyError | IndexError => Some LookupError
  | UnicodeDecodeError => Some ValueError
  | OverflowError | ZeroDivisionError => Some ArithmeticError
  | _ => None
  end.

(** [isinstance e c]: an exception of class [e] is caught by [except c]. *)
Definition isinstance (e c : exc) : bool :=
  bool_decide (e = c)
  || match base_class e with
     | Some b => bool_decide (b = c)
     | None => false
     end.

Definition caught_by (e : exc) (cs : list exc) : bool :=
  existsb (isinstance e) cs.

Inductive res (A : Type) : Type :=
  | Ok (a : A)
  | Raise (e : exc).
Arguments Ok {A} a.
Arguments Raise {A} e.

#[global] Instance res_ret : MRet res := fun A a => Ok a.
#[global] Instance res_bind : MBind res := fun A B f r =>
  match r with
  | Ok a => f a
  | Raise e => Raise e
  end.
#[global] Instance res_fmap : FMap res := fun A B f r =>
  match r with
  | Ok a => Ok (f a)
  | Raise e => Raise e
  end.

(** [assert b], raising [AssertionError]. *)
Definition py_assert (b : bool) : res unit :=
  if b then Ok tt else Raise AssertionError.

(** [raises r]: the call did not return. *)
Definition raises {A} (r : res A) : Prop :=
  match r with
  | Ok _ => False
  | Raise _ => True
  end.

(** ** Python values *)

#[warnings="-register-all"] Inductive pyval : Type :=
  | VNone
  | VBool (b : bool)
  | VInt (z : Z)
  | VFloat (q : Qc)
  | VStr (s : string)
  | VList (l : list pyval).

(** A decoded record, and what a parser returns: a record or a list. *)
Abbreviation record := (gmap string pyval).

Inductive parsed : Type :=
  | PDict (d : record)
  | PList (l : list record).

(** [n / d] on integers (true division). *)
Definition py_truediv (n d : Z) : Qc := (Qc_of_Z n / Qc_of_Z d)%Qc.

(** ** Strings *)

Fixpoint str_take (n : nat) (s : string) : string :=
  match n, s with
  | O, _ => ""
  | S _, EmptyString => ""
  | S n', String c s' => String c (str_take n' s')
  end.

Fixpoint str_drop (n : nat) (s : string) : string :=
  match n, s with
  | O, _ => s
  | S _, EmptyString => ""
  | S n', String _ s' => str_drop n' s'
  end.

(** [s[i:j]] and [s[i:]] for constant [0 <= i <= j]. *)
Definition slice (i j : nat) (s : string) : string :=
  str_take (j - i) (str_drop i s).
Definition slice_from (i : nat) (s : string) : string := str_drop i s.

(** [len(s)]. *)
Definition py_len (s : string) : Z := Z.of_nat (String.length s).

(** [x in (a, b, ...)] for strings. *)
Definition str_in (x : string) (l : list string) : bool :=
  existsb (String.eqb x) l.

(** [sub in s] for strings: [sub] occurs in [s] as a substring. *)
Fixpoint is_substring (sub s : string) : bool :=
  String.prefix sub s
  || match s with
     | EmptyString => false
     | String _ s' => is_substring sub s'
     end.

Definition ascii_code (c : ascii) : Z := Z.of_nat (nat_of_ascii c).

(** The characters [Py_ISSPACE] accepts, which [bytes.fromhex] skips. *)
Definition is_space (c : ascii) : bool :=
  let n := ascii_code c in
  (n =? 32) || ((9 <=? n) && (n <=? 13)).

(** The ASCII characters for which [str.isspace] holds, which [str.strip]
    removes at both ends: the above and the four separators 0x1C to 0x1F. *)
Definition is_str_space (c : ascii) : bool :=
  let n := ascii_code c in
  is_space c || ((28 <=? n) && (n <=? 31)).

Definition hex_digit (c : ascii) : option Z :=
  let n := ascii_code c in
  if (48 <=? n) && (n <=? 57) then Some (n - 48)
  else if (65 <=? n) && (n <=? 70) then Some (n - 55)
  else if (97 <=? n) && (n <=? 102) then Some (n - 87)
  else None.

Definition is_hex_digit (c : ascii) : bool :=
  match hex_digit c with
  | Some _ => true
  | None => false
  end.

Fixpoint lstrip (s : string) : string :=
  match s with
  | EmptyString => ""
  | String c s' => if is_str_space c then lstrip s' else s
  end.

Fixpoint rstrip (s : string) : string :=
  match s with
  | EmptyString => ""
  | String c s' =>
      let r := rstrip s' in
      if is_str_space c && String.eqb r "" then "" else String c r
  end.

(** [s.strip()]. *)
Definition py_strip (s : string) : string := rstrip (lstrip s).

(** What [int] skips at both ends of an ASCII string: the characters of
    [Py_ISSPACE] only, not the separators 0x1C to 0x1F. *)
Fixpoint int_lstrip (s : string) : string :=
  match s with
  | EmptyString => ""
  | String c s' => if is_space c then int_lstrip s' else s
  end.

Fixpoint int_rstrip (s : string) : string :=
  match s with
  | EmptyString => ""
  | String c s' =>
      let r := int_rstrip s' in
      if is_space c && String.eqb r "" then "" else String c r
  end.

Definition int_strip (s : string) : string := int_rstrip (int_lstrip s).

(** The digits of an integer literal in base 16: a digit, then digits each
    optionally preceded by one underscore.  [int_digits acc s] is entered on
    the character after a digit. *)
Fixpoint int_digits (acc : Z) (s : string) : option Z :=
  match s with
  | EmptyString => Some acc
  | String c s' =>
      match hex_digit c with
      | Some d => int_digits (acc * 16 + d) s'
      | None =>
          if Ascii.eqb c "_"
          then match s' with
               | String c' _ =>
                   if is_hex_digit c' then int_digits acc s' else None
               | EmptyString => None
               end
          else None
      end
  end.

Definition int_literal (s : string) : option Z :=
  match s with
  | String c _ => if is_hex_digit c then int_digits 0 s else None
  | EmptyString => None
  end.

(** After the sign: an optional [0x]/[0X] prefix, itself optionally followed
    by one underscore. *)
Definition int_unsigned (s : string) : option Z :=
  match s with
  | String "0" (String x s') =>
      if Ascii.eqb x "x" || Ascii.eqb x "X"
      then match s' with
           | String "_" s'' => int_literal s''
           | _ => int_literal s'
           end
      else int_literal s
  | _ => int_literal s
  end.

(** [int(s, 16)]: surrounding whitespace, an optional sign, an optional
    prefix, digits; [ValueError] otherwise. *)
Definition py_int16 (s : string) : res Z :=
  let t := int_strip s in
  let r :=
    match t with
    | String "+" t' => int_unsigned t'
    | String "-" t' => Z.opp <$> int_unsigned t'
    | _ => int_unsigned t
    end in
  match r with
  | Some n => Ok n
  | None => Raise ValueError
  end.

(** [bytes.fromhex(s)]: pairs of hex digits, whitespace skipped between
    pairs; [ValueError] otherwise. *)
Fixpoint fromhex_opt (s : string) : option (list Z) :=
  match s with
  | EmptyString => Some []
  | String c s' =>
      if is_space c then fromhex_opt s'
      else match hex_digit c, s' with
           | Some h, String c2 s'' =>
               match hex_digit c2 with
               | Some l => cons (h * 16 + l) <$> fromhex_opt s''
               | None => None
               end
           | _, _ => None
           end
  end.

Definition bytes_fromhex (s : string) : res (list Z) :=
  match fromhex_opt s with
  | Some bs => Ok bs
  | None => Raise ValueError
  end.

Definition ascii_of_byte (b : Z) : ascii := ascii_of_nat (Z.to_nat b).

Fixpoint string_of_bytes (bs : list Z) : string :=
  match bs with
  | [] => ""
  | b :: bs' => String (ascii_of_byte b) (string_of_bytes bs')
  end.

(** The value of a string of hex digits read as a base-16 numeral (0 on
    other characters); the reference the decoders are compared with. *)
Fixpoint hex_value_from (acc : Z) (s : string) : Z :=
  match s with
  | EmptyString => acc
  | String c s' =>
      hex_value_from (acc * 16 + default 0 (hex_digit c)) s'
  end.
Definition hex_value (s : string) : Z := hex_value_from 0 s.

Fixpoint all_hex (s : string) : bool :=
  match s with
  | EmptyString => true
  | String c s' => is_hex_digit c && all_hex s'
  end.

(** A string of exactly [n] hex digits. *)
Definition is_hex (n : nat) (s : string) : bool :=
  Nat.eqb (String.length s) n && all_hex s.

(** ** Primitive decoders ([parsers.py]) *)

(** [_bool]: [assert value in {"00", "C8", "FF"}], then
    [{"00": False, "C8": True}.get(value)]. *)
Definition _bool (value : string) : res pyval :=
  _ ← py_assert (str_in value ["00"; "C8"; "FF"]);
  mret (if String.eqb value "00" then VBool false
        else if String.eqb value "C8" then VBool true
        else VNone).

(** Days of a month, for [datetime(year, month, day)]. *)
Definition is_leap (y : Z) : bool :=
  ((y mod 4 =? 0) && negb (y mod 100 =? 0)) || (y mod 400 =? 0).

Definition days_in_month (y m : Z) : Z :=
  if m =? 2 then (if is_leap y then 29 else 28)
  else if (m =? 4) || (m =? 6) || (m =? 9) || (m =? 11) then 30
  else 31.

(** [datetime(year=y, month=m, day=d)]: [ValueError] outside the calendar. *)
Definition py_date (y m d : Z) : res (Z * Z * Z) :=
  if (1 <=? y) && (y <=? 9999) && (1 <=? m) && (m <=? 12)
     && (1 <=? d) && (d <=? days_in_month y m)
  then Ok (y, m, d)
  else Raise ValueError.

Definition digit_char (d : Z) : ascii := ascii_of_nat (Z.to_nat (48 + d mod 10)).

(** A non-negative integer in decimal, zero-padded to [w] digits ([%0wd]);
    wider numbers keep all their digits. *)
Fixpoint dec_digits (fuel : nat) (n : Z) (acc : string) : string :=
  match fuel with
  | O => acc
  | S fuel' =>
      let acc' := String (digit_char n) acc in
      if n / 10 =? 0 then acc' else dec_digits fuel' (n / 10) acc'
  end.

Definition dec_string (n : Z) : string :=
  dec_digits (S (Z.to_nat (Z.log2 n))) n "".

Fixpoint zeros (k : nat) : string :=
  match k with
  | O => ""
  | S k' => String "0" (zeros k')
  end.

Definition zfill (w : nat) (s : string) : string :=
  zeros (w - String.length s) ++ s.

Definition fmt_dec (w : nat) (n : Z) : string := zfill w (dec_string n).

(** [strftime("%Y-%m-%d")]: the month and the day on two digits; the year
    as the C library writes it, without padding (a year below 1000 has fewer
    than four digits). *)
Definition strftime_Ymd (ymd : Z * Z * Z) : string :=
  let '(y, m, d) := ymd in
  dec_string y ++ "-" ++ fmt_dec 2 m ++ "-" ++ fmt_dec 2 d.

(** [_date]: a date string YYYY-MM-DD from 8 hex characters. *)
Definition _date (value : string) : res pyval :=
  _ ← py_assert (py_len value =? 8);
  if String.eqb value "FFFFFFFF" then mret VNone
  else
    y ← py_int16 (slice 4 8 value);
    m ← py_int16 (slice 2 4 value);
    d ← py_int16 (slice 0 2 value);
    ymd ← py_date y m (Z.land d 31);
    mret (VStr (strftime_Ymd ymd)).

(** [_percent]: a percentage, 0.0 to 1.0, from 2 hex characters. *)
Definition _percent (value : string) : res pyval :=
  _ ← py_assert (py_len value =? 2);
  if str_in value ["EF"; "FE"; "FF"] then mret VNone
  else
    n ← py_int16 value;
    _ ← py_assert (n <=? 200);
    n' ← py_int16 value;
    mret (VFloat (py_truediv n' 200)).

(** [_str]: the printable ASCII characters of a hex string. *)
Definition _str (value : string) : res pyval :=
  bs ← bytes_fromhex value;
  let _string := filter (λ x, 31 < x ∧ x < 127) bs in
  mret (match _string with
        | [] => VNone
        | _ => VStr (py_strip (string_of_bytes _string))
        end).

(** [_temp]: a two's complement temperature from 4 hex characters. *)
Definition _temp (value : string) : res pyval :=
  _ ← py_assert (py_len value =? 4);
  if String.eqb value "31FF" then mret VNone
  else if String.eqb value "7EFF" then mret (VBool false)
  else if String.eqb value "7FFF" then mret VNone
  else
    temp ← py_int16 value;
    mret (VFloat (py_truediv (if temp <? 2 ^ 15 then temp else temp - 2 ^ 16) 100)).

(** The loop of [_flag8]: [ret[i] = byte & 1; byte = byte >> 1], [k] times. *)
Fixpoint flag_bits (k : nat) (byte : Z) : list Z :=
  match k with
  | O => []
  | S k' => Z.land byte 1 :: flag_bits k' (Z.shiftr byte 1)
  end.

(** [_flag8]: the 8 bits of the first byte of a hex string, lowest first. *)
Definition _flag8 (byte : string) : res (list Z) :=
  bs ← bytes_fromhex byte;
  match bs with
  | [] => Raise IndexError
  | b :: _ => mret (flag_bits 8 b)
  end.

(** [_double]: an integer below 32767, divided by [factor] unless it is 1;
    the division by 0 raises [ZeroDivisionError]. *)
Definition _double (val : string) (factor : Z) : res pyval :=
  if String.eqb val "7FFF" then mret VNone
  else
    result ← py_int16 val;
    _ ← py_assert (result <? 32767);
    if factor =? 1 then mret (VInt result)
    else if factor =? 0 then Raise ZeroDivisionError
    else mret (VFloat (py_truediv result factor)).

(** ** Messages and the static tables *)

(** The verbs and the codes named below, as in [const.py]. *)
Definition I_ : string := " I".
Definition RQ : string := "RQ".
Definition RP : string := "RP".
Definition W_ : string := " W".

(** The attributes of a [Message] that the parsers read.  [msg_src_is_dst]
    is [msg.src is msg.dst], [msg_max_zones] is [msg._gwy.config.max_zones],
    [msg_dtm] is the timestamp in microseconds since 0001-01-01T00:00:00 and
    [msg_idx] is the property [msg._idx]. *)
Record Msg : Type := {
  msg_verb : string;
  msg_code : string;
  msg_src_type : string;
  msg_dst_type : string;
  msg_src_is_dst : bool;
  msg_len : Z;
  msg_raw_payload : string;
  msg_dtm : Z;
  msg_idx : record;
  msg_has_array : bool;
  msg_has_payload : bool;
  msg_max_zones : Z
}.

(** An entry of [RAMSES_CODES]: the payload regex per verb, and the
    [RQ_MAY_HAVE_PAYLOAD] flag. *)
Record CodeEntry : Type := {
  verb_regex : string → option string;
  rq_may_have_payload : bool
}.

(** What the parsers import from the rest of the package: the tables of
    [ramses.py] and [const.py], the regex engine, and two helpers. *)
Record Tables : Type := {
  RAMSES_CODES : string → option CodeEntry;
  RAMSES_DEVICES : string → option (string → option (list string));
  CODE_IDX_COMPLEX : list string;
  CODE_IDX_NONE : list string;
  CODE_IDX_SIMPLE : list string;
  re_match : string → string → bool;
  _000C_DEVICE_TYPE : string → option string;
  ATTR_DHW_VALVE : string;
  ATTR_DHW_VALVE_HTG : string;
  CODE_0418_FAULT_STATE : string → option string;
  CODE_0418_FAULT_TYPE : string → option string;
  CODE_0418_DEVICE_CLASS : string → option string;
  ATTR_HTG_CONTROL : string;
  dts_from_hex : string → res pyval;
  hex_id_to_dec : string → res string;
  DEV_MODE : bool
}.

Definition TEST_MODE : bool := false.

(** ** Records *)

Definition has_key (k : string) (d : record) : bool :=
  bool_decide (is_Some (d !! k)).

(** [{**a, **b}]. *)
Definition dict_merge (a b : record) : record := b ∪ a.

(** [d.get(k, k)] on a table of strings. *)
Definition get_or_key (t : string → option string) (k : string) : string :=
  default k (t k).

(** The index keys of the data model. *)
Definition identity_keys : list string :=
  ["zone_idx"; "domain_id"; "ufh_idx"; "dhw_idx"; "hvac_id"; "other_idx"].

Definition identity_count (r : record) : nat :=
  length (filter (λ k, is_Some (r !! k)) identity_keys).

(** At most one index key is present in the record. *)
Definition exclusive (r : record) : Prop := (identity_count r ≤ 1)%nat.

Definition records_of (p : parsed) : list record :=
  match p with
  | PDict d => [d]
  | PList l => l
  end.

(** Modelled from the spec: the invariant of [Message._idx], the property of
    [protocol/message.py] (a module that is not among the sources embedded
    here) from which [_idx] and the wrapper take the index of a message:
    "at most one of zone_idx, domain_id, ufh_idx, dhw_idx, hvac_id, or
    other_idx".  [one_kind a b], for the index [a] of the message and a
    record [b] decoded from the same message, says that they hold no two
    different index keys: an index key of the one and an index key of the
    other are the same key. *)
Definition idx_exclusive (msg : Msg) : Prop := exclusive (msg_idx msg).

Definition one_kind (a b : record) : Prop :=
  ∀ k k' : string,
    k ∈ identity_keys → k' ∈ identity_keys →
    is_Some (a !! k) → is_Some (b !! k') → k = k'.

(** ** The index helper and the validation wrapper *)

Section Parsers.
Variable T : Tables.

(** [_idx]: the index of a payload, checked against the leading bytes. *)
Definition _idx (seqx : string) (msg : Msg) : res record :=
  let result := msg_idx msg in
  if has_key "zone_idx" result || has_key "parent_idx" result then
    n ← py_int16 (slice 0 2 (msg_raw_payload msg));
    _ ← py_assert (n <? msg_max_zones msg);
    mret result
  else if has_key "domain_id" result then
    _ ← py_assert (str_in seqx ["F9"; "FA"; "FC"]);
    mret result
  else if has_key "ufh_idx" result then
    n ← py_int16 seqx;
    _ ← py_assert (n <? 8);
    mret result
  else if has_key "dhw_idx" result then
    _ ← py_assert (str_in seqx ["00"; "01"]);
    mret result
  else if has_key "hvac_id" result then
    _ ← py_assert (str_in seqx ["00"; "01"; "21"]);
    mret result
  else if has_key "other_idx" result then
    n ← py_int16 (slice 4 6 (msg_raw_payload msg));
    _ ← py_assert (n <? msg_max_zones msg);
    mret result
  else if bool_decide (result ≠ ∅) then Raise TypeError
  else mret result.

Definition code_known (c : string) : bool :=
  bool_decide (is_Some (RAMSES_CODES T c)).

Definition check_verb_code_src (msg : Msg) : res unit :=
  match RAMSES_DEVICES T (msg_src_type msg) with
  | None => Raise CorruptPacketError
  | Some codes =>
      if String.eqb (msg_src_type msg) "18" then
        if negb (code_known (msg_code msg)) then Raise CorruptPacketError
        else mret tt
      else
        match codes (msg_code msg) with
        | None => Raise CorruptPacketError
        | Some verbs =>
            if negb (str_in (msg_verb msg) verbs) then Raise CorruptPacketError
            else mret tt
        end
  end.

(** [{RQ: RP, RP: RQ, W_: I_}[verb]]. *)
Definition reply_verb (v : string) : res string :=
  if String.eqb v RQ then Ok RP
  else if String.eqb v RP then Ok RQ
  else if String.eqb v W_ then Ok I_
  else Raise KeyError.

Definition check_verb_code_dst (msg : Msg) : res unit :=
  if str_in "18" [msg_src_type msg; msg_dst_type msg]
     || str_in (msg_dst_type msg) ["--"; "63"]
  then mret tt
  else
    match RAMSES_DEVICES T (msg_dst_type msg) with
    | None => Raise CorruptPacketError
    | Some codes =>
        if String.eqb (msg_verb msg) I_ then mret tt
        else if str_in (msg_dst_type msg ++ "/" ++ msg_verb msg ++ "/" ++ msg_code msg)
                       ["01/" ++ RQ ++ "/3EF1"]
        then mret tt
        else
          match codes (msg_code msg) with
          | None => Raise CorruptPacketError
          | Some verbs =>
              if str_in (msg_verb msg ++ "/" ++ msg_code msg) [W_ ++ "/0001"]
              then mret tt
              else if str_in (msg_dst_type msg ++ "/" ++ msg_verb msg ++ "/" ++ msg_code msg)
                             ["13/" ++ RQ ++ "/3EF0"]
              then mret tt
              else
                verb ← reply_verb (msg_verb msg);
                if negb (str_in verb verbs) then Raise CorruptPacketError
                else mret tt
          end
    end.

(** [RAMSES_CODES[msg.code][verb]], with its [KeyError]. *)
Definition code_regex (c verb : string) : res string :=
  match RAMSES_CODES T c with
  | None => Raise KeyError
  | Some e =>
      match verb_regex e verb with
      | None => Raise KeyError
      | Some regex => Ok regex
      end
  end.

Definition check_verb_code_payload (msg : Msg) (payload : string) : res unit :=
  match code_regex (msg_code msg) (msg_verb msg) with
  | Ok regex =>
      if negb (re_match T regex payload) then Raise CorruptPayloadError
      else mret tt
  | Raise e => if isinstance e KeyError then mret tt else Raise e
  end.

Definition _handle_rq (msg : Msg) (payload : string) : res record :=
  match code_regex (msg_code msg) RQ with
  | Raise e => if isinstance e KeyError then Raise CorruptPacketError else Raise e
  | Ok regex =>
      _ ← py_assert (re_match T regex payload);
      if negb (String.eqb (msg_src_type msg) "18a") && negb (re_match T regex payload)
      then Raise CorruptPayloadError
      else _idx (slice 0 2 payload) msg
  end.

(** [result = {} if msg._has_payload is False else func(payload, msg)]. *)
Definition call_unless_empty (func : string → Msg → res parsed)
    (payload : string) (msg : Msg) : res parsed :=
  if negb (msg_has_payload msg) then mret (PDict ∅) else func payload msg.

(** [parser_decorator(func)]: the checks of step 0, the dispatch on the
    shape of the request, and the merge of [msg._idx] into a record. *)
Definition parser_decorator (func : string → Msg → res parsed)
    (payload : string) (msg : Msg) : res parsed :=
  match RAMSES_CODES T (msg_code msg) with
  | None => Raise CorruptPacketError
  | Some entry =>
      _ ← check_verb_code_src msg;
      _ ← check_verb_code_dst msg;
      _ ← check_verb_code_payload msg payload;
      result ←
        (if rq_may_have_payload entry then call_unless_empty func payload msg
         else if String.eqb (msg_verb msg) RQ
         then PDict <$> _handle_rq msg payload
         else if str_in (msg_code msg) (CODE_IDX_COMPLEX T ++ CODE_IDX_NONE T)
                 || msg_has_array msg
         then call_unless_empty func payload msg
         else if str_in (msg_code msg) (CODE_IDX_SIMPLE T)
         then call_unless_empty func payload msg
         else call_unless_empty func payload msg);
      mret (match result with
            | PList l => PList l
            | PDict d => PDict (dict_merge (msg_idx msg) d)
            end)
  end.

(** ** Dates and times *)

(** A [datetime] is its distance from [datetime.min] in microseconds;
    [datetime.max] is 9999-12-31T23:59:59.999999, day 3652059 of the
    calendar. *)
Definition DAY_US : Z := 86400 * 1000000.
Definition DATETIME_MAX : Z := 3652059 * DAY_US - 1.

(** [dtm + timedelta(microseconds=us)]: [OverflowError] ("date value out of
    range") outside the calendar. *)
Definition datetime_add (d us : Z) : res Z :=
  let r := d + us in
  if (0 <=? r) && (r <=? DATETIME_MAX) then Ok r else Raise OverflowError.

(** The time of day as HH:MM:SS. *)
Definition strftime_HMS (d : Z) : string :=
  let secs := d / 1000000 in
  fmt_dec 2 ((secs / 3600) mod 24) ++ ":" ++ fmt_dec 2 ((secs / 60) mod 60)
  ++ ":" ++ fmt_dec 2 (secs mod 60).

(** [f"{n:08b}"] on an integer. *)
Fixpoint bin_digits (fuel : nat) (n : Z) (acc : string) : string :=
  match fuel with
  | O => acc
  | S fuel' =>
      let acc' := String (if n mod 2 =? 0 then "0"%char else "1"%char) acc in
      if n / 2 =? 0 then acc' else bin_digits fuel' (n / 2) acc'
  end.

Definition fmt_08b (n : Z) : string :=
  if n <? 0
  then "-" ++ zfill 7 (bin_digits (S (Z.to_nat (Z.log2 (- n)))) (- n) "")
  else zfill 8 (bin_digits (S (Z.to_nat (Z.log2 n))) n "").

(** ** Payload parsers

    Each [parser_xxxx] below is the function as written after the
    [@parser_decorator] line; the registry holds it wrapped.  The blocks
    guarded by [TEST_MODE and ...] are dead, [TEST_MODE] being the constant
    [False], and are left out. *)

(** A dict display [{k1: v1, k2: v2, ...}]: later keys overwrite. *)
Definition py_dict (l : list (string * pyval)) : record :=
  foldl (λ m kv, <[kv.1 := kv.2]> m) ∅ l.

(** [[s[i : i + k] for i in range(0, len(s), k)]]. *)
Fixpoint chunks_from (fuel k : nat) (s : string) : list string :=
  match fuel with
  | O => []
  | S fuel' =>
      match s with
      | EmptyString => []
      | _ => str_take k s :: chunks_from fuel' k (str_drop k s)
      end
  end.
Definition chunks (k : nat) (s : string) : list string :=
  chunks_from (String.length s) k s.

(** A list comprehension whose element expression may raise. *)
Fixpoint map_res {A B} (f : A → res B) (l : list A) : res (list B) :=
  match l with
  | [] => Ok []
  | x :: l' => y ← f x; ys ← map_res f l'; mret (y :: ys)
  end.

(** The nested [_idx] of [parser_0008]; it hides the global one there. *)
Definition parser_0008_idx (payload : string) (msg : Msg) : res record :=
  if String.eqb (msg_verb msg) I_ && str_in (msg_src_type msg) ["01"; "02"]
     && msg_src_is_dst msg
  then
    if str_in (slice 0 2 payload) ["F9"; "FA"; "FC"]
    then mret {["domain_id" := VStr (slice 0 2 payload)]}
    else
      n ← py_int16 (slice 0 2 payload);
      _ ← py_assert (n <? msg_max_zones msg);
      mret {["zone_idx" := VStr (slice 0 2 payload)]}
  else
    _ ← py_assert (String.eqb (slice 0 2 payload) "00" || String.eqb (msg_verb msg) "RQ");
    mret ∅.

(** relay_demand (domain/zone/device) *)
Definition parser_0008 (payload : string) (msg : Msg) : res parsed :=
  if String.eqb (msg_src_type msg) "31" && (msg_len msg =? 13) then
    _ ← py_assert (msg_len msg =? 13);
    mret (PDict (py_dict [("ordinal", VStr ("0x" ++ slice 2 8 payload));
                          ("blob", VStr (slice_from 8 payload))]))
  else
    _ ← py_assert (msg_len msg =? 2);
    idx ← parser_0008_idx (slice 0 2 payload) msg;
    demand ← _percent (slice 2 4 payload);
    mret (PDict (<["relay_demand" := demand]> idx)).

Definition parser_0009_parser (msg : Msg) (seqx : string) : res record :=
  ok ← (if str_in (slice 0 2 seqx) ["F9"; "FC"] then mret true
        else n ← py_int16 (slice 0 2 seqx); mret (n <? msg_max_zones msg));
  _ ← py_assert ok;
  _ ← py_assert (str_in (slice 2 4 seqx) ["00"; "01"]);
  _ ← py_assert (str_in (slice_from 4 seqx) ["00"; "FF"]);
  mret (py_dict
    [(if String.eqb (slice 0 1 seqx) "F" then "domain_id" else "zone_idx",
      VStr (slice 0 2 seqx));
     ("failsafe_enabled",
      if String.eqb (slice 2 4 seqx) "00" then VBool false
      else if String.eqb (slice 2 4 seqx) "01" then VBool true
      else VNone)]).

(** relay_failsafe *)
Definition parser_0009 (payload : string) (msg : Msg) : res parsed :=
  PList <$> map_res (parser_0009_parser msg) (chunks 6 payload).

Definition parser_000a_parser (seqx : string) : res record :=
  bitmap ← py_int16 (slice 2 4 seqx);
  min_temp ← _temp (slice 4 8 seqx);
  max_temp ← _temp (slice_from 8 seqx);
  mret (py_dict
    [("zone_idx", VStr (slice 0 2 seqx));
     ("min_temp", min_temp);
     ("max_temp", max_temp);
     ("local_override", VBool (negb (negb (Z.land bitmap 1 =? 0))));
     ("openwindow_function", VBool (negb (negb (Z.land bitmap 2 =? 0))));
     ("multiroom_mode", VBool (negb (negb (Z.land bitmap 16 =? 0))));
     ("_unknown_bitmap", VStr ("0b" ++ fmt_08b bitmap))]).

(** zone_config (zone/s) *)
Definition parser_000a (payload : string) (msg : Msg) : res parsed :=
  if String.eqb (msg_verb msg) RQ && (msg_len msg <=? 2) then
    PDict <$> _idx (slice 0 2 payload) msg
  else if msg_has_array msg then
    PList <$> map_res parser_000a_parser (chunks 12 payload)
  else
    _ ← py_assert (msg_len msg =? 6);
    PDict <$> parser_000a_parser payload.

(** The nested [_idx] of [parser_000c]; [payload] is the payload of the
    enclosing parser. *)
Definition parser_000c_idx (payload seqx : string) (msg : Msg) : res record :=
  if String.eqb (msg_src_type msg) "02" then
    n ← py_int16 seqx;
    _ ← py_assert (n <? 8);
    mret (py_dict
      [("ufh_idx", VStr seqx);
       ("zone_id", if String.eqb (slice 4 6 payload) "7F" then VNone
                   else VStr (slice 4 6 payload))])
  else if str_in (slice 2 4 payload) ["0D"; "0E"] then
    ok ← (if String.eqb (slice 2 4 payload) "0D"
          then n ← py_int16 seqx; mret (n <? 1)
          else mret true);
    _ ← py_assert ok;
    mret {["domain_id" := VStr "FA"]}
  else if String.eqb (slice 2 4 (msg_raw_payload msg)) "0F" then
    n ← py_int16 seqx;
    _ ← py_assert (n <? 1);
    mret {["domain_id" := VStr "FC"]}
  else
    n ← py_int16 seqx;
    _ ← py_assert (n <? msg_max_zones msg);
    mret {["zone_idx" := VStr seqx]}.

(** The nested [_parser] of [parser_000c]: the one item of the dict it
    returns. *)
Definition parser_000c_parser (payload : string) (msg : Msg) (seqx : string)
    : res (string * string) :=
  _ ← py_assert (String.eqb (slice 0 2 seqx) (slice 0 2 payload));
  ok ← (if String.eqb (slice 4 6 seqx) "7F" then mret true
        else n ← py_int16 (slice 4 6 seqx); mret (n <? msg_max_zones msg));
  _ ← py_assert ok;
  dev ← hex_id_to_dec T (slice 6 12 seqx);
  mret (dev, slice 4 6 seqx).

(** zone_devices *)
Definition parser_000c (payload : string) (msg : Msg) : res parsed :=
  _ ← (if String.eqb (msg_verb msg) RQ then py_assert (msg_len msg =? 2)
       else py_assert ((msg_len msg >=? 6) && (msg_len msg mod 6 =? 0)));
  let device_class :=
    default ("unknown_" ++ slice 2 4 payload) (_000C_DEVICE_TYPE T (slice 2 4 payload)) in
  let device_class :=
    if String.eqb device_class (ATTR_DHW_VALVE T)
       && String.eqb (slice 0 2 (msg_raw_payload msg)) "01"
    then ATTR_DHW_VALVE_HTG T else device_class in
  idx ← parser_000c_idx payload (slice 0 2 payload) msg;
  let result := <["device_class" := VStr device_class]> idx in
  if String.eqb (msg_verb msg) RQ then mret (PDict result)
  else
    devices ← map_res (parser_000c_parser payload msg) (chunks 12 payload);
    mret (PDict (<["devices" :=
                    VList (VStr <$> (fst <$> filter (λ kv, snd kv ≠ "7F") devices))]>
                 result)).

(** system_fault *)
Definition parser_0418 (payload : string) (msg : Msg) : res parsed :=
  if String.eqb (msg_verb msg) RQ then
    mret (PDict {["log_idx" := VStr (slice 4 6 payload)]})
  else if String.eqb (slice_from 2 payload)
            "000000B0000000000000000000007FFFFF7000000000"
  then mret (PDict ∅)
  else
    _ ← py_assert (str_in (msg_verb msg) [I_; RP]);
    _ ← py_assert (bool_decide (is_Some (CODE_0418_FAULT_STATE T (slice 2 4 payload))));
    n ← py_int16 (slice 4 6 payload);
    _ ← py_assert (n <? 64);
    _ ← py_assert (bool_decide (is_Some (CODE_0418_FAULT_TYPE T (slice 8 10 payload))));
    z ← py_int16 (slice 10 12 payload);
    _ ← py_assert ((z <? msg_max_zones msg)
                   || str_in (slice 10 12 payload) ["F9"; "FA"; "FC"]);
    _ ← py_assert (bool_decide (is_Some (CODE_0418_DEVICE_CLASS T (slice 12 14 payload))));
    _ ← py_assert (str_in (slice 28 30 payload) ["7F"; "FF"]);
    timestamp ← dts_from_hex T (slice 18 30 payload);
    let device_class := get_or_key (CODE_0418_DEVICE_CLASS T) (slice 12 14 payload) in
    let result := py_dict
      [("log_idx", VStr (slice 4 6 payload));
       ("timestamp", timestamp);
       ("fault_state", VStr (get_or_key (CODE_0418_FAULT_STATE T) (slice 2 4 payload)));
       ("fault_type", VStr (get_or_key (CODE_0418_FAULT_TYPE T) (slice 8 10 payload)));
       ("device_class", VStr device_class)] in
    let result :=
      if String.eqb (slice 10 12 payload) "FC" && String.eqb device_class "actuator"
      then <["device_class" := VStr (ATTR_HTG_CONTROL T)]> result
      else result in
    result ←
      (if negb (String.eqb (slice 12 14 payload) "00") then
         z' ← py_int16 (slice 10 12 payload);
         let key_name := if z' <? msg_max_zones msg then "zone_id" else "domain_id" in
         mret (<[key_name := VStr (slice 10 12 payload)]> result)
       else mret result);
    result ←
      (if String.eqb (slice_from 38 payload) "000002" then
         mret (<["device_id" := VNone]> result)
       else if negb (str_in (slice_from 38 payload) ["000000"; "000001"]) then
         dev ← hex_id_to_dec T (slice_from 38 payload);
         mret (<["device_id" := VStr dev]> result)
       else mret result);
    _ ← py_assert (String.eqb (slice 6 8 payload) "B0");
    _ ← py_assert (String.eqb (slice 14 18 payload) "0000");
    _ ← py_assert (String.eqb (slice 30 38 payload) "FFFF7000");
    mret (PDict (<["_unknown_3" := VStr (slice 30 38 payload)]>
                 (<["_unknown_2" := VStr (slice 14 18 payload)]>
                  (<["_unknown_1" := VStr (slice 6 8 payload)]> result)))).

(** dhw_temp *)
Definition parser_1260 (payload : string) (msg : Msg) : res parsed :=
  if String.eqb (msg_verb msg) RQ && (msg_len msg <=? 2) then
    PDict <$> _idx (slice 0 2 payload) msg
  else
    _ ← py_assert (msg_len msg =? 3);
    _ ← py_assert (String.eqb (slice 0 2 payload) "00");
    t ← _temp (slice_from 2 payload);
    mret (PDict {["temperature" := t]}).

(** window_state (of a device/zone) *)
Definition parser_12b0 (payload : string) (msg : Msg) : res parsed :=
  _ ← py_assert (str_in (slice_from 2 payload) ["0000"; "C800"; "FFFF"]);
  idx ← _idx (slice 0 2 payload) msg;
  w ← _bool (slice 2 4 payload);
  mret (PDict (<["window_open" := w]> idx)).

(** system_sync *)
Definition parser_1f09 (payload : string) (msg : Msg) : res parsed :=
  _ ← py_assert (msg_len msg =? 3);
  _ ← py_assert (str_in (slice 0 2 payload) ["00"; "01"; "F8"; "FF"]);
  n ← py_int16 (slice 2 6 payload);
  let seconds := py_truediv n 10 in
  next_sync ← datetime_add (msg_dtm msg) (n * 100000);
  mret (PDict (py_dict [("remaining_seconds", VFloat seconds);
                        ("_next_sync", VStr (strftime_HMS next_sync))])).

Definition parser_22c9_parser (seqx : string) : res record :=
  _ ← py_assert (negb (String.eqb (slice_from 10 seqx) ""));
  temp_low ← _temp (slice 2 6 seqx);
  temp_high ← _temp (slice 6 10 seqx);
  mret (py_dict
    [("ufh_idx", VStr (slice 0 2 seqx));
     ("temp_low", temp_low);
     ("temp_high", temp_high);
     ("_unknown_0", VStr (slice_from 10 seqx))]).

(** ufh_setpoint *)
Definition parser_22c9 (payload : string) (msg : Msg) : res parsed :=
  if msg_has_array msg then
    PList <$> map_res parser_22c9_parser (chunks 12 payload)
  else
    _ ← py_assert (msg_len msg =? 6);
    PDict <$> parser_22c9_parser payload.

Definition parser_2309_parser (seqx : string) : res record :=
  t ← _temp (slice_from 2 seqx);
  mret (py_dict [("zone_idx", VStr (slice 0 2 seqx)); ("setpoint", t)]).

(** setpoint (of device/zones) *)
Definition parser_2309 (payload : string) (msg : Msg) : res parsed :=
  if String.eqb (msg_verb msg) RQ && (msg_len msg <=? 2) then
    PDict <$> _idx (slice 0 2 payload) msg
  else if msg_has_array msg then
    PList <$> map_res parser_2309_parser (chunks 6 payload)
  else
    _ ← py_assert (msg_len msg =? 3);
    PDict <$> parser_2309_parser payload.

Definition parser_30c9_parser (seqx : string) : res record :=
  t ← _temp (slice_from 2 seqx);
  mret (py_dict [("zone_idx", VStr (slice 0 2 seqx)); ("temperature", t)]).

(** temperature (of device, zone/s) *)
Definition parser_30c9 (payload : string) (msg : Msg) : res parsed :=
  if msg_has_array msg then
    PList <$> map_res parser_30c9_parser (chunks 6 payload)
  else
    _ ← py_assert (msg_len msg =? 3);
    PDict <$> parser_30c9_parser payload.

Definition parser_3150_parser (msg : Msg) (seqx : string) : res record :=
  n ← py_int16 (slice_from 2 seqx);
  ok ← (if Z.land n 240 =? 240 then mret true
        else n' ← py_int16 (slice_from 2 seqx); mret (n' <=? 200));
  _ ← py_assert ok;
  let idx_name := if String.eqb (msg_src_type msg) "02" then "ufx_idx" else "zone_idx" in
  demand ← _percent (slice_from 2 seqx);
  mret (py_dict
    [(if String.eqb (slice 0 1 seqx) "F" then "domain_id" else idx_name,
      VStr (slice 0 2 seqx));
     ("heat_demand", demand)]).

(** heat_demand (of device, FC domain) *)
Definition parser_3150 (payload : string) (msg : Msg) : res parsed :=
  if msg_has_array msg then
    PList <$> map_res (parser_3150_parser msg) (chunks 4 payload)
  else
    _ ← py_assert (msg_len msg =? 2);
    PDict <$> parser_3150_parser msg payload.

(** The nested [_idx] of [parser_3b00]. *)
Definition parser_3b00_idx (payload : string) (msg : Msg) : res record :=
  if String.eqb (msg_verb msg) I_ && str_in (msg_src_type msg) ["01"; "23"]
     && msg_src_is_dst msg
  then
    _ ← py_assert (String.eqb (slice 0 2 payload) "FC");
    mret {["domain_id" := VStr "FC"]}
  else
    _ ← py_assert (String.eqb (slice 0 2 payload) "00");
    mret ∅.

(** actuator_sync *)
Definition parser_3b00 (payload : string) (msg : Msg) : res parsed :=
  _ ← py_assert (msg_len msg =? 2);
  _ ← py_assert (String.eqb (slice 0 2 payload)
                   (if String.eqb (msg_src_type msg) "01" then "FC"
                    else if String.eqb (msg_src_type msg) "13" then "00"
                    else if String.eqb (msg_src_type msg) "23" then "FC"
                    else "00"));
  _ ← py_assert (String.eqb (slice_from 2 payload) "C8");
  idx ← parser_3b00_idx (slice 0 2 payload) msg;
  sync ← _bool (slice_from 2 payload);
  mret (PDict (<["actuator_sync" := sync]> idx)).

Definition parser_unknown (payload : string) (msg : Msg) : res parsed :=
  Raise NotImplementedError.

(** ** The registry and the top-level entry point *)

(** The entries of [PAYLOAD_PARSERS] for the parsers of [parsers.py] that
    are not embedded above, as the registry holds them. *)
Variable other_parsers : string → option (string → Msg → res parsed).

(** The parsers embedded above, by name. *)
Definition embedded_parsers : list (string * (string → Msg → res parsed)) :=
  [("0008", parser_0008); ("0009", parser_0009); ("000A", parser_000a);
   ("000C", parser_000c); ("0418", parser_0418); ("1260", parser_1260);
   ("12B0", parser_12b0); ("1F09", parser_1f09); ("22C9", parser_22c9);
   ("2309", parser_2309); ("30C9", parser_30c9); ("3150", parser_3150);
   ("3B00", parser_3b00)].

Definition embedded_parser (c : string) : option (string → Msg → res parsed) :=
  snd <$> find (λ kv, String.eqb c (fst kv)) embedded_parsers.

(** [PAYLOAD_PARSERS.get(code)]. *)
Definition PAYLOAD_PARSERS (c : string) : option (string → Msg → res parsed) :=
  match embedded_parser c with
  | Some body => Some (parser_decorator body)
  | None => other_parsers c
  end.

Inductive log_call : Type :=
  | Log_warning
  | Log_exception.

(** [parse_payload]: the result (or [None]) and what was logged, or the
    exception that leaves the function. *)
Definition parse_payload (msg : Msg) : res (option parsed * list log_call) :=
  let parser := default (parser_decorator parser_unknown) (PAYLOAD_PARSERS (msg_code msg)) in
  match parser (msg_raw_payload msg) msg with
  | Ok result => Ok (Some result, [])
  | Raise err =>
      if caught_by err [AssertionError] then
        Ok (None, [if DEV_MODE T && negb (String.eqb (msg_src_type msg) "18")
                   then Log_exception else Log_warning])
      else if caught_by err [CorruptPacketError; CorruptPayloadError] then
        Ok (None, [if DEV_MODE T then Log_exception else Log_warning])
      else if caught_by err [AttributeError; LookupError; TypeError; ValueError] then
        Ok (None, [Log_exception])
      else if caught_by err [NotImplementedError] then
        Ok (None, [Log_warning])
      else Raise err
  end.

End Parsers.

(** ** Command construction ([protocol/command.py]) *)

(** Truthiness, [isinstance(v, (bool, int))], [isinstance(v, (float, int))]
    and the numeric value of a Python value. *)
Definition py_truthy (v : pyval) : bool :=
  match v with
  | VNone => false
  | VBool b => b
  | VInt z => negb (z =? 0)
  | VFloat q => negb (bool_decide (q = 0%Qc))
  | VStr s => negb (String.eqb s "")
  | VList l => negb (bool_decide (l = []))
  end.

Definition is_none (v : pyval) : bool :=
  match v with
  | VNone => true
  | _ => false
  end.

Definition is_int (v : pyval) : bool :=
  match v with
  | VBool _ | VInt _ => true
  | _ => false
  end.

Definition is_number (v : pyval) : bool :=
  match v with
  | VBool _ | VInt _ | VFloat _ => true
  | _ => false
  end.

Definition py_num (v : pyval) : res Qc :=
  match v with
  | VBool b => Ok (if b then 1%Qc else 0%Qc)
  | VInt z => Ok (Qc_of_Z z)
  | VFloat q => Ok q
  | _ => Raise TypeError
  end.

(** [lo <= v <= hi], a chained comparison of numbers. *)
Definition py_between (lo : Qc) (v : pyval) (hi : Qc) : res bool :=
  q ← py_num v;
  mret (bool_decide (lo ≤ q)%Qc && bool_decide (q ≤ hi)%Qc).

Definition hex_char (d : Z) : ascii :=
  if d <? 10 then ascii_of_nat (Z.to_nat (48 + d)) else ascii_of_nat (Z.to_nat (55 + d)).

Fixpoint hex_digits (fuel : nat) (n : Z) (acc : string) : string :=
  match fuel with
  | O => acc
  | S fuel' =>
      let acc' := String (hex_char (n mod 16)) acc in
      if n / 16 =? 0 then acc' else hex_digits fuel' (n / 16) acc'
  end.

Definition hex_string (n : Z) : string :=
  hex_digits (S (Z.to_nat (Z.log2 n))) n "".

(** [f"{n:0wX}"] on an integer: the sign counts in the width. *)
Definition fmt_X (w : nat) (n : Z) : string :=
  if n <? 0 then "-" ++ zfill (w - 1) (hex_string (- n))
  else zfill w (hex_string n).

(** [f"{v:0wX}"] on a value: integers only. *)
Definition py_fmt_X (w : nat) (v : pyval) : res string :=
  match v with
  | VInt z => Ok (fmt_X w z)
  | VBool b => Ok (fmt_X w (if b then 1 else 0))
  | VFloat _ | VStr _ => Raise ValueError
  | VNone | VList _ => Raise TypeError
  end.

(** [f"{n:03d}"]. *)
Definition fmt_03d (n : Z) : string :=
  if n <? 0 then "-" ++ zfill 2 (dec_string (- n)) else zfill 3 (dec_string n).

(** [f"{s:>2}"] and [f"{s:<2}"]. *)
Definition rjust2 (s : string) : string :=
  match s with
  | EmptyString => "  "
  | String c EmptyString => String " " s
  | _ => s
  end.
Definition ljust2 (s : string) : string :=
  match s with
  | EmptyString => "  "
  | String c EmptyString => String c " "
  | _ => s
  end.

(** Modelled from the spec: [ZONE_MODE] of [const.py] (not among the sources
    embedded here), the "enumerated mode names/codes" of the builders, with
    the five zone modes and their 2-hex codes as the parsers of the same
    payloads read them ("03" carries a duration, "04" an until); [_hex]
    takes a code or a name to the code and raises [KeyError] otherwise. *)
Definition ZONE_MODE_MAP : list (string * string) :=
  [("00", "follow_schedule"); ("01", "advanced_override");
   ("02", "permanent_override"); ("03", "countdown_override");
   ("04", "temporary_override")].

Definition follow_schedule : string := "00".
Definition advanced_override : string := "01".
Definition permanent_override : string := "02".
Definition countdown_override : string := "03".
Definition temporary_override : string := "04".

Definition ZONE_MODE_hex (key : pyval) : res string :=
  match key with
  | VStr s =>
      match find (λ kv, String.eqb s (fst kv) || String.eqb s (snd kv)) ZONE_MODE_MAP with
      | Some kv => Ok (fst kv)
      | None => Raise KeyError
      end
  | VList _ => Raise TypeError
  | _ => Raise KeyError
  end.

(** [normalise_zone_mode]: the mode as a 2-byte code.  [until] is a
    [datetime] (never falsy) and [duration] an [int] (falsy when 0), each
    possibly [None]. *)
Definition normalise_zone_mode (mode target : pyval) (until duration : option Z)
    : res string :=
  if is_none mode && is_none target then Raise ValueError
  else if bool_decide (is_Some until)
          && match duration with Some d => negb (d =? 0) | None => false end
  then Raise ValueError
  else
    mode ←
      (if is_none mode then
         if bool_decide (is_Some until) then mret temporary_override
         else if match duration with Some d => negb (d =? 0) | None => false end
         then mret countdown_override
         else mret permanent_override
       else
         key ← (if is_int mode then VStr <$> py_fmt_X 2 mode else mret mode);
         ZONE_MODE_hex key);
    if negb (String.eqb mode follow_schedule) && is_none target
    then Raise ValueError
    else mret mode.

(** [normalise_duration]: [until] and [duration], checked against the mode.
    The assignment [mode = ZONE_MODE.advanced_override] binds the local name
    only; the function returns [(until, duration)]. *)
Definition normalise_duration (mode : string) (target : pyval)
    (until duration : option Z) : res (option Z * option Z) :=
  if String.eqb mode temporary_override then
    if bool_decide (is_Some duration) then Raise ValueError
    else
      let mode := if bool_decide (until = None) then advanced_override else mode in
      mret (until, duration)
  else if is_substring mode countdown_override then
    if bool_decide (duration = None) then Raise ValueError
    else if bool_decide (is_Some until) then Raise ValueError
    else mret (until, duration)
  else if bool_decide (is_Some until) || bool_decide (is_Some duration) then
    Raise ValueError
  else mret (until, duration).

Record Address : Type := {
  addr_id : string;
  addr_type : string
}.

(** What [command.py] imports: the address helper, the frame regex, the
    hex encoders of [helpers.py] and three well-known device ids. *)
Record Helpers : Type := {
  pkt_addrs : string → res (Address * Address * list Address);
  COMMAND_REGEX_match : string → bool;
  temp_to_hex : pyval → res string;
  dtm_to_hex : option Z → res string;
  HGI_DEV_ADDR_id : string;
  NON_DEV_ADDR_id : string;
  NUL_DEV_ADDR_id : string
}.

(** The keyword arguments a constructor passes on: [from_id], [callback]
    and the four QoS keys. *)
Record Kwargs : Type := {
  kw_from_id : option string;
  kw_callback : option pyval;
  kw_priority : option Z;
  kw_retries : option Z;
  kw_timeout : option Z;
  kw_disable_backoff : option bool
}.

Definition no_kwargs : Kwargs :=
  {| kw_from_id := None; kw_callback := None; kw_priority := None;
     kw_retries := None; kw_timeout := None; kw_disable_backoff := None |}.

(** [Priority], and the QoS defaults; a timeout is in microseconds. *)
Definition Priority_LOWEST : Z := 8.
Definition Priority_LOW : Z := 6.
Definition Priority_DEFAULT : Z := 4.
Definition Priority_HIGH : Z := 2.
Definition Priority_HIGHEST : Z := 0.

Definition QOS_TX_TIMEOUT : Z := 50000.
Definition QOS_TX_RETRIES : Z := 2.
Definition QOS_TX_DEFAULT : option Z * option Z * option Z * option bool :=
  (Some Priority_DEFAULT, Some QOS_TX_RETRIES, Some QOS_TX_TIMEOUT, Some false).

Definition QOS_TABLE : list (string * (option Z * option Z * option Z * option bool)) :=
  [(RQ ++ "/0016", (Some Priority_HIGH, Some 5, None, None));
   (RQ ++ "/1F09", (Some Priority_HIGH, Some 5, None, None));
   (I_ ++ "/1FC9", (Some Priority_HIGH, Some 2, Some 1000000, Some true));
   (I_ ++ "/0404", (Some Priority_HIGH, Some 5, Some 300000, None));
   (W_ ++ "/0404", (Some Priority_HIGH, Some 5, Some 300000, None));
   (RQ ++ "/0418", (Some Priority_LOW, Some 3, None, None));
   (RQ ++ "/3220", (Some Priority_DEFAULT, Some 1, Some 1000000, Some true))].

Record QoS : Type := {
  qos_retries : Z;
  qos_timeout : Z;
  qos_disable_backoff : bool
}.

Record Command : Type := {
  cmd_verb : string;
  cmd_seqn : string;
  cmd_src : Address;
  cmd_dst : Address;
  cmd_addrs : list Address;
  cmd_code : string;
  cmd_len : Z;
  cmd_payload : string;
  cmd_callback : option pyval;
  cmd_qos : QoS;
  cmd_priority : Z;
  cmd_dtm : Z
}.

(** [Command._qos], and the priority popped from it. *)
Definition _qos (verb code : string) (kw : Kwargs) : Z * QoS :=
  let '(priority, retries, timeout, backoff) :=
    default QOS_TX_DEFAULT
      (snd <$> find (λ kv, String.eqb (verb ++ "/" ++ code) (fst kv)) QOS_TABLE) in
  (default (default Priority_DEFAULT priority) (kw_priority kw),
   {| qos_retries := default (default QOS_TX_RETRIES retries) (kw_retries kw);
      qos_timeout := default (default QOS_TX_TIMEOUT timeout) (kw_timeout kw);
      qos_disable_backoff := default (default false backoff) (kw_disable_backoff kw) |}).

Section Commands.
Variable H : Helpers.

(** [self.addrs[i].id]. *)
Definition addr_at (addrs : list Address) (i : nat) : res string :=
  match addrs !! i with
  | Some a => Ok (addr_id a)
  | None => Raise IndexError
  end.

(** [Command.__str__], from the attributes it formats. *)
Definition frame_str (verb seqn : string) (addrs : list Address)
    (code : string) (length : Z) (payload : string) : res string :=
  a0 ← addr_at addrs 0;
  a1 ← addr_at addrs 1;
  a2 ← addr_at addrs 2;
  mret (ljust2 verb ++ " " ++ seqn ++ " " ++ a0 ++ " " ++ a1 ++ " " ++ a2
        ++ " " ++ code ++ " " ++ fmt_03d length ++ " " ++ payload).

(** [Command.is_valid], computed afresh. *)
Definition frame_is_valid (verb seqn : string) (addrs : list Address)
    (code : string) (length : Z) (payload : string) : res bool :=
  s ← frame_str verb seqn addrs code length payload;
  mret (COMMAND_REGEX_match H s
        && ((2 <=? py_len payload) && (py_len payload <=? 96))).

Definition is_valid (cmd : Command) : res bool :=
  frame_is_valid (cmd_verb cmd) (cmd_seqn cmd) (cmd_addrs cmd) (cmd_code cmd)
    (cmd_len cmd) (cmd_payload cmd).

(** [Command.__init__]; [now] is what [dt_now()] returns. *)
Definition Command_init (verb code payload dest_id : string) (kw : Kwargs)
    (now : Z) : res Command :=
  let verb := str_take 2 (rjust2 verb) in
  let seqn := "---" in
  '(src, dst, addrs) ←
    pkt_addrs H (default (HGI_DEV_ADDR_id H) (kw_from_id kw) ++ " " ++ dest_id
                 ++ " " ++ NON_DEV_ADDR_id H);
  let length := py_len payload / 2 in
  valid ← frame_is_valid verb seqn addrs code length payload;
  if negb valid then Raise ValueError
  else
    let '(priority, qos) := _qos verb code kw in
    mret {| cmd_verb := verb; cmd_seqn := seqn; cmd_src := src; cmd_dst := dst;
            cmd_addrs := addrs; cmd_code := code; cmd_len := length;
            cmd_payload := payload; cmd_callback := kw_callback kw;
            cmd_qos := qos; cmd_priority := priority; cmd_dtm := now |}.

(** [_wrapper] of [validate_command]: the constructor's result, or [None]
    after [_LOGGER.exception] when it raised one of the five classes. *)
Definition validate_wrapper (r : res Command) : res (option Command * list log_call) :=
  match r with
  | Ok cmd => Ok (Some cmd, [])
  | Raise e =>
      if caught_by e [AssertionError; AttributeError; LookupError; TypeError; ValueError]
      then Ok (None, [Log_exception])
      else Raise e
  end.

(** [device_decorator]. *)
Definition device_decorator {A} (fcn : string → A → res Command)
    (dst_id : string) (args : A) : res (option Command * list log_call) :=
  validate_wrapper (fcn dst_id args).

(** A zone index as a caller gives it: an [int] or a [str]. *)
Inductive zone_arg : Type :=
  | ZoneInt (z : Z)
  | ZoneStr (s : string).

(** [zone_decorator]: the zone index is normalised before, and outside, the
    protected call. *)
Definition zone_decorator {A} (fcn : string → Z → A → res Command)
    (ctl_id : string) (zone_idx : zone_arg) (args : A)
    : res (option Command * list log_call) :=
  let zone_idx :=
    match zone_idx with
    | ZoneStr s => ZoneStr (if String.eqb s "HW" then "FA" else s)
    | z => z
    end in
  zone_idx ← match zone_idx with
             | ZoneInt z => Ok z
             | ZoneStr s => py_int16 s
             end;
  if (0 >? zone_idx) && (zone_idx >? 15) && negb (zone_idx =? 250)
  then Raise ValueError
  else validate_wrapper (fcn ctl_id zone_idx args).

(** The arguments of [set_dhw_params]; [VNone] stands for the default. *)
Record dhw_params : Type := {
  dp_setpoint : pyval;
  dp_overrun : pyval;
  dp_differential : pyval;
  dp_kwargs : Kwargs;
  dp_now : Z
}.

(** constructor for W/10A0, as written. *)
Definition set_dhw_params_body (ctl_id : string) (a : dhw_params) : res Command :=
  let setpoint := if is_none (dp_setpoint a) then VFloat (Qc_of_Z 50) else dp_setpoint a in
  let overrun := if is_none (dp_overrun a) then VInt 5 else dp_overrun a in
  let differential := if is_none (dp_differential a) then VFloat 1%Qc else dp_differential a in
  ok ← py_between (Qc_of_Z 30) setpoint (Qc_of_Z 85);
  _ ← py_assert ok;
  ok ← py_between 0%Qc overrun (Qc_of_Z 10);
  _ ← py_assert ok;
  ok ← py_between 1%Qc differential (Qc_of_Z 10);
  _ ← py_assert ok;
  s ← temp_to_hex H setpoint;
  o ← py_fmt_X 2 overrun;
  d ← temp_to_hex H differential;
  Command_init W_ "10A0" ("00" ++ s ++ o ++ d) ctl_id (dp_kwargs a) (dp_now a).

Definition set_dhw_params : string → dhw_params → res (option Command * list log_call) :=
  device_decorator set_dhw_params_body.

(** The arguments of [set_dhw_mode] and of [set_zone_mode] after the
    controller (and zone): the mode, the target ([active] or [setpoint]),
    [until] and [duration]. *)
Record mode_args : Type := {
  ma_mode : pyval;
  ma_target : pyval;
  ma_until : option Z;
  ma_duration : option Z;
  ma_kwargs : Kwargs;
  ma_now : Z
}.

(** The payload tail shared by the two constructors:
    ["FFFFFF" if duration is None else f"{duration:06X}"], then
    ["" if until is None else dtm_to_hex(until)]. *)
Definition duration_until_hex (until duration : option Z) : res string :=
  let d := match duration with
           | None => "FFFFFF"
           | Some n => fmt_X 6 n
           end in
  u ← match until with
      | None => Ok ""
      | Some _ => dtm_to_hex H until
      end;
  mret (d ++ u).

(** The payload of [set_dhw_mode]. *)
Definition set_dhw_mode_payload (a : mode_args) : res string :=
  mode ← normalise_zone_mode
            (match ma_mode a with
             | VBool b => VInt (if b then 1 else 0)
             | m => m
             end)
            (ma_target a) (ma_until a) (ma_duration a);
  if negb (is_none (ma_target a)) && negb (is_int (ma_target a)) then Raise TypeError
  else
    '(until, duration) ← normalise_duration mode (ma_target a) (ma_until a) (ma_duration a);
    tail ← duration_until_hex until duration;
    mret ("00" ++ (if py_truthy (ma_target a) then "01" else "00") ++ mode ++ tail).

(** constructor for W/1F41, as written. *)
Definition set_dhw_mode_body (ctl_id : string) (a : mode_args) : res Command :=
  payload ← set_dhw_mode_payload a;
  Command_init W_ "1F41" payload ctl_id (ma_kwargs a) (ma_now a).

Definition set_dhw_mode : string → mode_args → res (option Command * list log_call) :=
  device_decorator set_dhw_mode_body.

(** The payload of [set_zone_mode]. *)
Definition set_zone_mode_payload (zone_idx : Z) (a : mode_args) : res string :=
  mode ← normalise_zone_mode (ma_mode a) (ma_target a) (ma_until a) (ma_duration a);
  if negb (is_none (ma_target a)) && negb (is_number (ma_target a)) then Raise TypeError
  else
    '(until, duration) ← normalise_duration mode (ma_target a) (ma_until a) (ma_duration a);
    let z := fmt_X 2 zone_idx in
    t ← temp_to_hex H (ma_target a);
    tail ← duration_until_hex until duration;
    mret (z ++ t ++ mode ++ tail).

(** constructor for W/2349, as written. *)
Definition set_zone_mode_body (ctl_id : string) (zone_idx : Z) (a : mode_args)
    : res Command :=
  payload ← set_zone_mode_payload zone_idx a;
  Command_init W_ "2349" payload ctl_id (ma_kwargs a) (ma_now a).

Definition set_zone_mode
    : string → zone_arg → mode_args → res (option Command * list log_call) :=
  zone_decorator set_zone_mode_body.

End Commands.

(** ** Ordering of commands

    [__eq__] and [__lt__] compare the tuples [(_priority, _dtm)];
    [functools.total_ordering] derives the other three from them. *)

(** [(a1, a2) == (b1, b2)] and [(a1, a2) < (b1, b2)] on tuples. *)
Definition tuple_eq (a b : Z * Z) : bool := (a.1 =? b.1) && (a.2 =? b.2).
Definition tuple_lt (a b : Z * Z) : bool :=
  if negb (a.1 =? b.1) then a.1 <? b.1
  else if negb (a.2 =? b.2) then a.2 <? b.2
  else false.

Definition sort_key (c : Command) : Z * Z := (cmd_priority c, cmd_dtm c).

Definition Command_eq (self other : Command) : bool :=
  tuple_eq (sort_key self) (sort_key other).
Definition Command_lt (self other : Command) : bool :=
  tuple_lt (sort_key self) (sort_key other).
Definition Command_le (self other : Command) : bool :=
  Command_lt self other || Command_eq self other.
Definition Command_gt (self other : Command) : bool :=
  negb (Command_lt self other || Command_eq self other).
Definition Command_ge (self other : Command) : bool :=
  negb (Command_lt self other).

(** ** Reference notions used in the statements *)

(** The value of a 16-bit pattern read as a two's-complement signed integer. *)
Definition twos_complement16 (n : Z) : Z := (n + 2 ^ 15) mod 2 ^ 16 - 2 ^ 15.

(** [(p1, t1)] is lexicographically smaller than [(p2, t2)]. *)
Definition lex_smaller (a b : Z * Z) : Prop :=
  a.1 < b.1 ∨ (a.1 = b.1 ∧ a.2 < b.2).

(** ** An instance of the helpers

    The constructors are run below on this instance of [Helpers]: a frame
    has three space-separated addresses, the first being the source and the
    second the destination; a frame is well formed when its verb is one of
    the four verbs and its last field is an even number of hex digits; a
    temperature, asserted to be at least -128 and below 128, is its number
    of hundredths, truncated, on 4 hex digits; a
    timestamp is written as its 12 low hex digits.  The ids are those of
    [address.py]. *)

Fixpoint split_spaces (cur : string) (s : string) : list string :=
  match s with
  | EmptyString => [cur]
  | String c s' =>
      if Ascii.eqb c " " then cur :: split_spaces "" s'
      else split_spaces (cur ++ String c "") s'
  end.

Definition demo_pkt_addrs (s : string) : res (Address * Address * list Address) :=
  match (λ i, {| addr_id := i; addr_type := str_take 2 i |}) <$> split_spaces "" s with
  | [a0; a1; a2] => Ok (a0, a1, [a0; a1; a2])
  | _ => Raise TypeError
  end.

Definition demo_regex_match (s : string) : bool :=
  str_in (str_take 2 s) [I_; RQ; RP; W_]
  && match last (split_spaces "" s) with
     | Some p => all_hex p && Nat.even (String.length p)
     | None => false
     end.

Definition demo_temp_to_hex (v : pyval) : res string :=
  match v with
  | VNone => Ok "7FFF"
  | VBool false => Ok "7EFF"
  | _ =>
      q ← py_num v;
      _ ← py_assert (bool_decide (Qc_of_Z (-128) ≤ q)%Qc && bool_decide (q < Qc_of_Z 128)%Qc);
      let t := Z.quot (Qnum (Qcanon.this q) * 100) (Z.pos (Qden (Qcanon.this q))) in
      mret (fmt_X 4 (if t <? 0 then t + 2 ^ 16 else t))
  end.

Definition demo_dtm_to_hex (d : option Z) : res string :=
  match d with
  | None => Ok "FFFFFFFFFFFF"
  | Some n => Ok (fmt_X 12 (n mod 16 ^ 12))
  end.

Definition demo_helpers : Helpers :=
  {| pkt_addrs := demo_pkt_addrs;
     COMMAND_REGEX_match := demo_regex_match;
     temp_to_hex := demo_temp_to_hex;
     dtm_to_hex := demo_dtm_to_hex;
     HGI_DEV_ADDR_id := "18:000730";
     NON_DEV_ADDR_id := "--:------";
     NUL_DEV_ADDR_id := "63:262142" |}.

(** A call [set_zone_mode(ctl, zone, mode=..., setpoint=..., until=...,
    duration=...)] without further keyword arguments. *)
Definition mode_call (mode target : pyval) (until duration : option Z) : mode_args :=
  {| ma_mode := mode; ma_target := target; ma_until := until;
     ma_duration := duration; ma_kwargs := no_kwargs; ma_now := 0 |}.

(** A call [set_dhw_params(ctl, setpoint=..., overrun=..., differential=...)]. *)
Definition dhw_call (setpoint overrun differential : pyval) : dhw_params :=
  {| dp_setpoint := setpoint; dp_overrun := overrun;
     dp_differential := differential; dp_kwargs := no_kwargs; dp_now := 0 |}.

(** ** An instance of the tables

    The parsers are run below on this instance of [Tables]: the codes of
    the parsers embedded above, each with one payload pattern for every verb (pairs
    of upper-case hex digits, which is what the stand-in for the regex
    engine checks); six device types, each sending and receiving those codes
    with every verb; the fault tables of code 0418; timestamps and device
    ids left in hex. *)

(** The stand-in for the regex engine, on the one pattern of the table:
    pairs of upper-case hex digits, one pair at least; [$] also matches
    before a final newline. *)
Definition is_upper_hex (c : ascii) : bool :=
  let n := ascii_code c in
  ((48 <=? n) && (n <=? 57)) || ((65 <=? n) && (n <=? 70)).

Fixpoint hex_pairs (s : string) : bool :=
  match s with
  | String a (String b s') =>
      is_upper_hex a && is_upper_hex b
      && match s' with
         | EmptyString => true
         | String "010" EmptyString => true
         | _ => hex_pairs s'
         end
  | _ => false
  end.

Definition demo_codes : list string :=
  ["0008"; "0009"; "000A"; "000C"; "0418"; "1260"; "12B0"; "1F09"; "22C9";
   "2309"; "30C9"; "3150"; "3B00"].

Definition demo_lookup (t : list (string * string)) (k : string) : option string :=
  snd <$> find (λ kv, String.eqb k (fst kv)) t.

Definition demo_tables : Tables :=
  {| RAMSES_CODES := λ c,
       if str_in c demo_codes
       then Some {| verb_regex := λ _, Some "^([0-9A-F]{2})+$";
                    rq_may_have_payload := false |}
       else None;
     RAMSES_DEVICES := λ t,
       if str_in t ["01"; "02"; "04"; "13"; "18"; "34"]
       then Some (λ c, if str_in c demo_codes then Some [I_; RQ; RP; W_] else None)
       else None;
     CODE_IDX_COMPLEX := ["0008"; "000C"; "3150"];
     CODE_IDX_NONE := ["1F09"];
     CODE_IDX_SIMPLE := ["1260"; "12B0"; "2309"; "30C9"];
     re_match := λ _ s, hex_pairs s;
     _000C_DEVICE_TYPE :=
       demo_lookup [("00", "zone_actuators"); ("04", "zone_sensor");
                    ("0D", "dhw_sensor"); ("0E", "dhw_valve"); ("0F", "htg_control")];
     ATTR_DHW_VALVE := "dhw_valve";
     ATTR_DHW_VALVE_HTG := "dhw_valve_htg";
     CODE_0418_FAULT_STATE := demo_lookup [("00", "fault"); ("40", "restore")];
     CODE_0418_FAULT_TYPE := demo_lookup [("04", "battery_low"); ("06", "comms_fault")];
     CODE_0418_DEVICE_CLASS :=
       demo_lookup [("00", "controller"); ("01", "sensor"); ("04", "actuator")];
     ATTR_HTG_CONTROL := "heating_control";
     dts_from_hex := λ s, Ok (VStr s);
     hex_id_to_dec := λ s, Ok s;
     DEV_MODE := false |}.

(** No parser besides the embedded ones. *)
Definition no_other_parsers : string → option (string → Msg → res parsed) :=
  λ _, None.

(** The frame [ I --- 01:145038 --:------ 01:145038 <code> <len> <payload>]
    of a controller, received at [dtm]. *)
Definition controller_frame (c payload : string) (dtm : Z) (idx : record) : Msg :=
  {| msg_verb := I_; msg_code := c; msg_src_type := "01"; msg_dst_type := "01";
     msg_src_is_dst := true; msg_len := py_len payload / 2;
     msg_raw_payload := payload; msg_dtm := dtm; msg_idx := idx;
     msg_has_array := false; msg_has_payload := true; msg_max_zones := 12 |}.

(** 9999-12-31T23:59:00. *)
Definition last_minute : Z := DATETIME_MAX - 59999999.

(** The exception classes that [parse_payload] names in its handlers. *)
Definition HANDLED : list exc :=
  [AssertionError; CorruptPacketError; CorruptPayloadError; AttributeError;
   LookupError; TypeError; ValueError; NotImplementedError].

(** ** Further reference notions *)

(** The number whose binary digits, lowest first, are the list. *)
Fixpoint bits_value (bits : list Z) : Z :=
  match bits with
  | [] => 0
  | b :: bits' => b + 2 * bits_value bits'
  end.

(** Every character of the string satisfies [p]. *)
Fixpoint str_forall (p : ascii → bool) (s : string) : bool :=
  match s with
  | EmptyString => true
  | String c s' => p c && str_forall p s'
  end.

(** The printable ASCII characters, space to tilde. *)
Definition is_printable (c : ascii) : bool :=
  (32 <=? ascii_code c) && (ascii_code c <=? 126).

(** ** Further parsers ([parsers.py])

    As above, each is the function as written after the
    [@parser_decorator] line. *)

(** [int(n / d)] on integers: the true quotient, truncated towards zero. *)
Definition py_int_truediv (n d : Z) : Z := Z.quot n d.

(** rf_check *)
Definition parser_0016 (payload : string) (msg : Msg) : res parsed :=
  _ ← py_assert (str_in (msg_verb msg) [RQ; RP]);
  _ ← py_assert (msg_len msg =? 2);
  rf_value ← py_int16 (slice 2 4 payload);
  mret (PDict (py_dict
    [("rf_strength", VInt (Z.min (py_int_truediv rf_value 5 + 1) 5));
     ("rf_value", VInt rf_value)])).

(** The nested [_parser] of [parser_1030]: the one item of the dict it
    returns. *)
Definition parser_1030_parser (seqx : string) : res (string * pyval) :=
  _ ← py_assert (String.eqb (slice 2 4 seqx) "01");
  param_name ←
    (if String.eqb (slice 0 2 seqx) "C8" then Ok "max_flow_setpoint"
     else if String.eqb (slice 0 2 seqx) "C9" then Ok "min_flow_setpoint"
     else if String.eqb (slice 0 2 seqx) "CA" then Ok "valve_run_time"
     else if String.eqb (slice 0 2 seqx) "CB" then Ok "pump_run_time"
     else if String.eqb (slice 0 2 seqx) "CC" then Ok "_unknown_0"
     else Raise KeyError);
  v ← py_int16 (slice_from 4 seqx);
  mret (param_name, VInt v).

(** mixvalve_config (zone) *)
Definition parser_1030 (payload : string) (msg : Msg) : res parsed :=
  _ ← py_assert (msg_len msg =? 1 + 5 * 3);
  _ ← py_assert (str_in (slice_from 30 payload) ["00"; "01"]);
  params ← map_res parser_1030_parser (chunks 6 (slice_from 2 payload));
  idx ← _idx (slice 0 2 payload) msg;
  mret (PDict (foldl (λ m kv, <[kv.1 := kv.2]> m) idx params)).

(** [n / 4 in range(lo, hi)]: the quotient is a whole number of the range. *)
Definition quarter_in_range (n lo hi : Z) : bool :=
  (n mod 4 =? 0) && (lo <=? n / 4) && (n / 4 <? hi).

(** tpi_params (domain/zone/device) *)
Definition parser_1100 (payload : string) (msg : Msg) : res parsed :=
  if String.eqb (msg_src_type msg) "08" then
    _ ← py_assert (msg_len msg =? 19);
    mret (PDict (py_dict [("ordinal", VStr ("0x" ++ slice 2 8 payload));
                          ("blob", VStr (slice_from 8 payload))]))
  else if String.eqb (msg_verb msg) RQ && (msg_len msg =? 2) then mret (PDict ∅)
  else
    _ ← py_assert ((msg_len msg =? 5) || (msg_len msg =? 8));
    _ ← py_assert (str_in (slice 0 2 payload) ["00"; "FC"]);
    n ← py_int16 (slice 2 4 payload);
    _ ← py_assert (quarter_in_range n 1 13);
    n ← py_int16 (slice 4 6 payload);
    _ ← py_assert (quarter_in_range n 1 31);
    n ← py_int16 (slice 6 8 payload);
    _ ← py_assert (quarter_in_range n 0 16);
    _ ← py_assert (str_in (slice 8 10 payload) ["00"; "FF"]);
    cycle_rate ← py_int16 (slice 2 4 payload);
    min_on_time ← py_int16 (slice 4 6 payload);
    min_off_time ← py_int16 (slice 6 8 payload);
    let result := py_dict
      [("cycle_rate", VInt (py_int_truediv cycle_rate 4));
       ("min_on_time", VFloat (py_truediv min_on_time 4));
       ("min_off_time", VFloat (py_truediv min_off_time 4));
       ("_unknown_0", VStr (slice 8 10 payload))] in
    if msg_len msg >? 5 then
      _ ← py_assert (String.eqb (slice_from 14 payload) "01");
      pbw ← _temp (slice 10 14 payload);
      mret (PDict (<["_unknown_1" := VStr (slice_from 14 payload)]>
                   (<["proportional_band_width" := pbw]> result)))
    else mret (PDict result).

(** [v == n] for an integer [n]. *)
Definition py_eq_int (v : pyval) (n : Z) : bool :=
  match v with
  | VBool b => (if b then 1 else 0) =? n
  | VInt z => z =? n
  | VFloat q => bool_decide (q = Qc_of_Z n)
  | _ => false
  end.

(** dhw_params *)
Definition parser_10a0 (payload : string) (msg : Msg) : res parsed :=
  if String.eqb (msg_verb msg) RQ && (msg_len msg =? 1) then
    PDict <$> _idx (slice 0 2 payload) msg
  else
    _ ← py_assert ((msg_len msg =? 1) || (msg_len msg =? 3) || (msg_len msg =? 6));
    _ ← py_assert (str_in (slice 0 2 payload) ["00"; "01"]);
    result ←
      (if msg_len msg >=? 2 then
         setpoint ← _temp (slice 2 6 payload);
         mret ({["setpoint" :=
                   if py_eq_int setpoint 255 then VNone else setpoint]} : record)
       else mret ∅);
    result ←
      (if msg_len msg >=? 4 then
         overrun ← py_int16 (slice 6 8 payload);
         mret (<["overrun" := VInt overrun]> result)
       else mret result);
    result ←
      (if msg_len msg >=? 6 then
         differential ← _temp (slice 8 12 payload);
         mret (<["differential" := differential]> result)
       else mret result);
    mret (PDict result).

(** ** Further constructors ([protocol/command.py]) *)

(** [isinstance(v, bool)]. *)
Definition is_bool (v : pyval) : bool :=
  match v with
  | VBool _ => true
  | _ => false
  end.

(** An argument that is an [int] or a [str] of hex digits. *)
Inductive int_or_str : Type :=
  | AnInt (z : Z)
  | AStr (s : string).

(** The digits of a decimal literal, as [int_digits] for base 10. *)
Definition dec_digit (c : ascii) : option Z :=
  let n := ascii_code c in
  if (48 <=? n) && (n <=? 57) then Some (n - 48) else None.

Fixpoint int10_digits (acc : Z) (s : string) : option Z :=
  match s with
  | EmptyString => Some acc
  | String c s' =>
      match dec_digit c with
      | Some d => int10_digits (acc * 10 + d) s'
      | None =>
          if Ascii.eqb c "_"
          then match s' with
               | String c' _ =>
                   if bool_decide (is_Some (dec_digit c')) then int10_digits acc s'
                   else None
               | EmptyString => None
               end
          else None
      end
  end.

(** [int(s)] on an ASCII string: surrounding whitespace, an optional sign,
    decimal digits; [ValueError] otherwise. *)
Definition py_int10 (s : string) : res Z :=
  let t := int_strip s in
  let lit (u : string) :=
    match u with
    | String c _ => if bool_decide (is_Some (dec_digit c)) then int10_digits 0 u else None
    | EmptyString => None
    end in
  let r :=
    match t with
    | String "+" t' => lit t'
    | String "-" t' => Z.opp <$> lit t'
    | _ => lit t
    end in
  match r with
  | Some n => Ok n
  | None => Raise ValueError
  end.

(** The arguments of [set_mix_valve_params] after the controller and zone. *)
Record mix_valve_params : Type := {
  mv_max_flow_setpoint : pyval;
  mv_min_flow_setpoint : pyval;
  mv_valve_run_time : pyval;
  mv_pump_run_time : pyval;
  mv_kwargs : Kwargs;
  mv_now : Z
}.

(** The defaults of the signature: 55, 15, 150 and 15. *)
Definition mix_valve_defaults : mix_valve_params :=
  {| mv_max_flow_setpoint := VInt 55; mv_min_flow_setpoint := VInt 15;
     mv_valve_run_time := VInt 150; mv_pump_run_time := VInt 15;
     mv_kwargs := no_kwargs; mv_now := 0 |}.

(** The arguments of [set_zone_config] after the controller and zone. *)
Record zone_config_params : Type := {
  zc_min_temp : pyval;
  zc_max_temp : pyval;
  zc_local_override : pyval;
  zc_openwindow_function : pyval;
  zc_multiroom_mode : pyval;
  zc_kwargs : Kwargs;
  zc_now : Z
}.

(** The arguments of [set_tpi_params] after the controller. *)
Record tpi_params : Type := {
  tp_domain_id : int_or_str;
  tp_cycle_rate : pyval;
  tp_min_on_time : pyval;
  tp_min_off_time : pyval;
  tp_proportional_band_width : pyval;
  tp_kwargs : Kwargs;
  tp_now : Z
}.

(** [v * 4]: a product of numbers, a repetition of a string or a list. *)
Definition py_times4 (v : pyval) : res pyval :=
  match v with
  | VBool b => Ok (VInt (if b then 4 else 0))
  | VInt z => Ok (VInt (z * 4))
  | VFloat q => Ok (VFloat (q * Qc_of_Z 4)%Qc)
  | VStr s => Ok (VStr (s ++ s ++ s ++ s))
  | VList l => Ok (VList (l ++ l ++ l ++ l))
  | VNone => Raise TypeError
  end.

(** [int(v)]: a number truncated towards zero, or a string read in base 10. *)
Definition py_int_of (v : pyval) : res Z :=
  match v with
  | VBool b => Ok (if b then 1 else 0)
  | VInt z => Ok z
  | VFloat q => Ok (Z.quot (Qnum (Qcanon.this q)) (Z.pos (Qden (Qcanon.this q))))
  | VStr s => py_int10 s
  | VNone | VList _ => Raise TypeError
  end.

(** [v in (3, 6, 9, 12)]: equality with one of the numbers. *)
Definition py_in_cycle_rates (v : pyval) : bool :=
  match v with
  | VBool _ | VInt _ | VFloat _ =>
      match py_num v with
      | Ok q => bool_decide (q ∈ [Qc_of_Z 3; Qc_of_Z 6; Qc_of_Z 9; Qc_of_Z 12])
      | Raise _ => false
      end
  | _ => false
  end.

(** [v is None or lo <= v <= hi]. *)
Definition none_or_between (lo : Qc) (v : pyval) (hi : Qc) : res bool :=
  if is_none v then Ok true else py_between lo v hi.

(** The arguments of [Command.packet] after the verb, code and payload. *)
Record packet_args : Type := {
  pk_addr0 : option string;
  pk_addr1 : option string;
  pk_addr2 : option string;
  pk_seqn : option int_or_str;
  pk_kwargs : Kwargs;
  pk_now : Z
}.

Section MoreCommands.
Variable H : Helpers.

(** The payload of [set_mix_valve_params]. *)
Definition set_mix_valve_params_payload (zone_idx : Z) (a : mix_valve_params)
    : res string :=
  ok ← py_between 0%Qc (mv_max_flow_setpoint a) (Qc_of_Z 99);
  _ ← py_assert ok;
  ok ← py_between 0%Qc (mv_min_flow_setpoint a) (Qc_of_Z 50);
  _ ← py_assert ok;
  ok ← py_between 0%Qc (mv_valve_run_time a) (Qc_of_Z 240);
  _ ← py_assert ok;
  ok ← py_between 0%Qc (mv_pump_run_time a) (Qc_of_Z 99);
  _ ← py_assert ok;
  max_flow ← py_fmt_X 2 (mv_max_flow_setpoint a);
  min_flow ← py_fmt_X 2 (mv_min_flow_setpoint a);
  valve ← py_fmt_X 2 (mv_valve_run_time a);
  pump ← py_fmt_X 2 (mv_pump_run_time a);
  mret (fmt_X 2 zone_idx ++ "C801" ++ max_flow ++ "C901" ++ min_flow
        ++ "CA01" ++ valve ++ "CB01" ++ pump ++ "CC01" ++ fmt_X 2 1).

(** constructor for W/1030, as written. *)
Definition set_mix_valve_params_body (ctl_id : string) (zone_idx : Z)
    (a : mix_valve_params) : res Command :=
  payload ← set_mix_valve_params_payload zone_idx a;
  Command_init H W_ "1030" payload ctl_id (mv_kwargs a) (mv_now a).

Definition set_mix_valve_params
    : string → zone_arg → mix_valve_params → res (option Command * list log_call) :=
  zone_decorator set_mix_valve_params_body.

(** The payload of [set_zone_config]. *)
Definition set_zone_config_payload (zone_idx : Z) (a : zone_config_params)
    : res string :=
  ok ← py_between (Qc_of_Z 5) (zc_min_temp a) (Qc_of_Z 21);
  _ ← py_assert ok;
  ok ← py_between (Qc_of_Z 21) (zc_max_temp a) (Qc_of_Z 35);
  _ ← py_assert ok;
  _ ← py_assert (is_bool (zc_local_override a));
  _ ← py_assert (is_bool (zc_openwindow_function a));
  _ ← py_assert (is_bool (zc_multiroom_mode a));
  let bitmap := if py_truthy (zc_local_override a) then 0 else 1 in
  let bitmap := Z.lor bitmap (if py_truthy (zc_openwindow_function a) then 0 else 2) in
  let bitmap := Z.lor bitmap (if py_truthy (zc_multiroom_mode a) then 0 else 16) in
  min_temp ← temp_to_hex H (zc_min_temp a);
  max_temp ← temp_to_hex H (zc_max_temp a);
  mret (fmt_X 2 zone_idx ++ fmt_X 2 bitmap ++ min_temp ++ max_temp).

(** constructor for W/000A, as written. *)
Definition set_zone_config_body (ctl_id : string) (zone_idx : Z)
    (a : zone_config_params) : res Command :=
  payload ← set_zone_config_payload zone_idx a;
  Command_init H W_ "000A" payload ctl_id (zc_kwargs a) (zc_now a).

Definition set_zone_config
    : string → zone_arg → zone_config_params → res (option Command * list log_call) :=
  zone_decorator set_zone_config_body.

(** constructor for RQ/0418, as written; the arguments are the log index,
    the keyword arguments and the time of the call. *)
Definition get_system_log_entry_body (ctl_id : string) (a : int_or_str * Kwargs * Z)
    : res Command :=
  let '(log_idx, kw, now) := a in
  log_idx ← match log_idx with
            | AnInt z => Ok z
            | AStr s => py_int16 s
            end;
  Command_init H RQ "0418" (fmt_X 6 log_idx) ctl_id kw now.

Definition get_system_log_entry
    : string → int_or_str * Kwargs * Z → res (option Command * list log_call) :=
  device_decorator get_system_log_entry_body.

(** The payload of [set_tpi_params]. *)
Definition set_tpi_params_payload (a : tpi_params) : res string :=
  _ ← py_assert (is_none (tp_cycle_rate a) || py_in_cycle_rates (tp_cycle_rate a));
  ok ← none_or_between 1%Qc (tp_min_on_time a) (Qc_of_Z 5);
  _ ← py_assert ok;
  ok ← none_or_between 1%Qc (tp_min_off_time a) (Qc_of_Z 5);
  _ ← py_assert ok;
  ok ← none_or_between (Qc_of_Z 3 / Qc_of_Z 2)%Qc (tp_proportional_band_width a)
         (Qc_of_Z 3);
  _ ← py_assert ok;
  let domain_id := match tp_domain_id a with
                   | AnInt z => fmt_X 2 z
                   | AStr s => s
                   end in
  c ← py_times4 (tp_cycle_rate a);
  cycle_rate ← py_fmt_X 2 c;
  n ← py_times4 (tp_min_on_time a);
  n ← py_int_of n;
  let min_on_time := fmt_X 2 n in
  n ← py_times4 (tp_min_off_time a);
  n ← py_int_of n;
  let min_off_time := fmt_X 2 n in
  pbw ← temp_to_hex H (tp_proportional_band_width a);
  mret (domain_id ++ cycle_rate ++ min_on_time ++ (min_off_time ++ "FF")
        ++ (pbw ++ "01")).

(** constructor for W/1100, as written. *)
Definition set_tpi_params_body (ctl_id : string) (a : tpi_params) : res Command :=
  payload ← set_tpi_params_payload a;
  Command_init H W_ "1100" payload ctl_id (tp_kwargs a) (tp_now a).

Definition set_tpi_params : string → tpi_params → res (option Command * list log_call) :=
  device_decorator set_tpi_params_body.

(** [Command.packet]: the generic constructor.  The command is first built
    for the null device, then given its sequence number and its addresses,
    and checked again. *)
Definition Command_packet (verb code payload : string) (a : packet_args)
    : res Command :=
  let verb := if String.eqb verb "I" then I_
              else if String.eqb verb "W" then W_ else verb in
  cmd ← Command_init H verb code payload (NUL_DEV_ADDR_id H) (pk_kwargs a) (pk_now a);
  let addr0 := default (NON_DEV_ADDR_id H) (pk_addr0 a) in
  let addr1 := default (NON_DEV_ADDR_id H) (pk_addr1 a) in
  let addr2 := default (NON_DEV_ADDR_id H) (pk_addr2 a) in
  seqn ← match pk_seqn a with
         | Some (AStr s) =>
             if str_in s [""; "-"; "--"; "---"] then Ok "---"
             else fmt_03d <$> py_int10 s
         | Some (AnInt z) => Ok (fmt_03d z)
         | None => Ok (cmd_seqn cmd)
         end;
  '(src, dst, addrs) ← pkt_addrs H (addr0 ++ " " ++ addr1 ++ " " ++ addr2);
  let cmd := {| cmd_verb := cmd_verb cmd; cmd_seqn := seqn; cmd_src := src;
                cmd_dst := dst; cmd_addrs := addrs; cmd_code := cmd_code cmd;
                cmd_len := cmd_len cmd; cmd_payload := cmd_payload cmd;
                cmd_callback := cmd_callback cmd; cmd_qos := cmd_qos cmd;
                cmd_priority := cmd_priority cmd; cmd_dtm := cmd_dtm cmd |} in
  valid ← is_valid H cmd;
  if negb valid then Raise ValueError else mret cmd.

End MoreCommands.

(** ** The fault log ([protocol/command.py])

    The state of a [FaultLog]: [_START], [_limit], [_fault_log] (a dict
    from the index of an entry to the entry, or [None]) and
    [_fault_log_done] ([None] or [True]). *)
Record FaultLog : Type := {
  fl_START : Z;
  fl_limit : Z;
  fl_fault_log : option (gmap Z record);
  fl_fault_log_done : bool
}.

(** [FaultLog.__init__]. *)
Definition FaultLog_init : FaultLog :=
  {| fl_START := 0; fl_limit := 6; fl_fault_log := None; fl_fault_log_done := false |}.

Definition fault_log_done (self : FaultLog) : FaultLog :=
  {| fl_START := fl_START self; fl_limit := fl_limit self;
     fl_fault_log := fl_fault_log self; fl_fault_log_done := true |}.

(** [rq_callback(msg)], the callback that [_rq_log_entry] registers: the new
    state, and the index of the entry that it requests next, if any.  [msg]
    is the decoded payload of the reply, a record, or [None] when the
    callback is called without a message. *)
Definition rq_callback (self : FaultLog) (msg : option record)
    : res (FaultLog * option Z) :=
  match msg with
  | None => mret (fault_log_done self, None)
  | Some payload =>
      log_idx ← match default (VStr "00") (payload !! "log_idx") with
                | VStr s => py_int16 s
                | _ => Raise TypeError
                end;
      let log := delete "log_idx" payload in
      if bool_decide (log = ∅) then mret (fault_log_done self, None)
      else
        match fl_fault_log self with
        | None => Raise TypeError
        | Some entries =>
            let self :=
              {| fl_START := fl_START self; fl_limit := fl_limit self;
                 fl_fault_log := Some (<[log_idx := log]> entries);
                 fl_fault_log_done := fl_fault_log_done self |} in
            if log_idx <? fl_limit self then mret (self, Some (log_idx + 1))
            else mret (fault_log_done self, None)
        end
  end.

(** The exchange that [_rq_log_entry(log_idx)] starts: the request for the
    entry is sent, the callback runs on the answer and may request the next
    entry.  [reply i] is what the callback receives in answer to the request
    for entry [i]; [fuel] is the number of answers that arrive before
    [get_fault_log] gives up.  The result is the final state and the indices
    requested, in order. *)
Fixpoint _rq_log_entry (reply : Z → option record) (fuel : nat) (self : FaultLog)
    (log_idx : Z) : res (FaultLog * list Z) :=
  match fuel with
  | O => Ok (self, [log_idx])
  | S fuel' =>
      '(self', next) ← rq_callback self (reply log_idx);
      match next with
      | Some i =>
          '(self'', sent) ← _rq_log_entry reply fuel' self' i;
          mret (self'', log_idx :: sent)
      | None => Ok (self', [log_idx])
      end
  end.

(** [get_fault_log(start, limit)] up to the end of its loop: the state in
    which the loop ends and the requests sent.  The method then returns the
    [fault_log] property of that state, or has raised
    [ExpiredCallbackError] if [_fault_log_done] was not set in time. *)
Definition get_fault_log (reply : Z → option record) (fuel : nat) (self : FaultLog)
    (start limit : option Z) : res (FaultLog * list Z) :=
  let self := {| fl_START := default 0 start; fl_limit := default 6 limit;
                 fl_fault_log := Some ∅; fl_fault_log_done := false |} in
  _rq_log_entry reply fuel self (fl_START self).

(** A reply that ends the exchange: no message, or a record that holds
    nothing besides a readable [log_idx]. *)
Definition null_reply (msg : option record) : Prop :=
  match msg with
  | None => True
  | Some payload =>
      delete "log_idx" payload = (∅ : record)
      ∧ match payload !! "log_idx" with
        | Some (VStr s) => ∃ n, py_int16 s = Ok n
        | Some _ => False
        | None => True
        end
  end.

(** A reply that carries entry [i]. *)
Definition entry_reply (i : Z) (msg : option record) : Prop :=
  ∃ payload s, msg = Some payload
    ∧ payload !! "log_idx" = Some (VStr s) ∧ py_int16 s = Ok i
    ∧ delete "log_idx" payload ≠ (∅ : record).

(** ** Further instances *)

(** A frame as [controller_frame], carrying an array. *)
Definition array_frame (c payload : string) (idx : record) : Msg :=
  {| msg_verb := I_; msg_code := c; msg_src_type := "01"; msg_dst_type := "01";
     msg_src_is_dst := true; msg_len := py_len payload / 2;
     msg_raw_payload := payload; msg_dtm := 0; msg_idx := idx;
     msg_has_array := true; msg_has_payload := true; msg_max_zones := 12 |}.

(** The request [RQ --- 18:000730 01:145038 --:------ <code> <len> <payload>]
    of the gateway. *)
Definition request_frame (c payload : string) (idx : record) : Msg :=
  {| msg_verb := RQ; msg_code := c; msg_src_type := "18"; msg_dst_type := "01";
     msg_src_is_dst := false; msg_len := py_len payload / 2;
     msg_raw_payload := payload; msg_dtm := 0; msg_idx := idx;
     msg_has_array := false; msg_has_payload := true; msg_max_zones := 12 |}.

(** The tables of [demo_tables], with code 0418 flagged
    [RQ_MAY_HAVE_PAYLOAD]: its requests carry the index of the entry. *)
Definition fault_log_tables : Tables :=
  {| RAMSES_CODES := λ c,
       if String.eqb c "0418"
       then Some {| verb_regex := λ _, Some "^([0-9A-F]{2})+$";
                    rq_may_have_payload := true |}
       else RAMSES_CODES demo_tables c;
     RAMSES_DEVICES := RAMSES_DEVICES demo_tables;
     CODE_IDX_COMPLEX := CODE_IDX_COMPLEX demo_tables;
     CODE_IDX_NONE := CODE_IDX_NONE demo_tables;
     CODE_IDX_SIMPLE := CODE_IDX_SIMPLE demo_tables;
     re_match := re_match demo_tables;
     _000C_DEVICE_TYPE := _000C_DEVICE_TYPE demo_tables;
     ATTR_DHW_VALVE := ATTR_DHW_VALVE demo_tables;
     ATTR_DHW_VALVE_HTG := ATTR_DHW_VALVE_HTG demo_tables;
     CODE_0418_FAULT_STATE := CODE_0418_FAULT_STATE demo_tables;
     CODE_0418_FAULT_TYPE := CODE_0418_FAULT_TYPE demo_tables;
     CODE_0418_DEVICE_CLASS := CODE_0418_DEVICE_CLASS demo_tables;
     ATTR_HTG_CONTROL := ATTR_HTG_CONTROL demo_tables;
     dts_from_hex := dts_from_hex demo_tables;
     hex_id_to_dec := hex_id_to_dec demo_tables;
     DEV_MODE := DEV_MODE demo_tables |}.

(** The controller answers the requests for entries 0 to 5 with an entry
    and any other request with a null entry. *)
Definition six_entries (i : Z) : option record :=
  if (0 <=? i) && (i <? 6)
  then Some (py_dict [("log_idx", VStr (fmt_X 2 i)); ("fault_state", VStr "fault")])
  else Some (py_dict [("log_idx", VStr "00")]).

(** ** The remaining parsers ([parsers.py])

    With the parsers above, these are all the functions [parser_xxxx] of
    [parsers.py].  As above, each is the function as written after the
    [@parser_decorator] line, and the blocks guarded by [TEST_MODE and ...]
    are left out. *)

(** What these parsers import besides [Tables]: two tables of [const.py],
    [dtm_from_hex] of [helpers.py] (imported as [_dtm]), the names and the
    tables of [FanSwitch] of [devices.py], and the frame decoder, the
    message ids and the field names of [opentherm.py].  [decode_frame]
    returns the message type, the message id, the value mapping and the
    schema. *)
Record Externals : Type := {
  _0005_ZONE_TYPE : string → option string;
  SYSTEM_MODE_MAP : string → option string;
  _dtm : string → res pyval;
  FAN_MODE : string;
  FAN_MODES : Z → option pyval;
  HEATER_MODE : string;
  HEATER_MODES : Z → option pyval;
  BOOST_TIMER : string;
  decode_frame : string → res (string * Z * record * record);
  R8810A_MSG_IDS : Z → bool;
  MSG_ID : string;
  MSG_TYPE : string;
  MSG_NAME : string;
  MSG_DESC : string;
  EN : string
}.

(** Modelled from the spec: the names under which [devices.py] and
    [opentherm.py] (modules that are not among the sources embedded here)
    file their values are none of the index keys, the index being "extracted
    from the leading payload byte(s)" and "merged into the final record
    under its semantic key" by the wrapper, and the OpenTherm sub-decoder
    returning "(msg_type, msg_id, value_mapping, schema)" for the data of
    the embedded frame. *)
Definition plain_keys (E : Externals) : Prop :=
  (FAN_MODE E ∉ identity_keys) ∧ (HEATER_MODE E ∉ identity_keys)
  ∧ (BOOST_TIMER E ∉ identity_keys)
  ∧ (MSG_ID E ∉ identity_keys) ∧ (MSG_TYPE E ∉ identity_keys)
  ∧ (MSG_NAME E ∉ identity_keys) ∧ (MSG_DESC E ∉ identity_keys)
  ∧ ∀ frame r k, decode_frame E frame = Ok r → k ∈ identity_keys → r.1.2 !! k = None.

(** [ZONE_MODE_MAP.get(k)]: the table that the parsers import from
    [const.py] is the table of the zone modes given above, by code. *)
Definition zone_mode_name (k : string) : option string :=
  snd <$> find (λ kv, String.eqb k (fst kv)) ZONE_MODE_MAP.

(** The code [_0008] of [const.py]. *)
Definition _0008 : string := "0008".

(** [s * n] on a string. *)
Fixpoint str_repeat (n : nat) (s : string) : string :=
  match n with
  | O => ""
  | S n' => s ++ str_repeat n' s
  end.

(** [s[-k:]]. *)
Definition slice_last (k : nat) (s : string) : string :=
  str_drop (String.length s - k) s.

(** [l[:n]] on a list. *)
Definition py_list_take {A} (n : Z) (l : list A) : list A :=
  if n <? 0 then take (length l - Z.to_nat (- n)) l else take (Z.to_nat n) l.

(** [bool(n & mask)]. *)
Definition bit_set (n mask : Z) : pyval := VBool (negb (Z.land n mask =? 0)).

(** [{**base, k1: v1, k2: v2, ...}] and [base.update({k1: v1, ...})]. *)
Definition py_update (base : record) (l : list (string * pyval)) : record :=
  foldl (λ m kv, <[kv.1 := kv.2]> m) base l.

(** [x or y]. *)
Definition py_or (x y : pyval) : pyval := if py_truthy x then x else y.

(** [bytes.split(b"\x00")[0]]: the bytes before the first zero. *)
Fixpoint before_nul (bs : list Z) : list Z :=
  match bs with
  | [] => []
  | b :: bs' => if b =? 0 then [] else b :: before_nul bs'
  end.

(** [bytes.decode()]: UTF-8, strict.  A [str] is held as its UTF-8 bytes
    (for ASCII text, the text itself); the decoder checks that the bytes are
    well formed and counts the characters, which is [len] of the result. *)
Definition utf8_cont (b : Z) : bool := (128 <=? b) && (b <=? 191).

(** The number of bytes of the well-formed sequence at the head. *)
Definition utf8_head (bs : list Z) : option nat :=
  match bs with
  | [] => None
  | b0 :: bs1 =>
      if b0 <? 128 then Some 1%nat
      else
        match bs1 with
        | [] => None
        | b1 :: bs2 =>
            if (194 <=? b0) && (b0 <=? 223)
            then (if utf8_cont b1 then Some 2%nat else None)
            else
              match bs2 with
              | [] => None
              | b2 :: bs3 =>
                  if (224 <=? b0) && (b0 <=? 239) then
                    if (if b0 =? 224 then (160 <=? b1) && (b1 <=? 191)
                        else if b0 =? 237 then (128 <=? b1) && (b1 <=? 159)
                        else utf8_cont b1)
                       && utf8_cont b2
                    then Some 3%nat else None
                  else
                    match bs3 with
                    | [] => None
                    | b3 :: _ =>
                        if (240 <=? b0) && (b0 <=? 244) then
                          if (if b0 =? 240 then (144 <=? b1) && (b1 <=? 191)
                              else if b0 =? 244 then (128 <=? b1) && (b1 <=? 143)
                              else utf8_cont b1)
                             && utf8_cont b2 && utf8_cont b3
                          then Some 4%nat else None
                        else None
                    end
              end
        end
  end.

Fixpoint utf8_length (fuel : nat) (bs : list Z) : option nat :=
  match bs with
  | [] => Some O
  | _ =>
      match fuel with
      | O => None
      | S fuel' =>
          match utf8_head bs with
          | None => None
          | Some n => S <$> utf8_length fuel' (drop n bs)
          end
      end
  end.

Definition utf8_decode (bs : list Z) : res (string * nat) :=
  match utf8_length (length bs) bs with
  | Some n => Ok (string_of_bytes bs, n)
  | None => Raise UnicodeDecodeError
  end.

(** The table [RHUM_STATE] of [parser_12a0], its keys. *)
Definition RHUM_STATE : list string := ["EF"; "F0"; "F1"; "F2"; "F3"; "F4"; "F5"].

(** The table [CODE_31DA_FAN_INFO] of [parser_31da], keys 0x00 to 0x18. *)
Definition CODE_31DA_FAN_INFO (n : Z) : option string :=
  if n <? 0 then None
  else
    ["off"; "speed 1"; "speed 2"; "speed 3"; "speed 4"; "speed 5"; "speed 6";
     "speed 7"; "speed 8"; "speed 9"; "speed 10";
     "speed 1 temporary override"; "speed 2 temporary override";
     "speed 3 temporary override"; "speed 4 temporary override";
     "speed 5 temporary override"; "speed 6 temporary override";
     "speed 7 temporary override"; "speed 8 temporary override";
     "speed 9 temporary override"; "speed 10 temporary override";
     "away"; "absolute minimum"; "absolute maximum"; "auto"] !! Z.to_nat n.

(** The nested [_percent(val, precision)] of [parser_31da]; it hides the
    global one there.  [precision] is 0.5 (the default) or 1. *)
Definition parser_31da_percent (val : string) (precision : Qc) : res pyval :=
  if str_in val ["EF"; "FF"] then mret VNone
  else if negb (py_len val =? 2) then Raise TypeError
  else
    result ← py_int16 val;
    if bool_decide (Qc_of_Z 100 / precision < Qc_of_Z result)%Qc then Raise ValueError
    else mret (VFloat (py_truediv result 100 / precision)%Qc).

Definition half : Qc := (Qc_of_Z 1 / Qc_of_Z 2)%Qc.

(** The record [{"ordinal": f"0x{payload[2:8]}", "blob": payload[8:]}]. *)
Definition ordinal_blob (payload : string) : record :=
  py_dict [("ordinal", VStr ("0x" ++ slice 2 8 payload));
           ("blob", VStr (slice_from 8 payload))].

Section FurtherParsers.
Variable T : Tables.
Variable E : Externals.

(** rf_unknown *)
Definition parser_0001 (payload : string) (msg : Msg) : res parsed :=
  _ ← py_assert (str_in (msg_verb msg) [I_; W_]);
  _ ← py_assert (msg_len msg =? 5);
  ok ← (if str_in (slice 0 2 payload) ["FC"; "FF"] then mret true
        else n ← py_int16 (slice 0 2 payload); mret (n <? msg_max_zones msg));
  _ ← py_assert ok;
  _ ← py_assert (str_in (slice 2 6 payload) ["0000"; "FFFF"]);
  _ ← py_assert (str_in (slice 6 8 payload) ["02"; "05"]);
  mret (PDict {["payload" :=
                  VStr (slice 0 2 payload ++ "-" ++ slice 2 6 payload ++ "-"
                        ++ slice 6 8 payload ++ "-" ++ slice_from 8 payload)]}).

(** sensor_weather *)
Definition parser_0002 (payload : string) (msg : Msg) : res parsed :=
  _ ← py_assert (msg_len msg =? 4);
  t ← _temp (slice 2 6 payload);
  mret (PDict (py_dict [("temperature", t); ("_unknown", VStr (slice_from 6 payload))])).

(** zone_name *)
Definition parser_0004 (payload : string) (msg : Msg) : res parsed :=
  _ ← py_assert (msg_len msg =? 22);
  _ ← py_assert (String.eqb (slice 2 4 payload) "00");
  if String.eqb (slice_from 4 payload) (str_repeat 20 "7F") then
    PDict <$> _idx (slice 0 2 payload) msg
  else
    idx ← _idx (slice 0 2 payload) msg;
    name ← _str (slice_from 4 payload);
    mret (PDict (py_update idx [("name", name)])).

Definition parser_0005_parser (payload : string) (msg : Msg) (seqx : string)
    : res record :=
  _ ← py_assert ((py_len seqx =? 8) || (py_len seqx =? 12));
  _ ← py_assert (String.eqb (slice 0 2 seqx) (slice 0 2 payload));
  _ ← py_assert (String.eqb (slice 0 2 seqx) "00");
  let max_zones := msg_max_zones msg in
  lo ← _flag8 (slice 4 6 seqx);
  hi ← _flag8 (slice 6 8 seqx);
  mret (py_dict
    [("zone_mask", VList (VInt <$> py_list_take max_zones (lo ++ hi)));
     ("zone_type", VStr (get_or_key (_0005_ZONE_TYPE E) (slice 2 4 seqx)))]).

(** system_zone *)
Definition parser_0005 (payload : string) (msg : Msg) : res parsed :=
  if String.eqb (msg_verb msg) RQ then
    _ ← py_assert (String.eqb (slice 0 2 payload) "00");
    mret (PDict {["zone_type" :=
                    VStr (get_or_key (_0005_ZONE_TYPE E) (slice 2 4 payload))]})
  else
    _ ← py_assert (str_in (msg_verb msg) [I_; RP]);
    if String.eqb (msg_src_type msg) "34" then
      _ ← py_assert (msg_len msg =? 12);
      PList <$> map_res (parser_0005_parser payload msg) (chunks 8 payload)
    else
      _ ← py_assert (str_in (msg_src_type msg) ["01"; "02"]);
      PDict <$> parser_0005_parser payload msg payload.

(** schedule_sync *)
Definition parser_0006 (payload : string) (msg : Msg) : res parsed :=
  if String.eqb (msg_verb msg) RQ then
    _ ← py_assert (String.eqb payload "00");
    mret (PDict ∅)
  else
    _ ← py_assert (String.eqb (msg_verb msg) RP);
    _ ← py_assert (msg_len msg =? 4);
    _ ← py_assert (String.eqb (slice 0 2 payload) "00");
    if String.eqb (slice_from 2 payload) "FFFFFF" then mret (PDict ∅)
    else
      _ ← py_assert (String.eqb (slice 2 4 payload) "05");
      n ← py_int16 (slice_from 4 payload);
      mret (PDict (py_dict [("change_counter", VInt n);
                            ("_header", VStr (slice 0 4 payload))])).

(** unknown, from STA *)
Definition parser_000e (payload : string) (msg : Msg) : res parsed :=
  _ ← py_assert (str_in payload ["000000"; "000014"]);
  mret (PDict {["unknown_0" := VStr payload]}).

(** language (of device/system) *)
Definition parser_0100 (payload : string) (msg : Msg) : res parsed :=
  if msg_len msg =? 1 then
    _ ← py_assert (String.eqb (msg_verb msg) RQ);
    mret (PDict ∅)
  else
    language ← _str (slice 2 6 payload);
    mret (PDict (py_dict [("language", language);
                          ("_unknown_0", VStr (slice_from 6 payload))])).

(** unknown, from a HR91 *)
Definition parser_01d0 (payload : string) (msg : Msg) : res parsed :=
  _ ← py_assert (msg_len msg =? 2);
  _ ← py_assert (str_in (slice_from 2 payload) ["00"; "03"]);
  mret (PDict {["unknown_0" := VStr (slice_from 2 payload)]}).

(** unknown, from a HR91 *)
Definition parser_01e9 (payload : string) (msg : Msg) : res parsed :=
  _ ← py_assert (msg_len msg =? 2);
  _ ← py_assert (str_in (slice_from 2 payload) ["00"; "03"]);
  mret (PDict {["unknown_0" := VStr (slice_from 2 payload)]}).

(** The nested [_header] of [parser_0404]. *)
Definition parser_0404_header (seqx : string) : res record :=
  _ ← py_assert (str_in (slice 2 4 seqx) ["20"; "23"]);
  _ ← py_assert (String.eqb (slice 4 8 seqx) _0008);
  frag_index ← py_int16 (slice 10 12 seqx);
  frag_total ← py_int16 (slice_from 12 seqx);
  frag_length ← py_int16 (slice 8 10 seqx);
  mret (py_dict [("frag_index", VInt frag_index);
                 ("frag_total", VInt frag_total);
                 ("frag_length", VInt frag_length)]).

(** zone_schedule (fragment) *)
Definition parser_0404 (payload : string) (msg : Msg) : res parsed :=
  if String.eqb (msg_verb msg) RQ then
    _ ← py_assert (msg_len msg =? 7);
    PDict <$> parser_0404_header (slice 0 14 payload)
  else
    _ ← py_assert (str_in (msg_verb msg) [RP; I_; W_]);
    header ← parser_0404_header (slice 0 14 payload);
    mret (PDict (py_update header [("fragment", VStr (slice_from 14 payload))])).

(** unknown, from STA *)
Definition parser_042f (payload : string) (msg : Msg) : res parsed :=
  counter_1 ← py_int16 (slice 2 6 payload);
  counter_2 ← py_int16 (slice 6 10 payload);
  counter_total ← py_int16 (slice 10 14 payload);
  mret (PDict (py_dict [("counter_1", VInt counter_1);
                        ("counter_2", VInt counter_2);
                        ("counter_total", VInt counter_total);
                        ("unknown_0", VStr (slice_from 14 payload))])).

(** unknown, from THM *)
Definition parser_0b04 (payload : string) (msg : Msg) : res parsed :=
  _ ← py_assert (msg_len msg =? 2);
  _ ← py_assert (String.eqb (slice 0 2 payload) "00");
  _ ← py_assert (String.eqb (slice_from 2 payload) "C8");
  mret (PDict {["_unknown_0" := VStr (slice_from 2 payload)]}).

(** device_battery (battery_state) *)
Definition parser_1060 (payload : string) (msg : Msg) : res parsed :=
  _ ← py_assert (msg_len msg =? 3);
  _ ← py_assert (str_in (slice 4 6 payload) ["00"; "01"]);
  level ← _percent (slice 2 4 payload);
  mret (PDict (py_dict [("battery_low", VBool (String.eqb (slice_from 4 payload) "00"));
                        ("battery_level", level)])).

(** unknown (non-Evohome) *)
Definition parser_1090 (payload : string) (msg : Msg) : res parsed :=
  _ ← py_assert (msg_len msg =? 5);
  n ← py_int16 (slice 0 2 payload);
  _ ← py_assert (n <? 2);
  temp_0 ← _temp (slice 2 6 payload);
  temp_1 ← _temp (slice 6 10 payload);
  mret (PDict (py_dict [("temp_0", temp_0); ("temp_1", temp_1)])).

(** device_info.  [DEV_MODE] is here the local constant [False], with which
    the chain of [elif] does nothing. *)
Definition parser_10e0 (payload : string) (msg : Msg) : res parsed :=
  _ ← py_assert (msg_len msg >=? 19);
  date_2 ← _date (slice 20 28 payload);
  date_1 ← _date (slice 28 36 payload);
  bs ← bytes_fromhex (slice_from 36 payload);
  description ← utf8_decode (before_nul bs);
  mret (PDict (py_dict
    [("unknown", VStr (slice 2 20 payload));
     ("date_2", py_or date_2 (VStr "0000-00-00"));
     ("date_1", py_or date_1 (VStr "0000-00-00"));
     ("description", VStr description.1);
     ("_unknown_2", VStr (slice_from (38 + description.2 * 2) payload))])).

(** outdoor_temp *)
Definition parser_1290 (payload : string) (msg : Msg) : res parsed :=
  t ← _temp (slice_from 2 payload);
  mret (PDict {["temperature" := t]}).

(** hvac_1298 *)
Definition parser_1298 (payload : string) (msg : Msg) : res parsed :=
  v ← _double (slice_from 2 payload) 1;
  mret (PDict {["unknown" := v]}).

(** indoor_humidity *)
Definition parser_12a0 (payload : string) (msg : Msg) : res parsed :=
  _ ← py_assert (String.eqb (slice 0 2 payload) "00");
  ok ← (if str_in (slice 2 4 payload) RHUM_STATE then mret true
        else n ← py_int16 (slice 2 4 payload); mret (n <=? 100));
  _ ← py_assert ok;
  rh ← (if negb (String.eqb (slice 2 4 payload) "EF")
        then n ← py_int16 (slice 2 4 payload); mret (VFloat (py_truediv n 100))
        else mret VNone);
  if msg_len msg =? 2 then mret (PDict {["relative_humidity" := rh]})
  else
    _ ← py_assert (msg_len msg =? 6);
    temperature ← _temp (slice 4 8 payload);
    dewpoint_temp ← _temp (slice 8 12 payload);
    mret (PDict (py_dict [("relative_humidity", rh);
                          ("temperature", temperature);
                          ("dewpoint_temp", dewpoint_temp)])).

(** displayed_temp *)
Definition parser_12c0 (payload : string) (msg : Msg) : res parsed :=
  _ ← py_assert (String.eqb (slice 0 2 payload) "00");
  _ ← py_assert (String.eqb (slice_from 4 payload) "01");
  temp ← (if String.eqb (slice 2 4 payload) "80" then mret VNone
          else n ← py_int16 (slice 2 4 payload); mret (VFloat (py_truediv n 2)));
  mret (PDict {["temperature" := temp]}).

(** hvac_12C8 *)
Definition parser_12c8 (payload : string) (msg : Msg) : res parsed :=
  _ ← py_assert (String.eqb (slice 2 4 payload) "00");
  v ← _percent (slice_from 4 payload);
  mret (PDict {["unknown" := v]}).

(** dhw_mode *)
Definition parser_1f41 (payload : string) (msg : Msg) : res parsed :=
  _ ← py_assert ((msg_len msg =? 6) || (msg_len msg =? 12));
  _ ← py_assert (str_in (slice 2 4 payload) ["00"; "01"; "FF"]);
  _ ← py_assert (bool_decide (is_Some (zone_mode_name (slice 4 6 payload))));
  _ ← py_assert (String.eqb (slice 6 12 payload) "FFFFFF");
  _ ← (if String.eqb (slice 4 6 payload) "04" then py_assert (msg_len msg =? 12)
       else mret tt);
  active ← (if String.eqb (slice 2 4 payload) "00" then Ok (VBool false)
            else if String.eqb (slice 2 4 payload) "01" then Ok (VBool true)
            else if String.eqb (slice 2 4 payload) "FF" then Ok VNone
            else Raise KeyError);
  let result := py_dict
    [("active", active);
     ("mode", from_option VStr VNone (zone_mode_name (slice 4 6 payload)))] in
  if String.eqb (slice 4 6 payload) "04" then
    until ← _dtm E (slice 12 24 payload);
    mret (PDict (<["until" := until]> result))
  else mret (PDict result).

(** The nested [_parser] of [parser_1fc9]: a list of three strings. *)
Definition parser_1fc9_parser (payload : string) (msg : Msg) (seqx : string)
    : res pyval :=
  _ ← (if negb (String.eqb (slice 0 2 seqx) "90")
       then py_assert (String.eqb (slice_from 6 seqx) (slice 6 12 payload))
       else mret tt);
  _ ← (if negb (str_in (slice 0 2 seqx) ["90"; "F9"; "FA"; "FB"; "FC"; "FF"])
       then n ← py_int16 (slice 0 2 seqx); py_assert (n <? msg_max_zones msg)
       else mret tt);
  dev ← hex_id_to_dec T (slice_from 6 seqx);
  mret (VList [VStr (slice 0 2 seqx); VStr (slice 2 6 seqx); VStr dev]).

(** rf_bind: the one parser that reads [msg.src.id], here [src_id], and the
    one that returns a list of lists, not of records. *)
Definition parser_1fc9 (src_id : string) (payload : string) (msg : Msg)
    : res (list pyval) :=
  _ ← py_assert ((msg_len msg >=? 6) && (msg_len msg mod 6 =? 0));
  _ ← py_assert (str_in (msg_verb msg) [I_; W_; RP]);
  dev ← hex_id_to_dec T (slice 6 12 payload);
  _ ← py_assert (String.eqb src_id dev);
  map_res (parser_1fc9_parser payload msg) (chunks 12 payload).

(** opentherm_sync, otb_sync *)
Definition parser_1fd4 (payload : string) (msg : Msg) : res parsed :=
  _ ← py_assert (String.eqb (msg_verb msg) I_);
  _ ← py_assert (msg_len msg =? 3);
  _ ← py_assert (String.eqb (slice 0 2 payload) "00");
  ticker ← py_int16 (slice_from 2 payload);
  mret (PDict {["ticker" := VInt ticker]}).

Definition parser_2249_parser (msg : Msg) (seqx : string) : res record :=
  minutes ← py_int16 (slice_from 10 seqx);
  next_setpoint ← datetime_add (msg_dtm msg) (minutes * 60000000);
  idx ← _idx (slice 0 2 seqx) msg;
  setpoint_now ← _temp (slice 2 6 seqx);
  setpoint_next ← _temp (slice 6 10 seqx);
  mret (py_update idx
    [("setpoint_now", setpoint_now);
     ("setpoint_next", setpoint_next);
     ("minutes_remaining", VInt minutes);
     ("_next_setpoint", VStr (strftime_HMS next_setpoint))]).

(** now_next_setpoint *)
Definition parser_2249 (payload : string) (msg : Msg) : res parsed :=
  _ ← py_assert (msg_len msg =? 7);
  PDict <$> parser_2249_parser msg payload.

(** message_22d0 *)
Definition parser_22d0 (payload : string) (msg : Msg) : res parsed :=
  _ ← py_assert (String.eqb (slice 0 2 payload) "00");
  _ ← py_assert (String.eqb (slice_from 2 payload) "000002");
  mret (PDict {["unknown" := VStr (slice_from 2 payload)]}).

(** boiler_setpoint *)
Definition parser_22d9 (payload : string) (msg : Msg) : res parsed :=
  t ← _temp (slice 2 6 (msg_raw_payload msg));
  mret (PDict {["boiler_setpoint" := t]}).

(** switch_mode *)
Definition parser_22f1 (payload : string) (msg : Msg) : res parsed :=
  step_idx ← py_int16 (slice 2 4 payload);
  step_max ← py_int16 (slice_from 4 payload);
  _ ← py_assert (step_idx <=? step_max);
  bitmap ← py_int16 (slice 2 4 payload);
  _action ←
    match FAN_MODES E bitmap with
    | Some v => Ok ({[FAN_MODE E := v]} : record)
    | None =>
        if (bitmap =? 9) || (bitmap =? 10) then
          match HEATER_MODES E bitmap with
          | Some v => Ok ({[HEATER_MODE E := v]} : record)
          | None => Raise KeyError
          end
        else Ok ∅
    end;
  step_idx ← py_int16 (slice 2 4 payload);
  step_max ← py_int16 (slice 4 6 payload);
  mret (PDict (py_update _action [("step_idx", VInt step_idx);
                                  ("step_max", VInt step_max)])).

(** switch_boost *)
Definition parser_22f3 (payload : string) (msg : Msg) : res parsed :=
  _ ← py_assert (msg_len msg =? 3);
  _ ← py_assert (String.eqb (slice 0 2 payload) "00");
  _ ← py_assert (String.eqb (slice 2 4 payload) "00");
  _ ← py_assert (str_in (slice 4 6 payload) ["0A"; "14"; "1E"]);
  n ← py_int16 (slice 4 6 payload);
  mret (PDict {[BOOST_TIMER E := VInt n]}).

(** zone_mode *)
Definition parser_2349 (payload : string) (msg : Msg) : res parsed :=
  let body :=
    _ ← py_assert (bool_decide (is_Some (zone_mode_name (slice 6 8 payload))));
    setpoint ← _temp (slice 2 6 payload);
    let result := py_dict
      [("mode", from_option VStr VNone (zone_mode_name (slice 6 8 payload)));
       ("setpoint", setpoint)] in
    result ←
      (if msg_len msg >=? 7 then
         if String.eqb (slice 8 14 payload) (str_repeat 3 "FF") then
           _ ← py_assert (negb (String.eqb (slice 6 8 payload) "03"));
           mret result
         else
           _ ← py_assert (String.eqb (slice 6 8 payload) "03");
           duration ← py_int16 (slice 8 14 payload);
           mret (<["duration" := VInt duration]> result)
       else mret result);
    result ←
      (if msg_len msg >=? 13 then
         if String.eqb (slice_from 14 payload) (str_repeat 6 "FF") then
           _ ← py_assert (str_in (slice 6 8 payload) ["00"; "02"]);
           mret (<["until" := VNone]> result)
         else
           _ ← py_assert (negb (String.eqb (slice 6 8 payload) "02"));
           until ← _dtm E (slice 14 26 payload);
           mret (<["until" := until]> result)
       else mret result);
    mret (PDict result) in
  if String.eqb (msg_verb msg) RQ then
    _ ← py_assert ((msg_len msg =? 1) || (msg_len msg =? 2) || (msg_len msg =? 7));
    if (msg_len msg =? 1) || (msg_len msg =? 2) then mret (PDict ∅) else body
  else
    _ ← py_assert ((msg_len msg =? 4) || (msg_len msg =? 7) || (msg_len msg =? 13));
    body.

(** hometronics _state *)
Definition parser_2d49 (payload : string) (msg : Msg) : res parsed :=
  ok ← (if str_in (slice 0 2 payload) ["88"; "FD"] then mret true
        else n ← py_int16 (slice 0 2 payload); mret (n <? msg_max_zones msg));
  _ ← py_assert ok;
  _ ← py_assert (str_in (slice_from 2 payload) ["0000"; "C800"]);
  idx ← _idx (slice 0 2 payload) msg;
  state ← _bool (slice 2 4 payload);
  mret (PDict (py_update idx [("_state", state)])).

(** system_mode *)
Definition parser_2e04 (payload : string) (msg : Msg) : res parsed :=
  _ ← (if msg_len msg =? 8 then
         py_assert (bool_decide (is_Some (SYSTEM_MODE_MAP E (slice 0 2 payload))))
       else if msg_len msg =? 16 then
         n ← py_int16 (slice 0 2 payload);
         _ ← py_assert (((0 <=? n) && (n <=? 15)) || String.eqb (slice 0 2 payload) "FF");
         _ ← py_assert (str_in (slice 16 18 payload) ["00"; "07"]);
         py_assert (String.eqb (slice 30 32 payload) "04")
       else py_assert false);
  until ← (if negb (String.eqb (slice 14 16 payload) "00")
           then _dtm E (slice 2 14 payload) else mret VNone);
  mret (PDict (py_dict
    [("system_mode", VStr (get_or_key (SYSTEM_MODE_MAP E) (slice 0 2 payload)));
     ("until", until)])).

(** unknown, from STA, VCE *)
Definition parser_3120 (payload : string) (msg : Msg) : res parsed :=
  _ ← py_assert (String.eqb (slice 0 2 payload) "00");
  _ ← py_assert (str_in (slice 2 4 payload) ["00"; "70"; "80"]);
  _ ← py_assert (String.eqb (slice 4 6 payload) "B0");
  _ ← py_assert (str_in (slice 6 8 payload) ["00"; "01"]);
  _ ← py_assert (String.eqb (slice 8 10 payload) "00");
  _ ← py_assert (str_in (slice 10 12 payload) ["00"; "03"; "9C"]);
  _ ← py_assert (String.eqb (slice_from 12 payload) "FF");
  mret (PDict (py_dict [("unknown_0", VStr (slice 2 10 payload));
                        ("unknown_1", VStr (slice 10 12 payload));
                        ("unknown_2", VStr (slice_from 12 payload))])).

(** datetime *)
Definition parser_313f (payload : string) (msg : Msg) : res parsed :=
  if String.eqb (msg_verb msg) RQ then
    _ ← py_assert (String.eqb payload "00");
    mret (PDict ∅)
  else
    _ ← py_assert (msg_len msg =? 9);
    _ ← py_assert (String.eqb (slice 0 2 payload) "00");
    _ ← (if String.eqb (msg_src_type msg) "01"
         then py_assert (str_in (slice 2 4 payload) ["F0"; "FC"])
         else if str_in (msg_src_type msg) ["12"; "22"]
         then py_assert (String.eqb (slice 2 4 payload) "38")
         else if String.eqb (msg_src_type msg) "30"
         then py_assert (String.eqb (slice 2 4 payload) "60")
         else py_assert false);
    datetime ← _dtm E (slice 4 18 payload);
    n ← py_int16 (slice 4 6 payload);
    mret (PDict (py_dict
      [("datetime", datetime);
       ("is_dst", if negb (Z.land n 128 =? 0) then VBool true else VNone);
       ("_unknown_0", VStr (slice 2 4 payload))])).

(** ventilation state *)
Definition parser_31d9 (payload : string) (msg : Msg) : res parsed :=
  _ ← py_assert (str_in (slice 0 2 payload) ["00"; "01"; "21"]);
  _ ← py_assert (str_in (slice 2 4 payload) ["00"; "06"; "80"]);
  ok ← (if String.eqb (slice 4 6 payload) "FF" then mret true
        else n ← py_int16 (slice 4 6 payload); mret (n <=? 200));
  _ ← py_assert ok;
  bitmap ← py_int16 (slice 2 4 payload);
  speed ← _percent (slice 4 6 payload);
  let result := py_dict
    [("exhaust_fan_speed", speed);
     ("passive", bit_set bitmap 2);
     ("damper_only", bit_set bitmap 4);
     ("filter_dirty", bit_set bitmap 32);
     ("frost_cycle", bit_set bitmap 64);
     ("has_fault", bit_set bitmap 128);
     ("_bitmap_0", VStr (slice 2 4 payload))] in
  if msg_len msg =? 3 then mret (PDict result)
  else
    _ ← py_assert (msg_len msg =? 17);
    _ ← py_assert (String.eqb (slice 6 8 payload) "00");
    _ ← py_assert (str_in (slice 8 32 payload) [str_repeat 12 "00"; str_repeat 12 "20"]);
    _ ← py_assert (String.eqb (slice_from 32 payload) "00");
    mret (PDict (py_update result
      [("_unknown_2", VStr (slice 6 8 payload));
       ("_unknown_3", VStr (slice 8 32 payload));
       ("_unknown_4", VStr (slice_from 32 payload))])).

(** ventilation state extended *)
Definition parser_31da (payload : string) (msg : Msg) : res parsed :=
  _ ← py_assert (str_in (slice 2 4 payload) ["00"; "EF"]);
  _ ← py_assert (str_in (slice 4 6 payload) ["00"; "40"]);
  ok ← (if String.eqb (slice 10 12 payload) "EF" then mret true
        else n ← py_int16 (slice 10 12 payload); mret (n <=? 100));
  _ ← py_assert ok;
  _ ← py_assert (String.eqb (slice 12 14 payload) "EF");
  _ ← py_assert (String.eqb (slice 14 18 payload) "7FFF");
  _ ← py_assert (String.eqb (slice 18 22 payload) "7FFF");
  _ ← py_assert (String.eqb (slice 22 26 payload) "7FFF");
  _ ← py_assert (String.eqb (slice 26 30 payload) "7FFF");
  _ ← py_assert (str_in (slice 30 34 payload) ["0002"; "F000"; "F800"; "F808"; "7FFF"]);
  _ ← py_assert (String.eqb (slice 34 36 payload) "EF");
  ok ← (if String.eqb (slice 36 38 payload) "EF" then mret true
        else n ← py_int16 (slice 36 38 payload); mret (Z.land n 31 <=? 24));
  _ ← py_assert ok;
  ok ← (if str_in (slice 38 40 payload) ["EF"; "FF"] then mret true
        else n ← py_int16 (slice 38 40 payload); mret (n <=? 200));
  _ ← py_assert ok;
  _ ← py_assert (str_in (slice 40 42 payload) ["00"; "EF"; "FF"]);
  _ ← py_assert (str_in (slice 46 48 payload) ["00"; "EF"]);
  _ ← py_assert (String.eqb (slice 48 50 payload) "EF");
  _ ← py_assert (String.eqb (slice 50 54 payload) "7FFF");
  _ ← py_assert (String.eqb (slice 54 58 payload) "7FFF");
  air_quality ← parser_31da_percent (slice 2 4 payload) half;
  air_quality_base ← py_int16 (slice 4 6 payload);
  co2_level ← _double (slice 6 10 payload) 1;
  indoor_humidity ← parser_31da_percent (slice 10 12 payload) 1;
  outdoor_humidity ← parser_31da_percent (slice 12 14 payload) 1;
  exhaust_temperature ← _double (slice 14 18 payload) 100;
  supply_temperature ← _double (slice 18 22 payload) 100;
  indoor_temperature ← _double (slice 22 26 payload) 100;
  outdoor_temperature ← _double (slice 26 30 payload) 100;
  speed_cap ← py_int16 (slice 30 34 payload);
  bypass_pos ← parser_31da_percent (slice 34 36 payload) half;
  n ← py_int16 (slice 36 38 payload);
  fan_info ← match CODE_31DA_FAN_INFO (Z.land n 31) with
             | Some s => Ok s
             | None => Raise KeyError
             end;
  exhaust_fan_speed ← parser_31da_percent (slice 38 40 payload) half;
  supply_fan_speed ← parser_31da_percent (slice 40 42 payload) half;
  remaining_time ← _double (slice 42 46 payload) 1;
  post_heat ← parser_31da_percent (slice 46 48 payload) half;
  pre_heat ← parser_31da_percent (slice 48 50 payload) half;
  supply_flow ← _double (slice 50 54 payload) 100;
  exhaust_flow ← _double (slice 54 58 payload) 100;
  mret (PDict (py_dict
    [("air_quality", air_quality);
     ("air_quality_base", VInt air_quality_base);
     ("co2_level", co2_level);
     ("indoor_humidity", indoor_humidity);
     ("outdoor_humidity", outdoor_humidity);
     ("exhaust_temperature", exhaust_temperature);
     ("supply_temperature", supply_temperature);
     ("indoor_temperature", indoor_temperature);
     ("outdoor_temperature", outdoor_temperature);
     ("speed_cap", VInt speed_cap);
     ("bypass_pos", bypass_pos);
     ("fan_info", VStr fan_info);
     ("exhaust_fan_speed", exhaust_fan_speed);
     ("supply_fan_speed", supply_fan_speed);
     ("remaining_time", remaining_time);
     ("post_heat", post_heat);
     ("pre_heat", pre_heat);
     ("supply_flow", supply_flow);
     ("exhaust_flow", exhaust_flow)])).

(** external ventilation? *)
Definition parser_31e0 (payload : string) (msg : Msg) : res parsed :=
  active ← _bool (slice 4 6 payload);
  mret (PDict (py_dict [("active", active);
                        ("_unknown_0", VStr (slice 0 4 payload));
                        ("_unknown_1", VStr (slice_from 6 payload))])).

(** opentherm_msg.  [ot_value.pop(MSG_NAME, None)] takes the name out of the
    value mapping; the two assertions on [True or ...] do nothing. *)
Definition parser_3220 (payload : string) (msg : Msg) : res parsed :=
  frame ← decode_frame E (slice 2 10 payload);
  let ot_type := frame.1.1.1 in
  let ot_id := frame.1.1.2 in
  let ot_value := frame.1.2 in
  let ot_schema := frame.2 in
  _ ← py_assert (R8810A_MSG_IDS E ot_id || String.eqb ot_type "Unknown-DataId");
  let result := py_dict
    [(MSG_ID E, VInt ot_id);
     (MSG_TYPE E, VStr ot_type);
     (MSG_NAME E, default VNone (ot_value !! MSG_NAME E))] in
  let ot_value := delete (MSG_NAME E) ot_value in
  if String.eqb (msg_verb msg) RQ then
    if String.eqb ot_type "Read-Data" then
      _ ← py_assert (String.eqb (slice 6 10 payload) "0000");
      mret (PDict result)
    else
      _ ← py_assert (str_in ot_type ["Write-Data"; "Invalid-Data"]);
      mret (PDict (dict_merge result ot_value))
  else if str_in ot_type ["Data-Invalid"; "Unknown-DataId"] then mret (PDict result)
  else
    let result := dict_merge result ot_value in
    en ← match ot_schema !! EN E with
         | Some v => Ok v
         | None => Raise KeyError
         end;
    mret (PDict (if py_truthy en then <[MSG_DESC E := en]> result else result)).

(** actuator_state.  [msg.src.type in "08"] is a test for a substring. *)
Definition parser_3ef0 (payload : string) (msg : Msg) : res parsed :=
  if is_substring (msg_src_type msg) "08" then
    _ ← py_assert (msg_len msg =? 20);
    mret (PDict (ordinal_blob payload))
  else
    _ ← py_assert (String.eqb (slice 0 2 payload) "00");
    _ ← (if (1 <? msg_len msg) && (msg_len msg <=? 3) then
           _ ← py_assert (str_in (slice 2 4 payload) ["00"; "C8"; "FF"]);
           py_assert (String.eqb (slice 4 6 payload) "FF")
         else mret tt);
    _ ← (if msg_len msg >? 3 then
           _ ← (if negb (String.eqb (slice 2 4 payload) "FF")
                then n ← py_int16 (slice 2 4 payload); py_assert (n <=? 100)
                else mret tt);
           _ ← py_assert (str_in (slice 4 6 payload) ["10"; "11"]);
           n ← py_int16 (slice 6 8 payload);
           _ ← py_assert (Z.land n 240 =? 0);
           _ ← py_assert (str_in (slice 8 10 payload) ["00"; "01"; "0A"; "FA"; "FF"]);
           py_assert (str_in (slice 10 12 payload) ["00"; "1C"; "FF"])
         else mret tt);
    _ ← (if msg_len msg >? 6 then
           n ← py_int16 (slice 12 14 payload);
           _ ← py_assert (Z.land n 252 =? 0);
           py_assert (str_in (slice_last 2 payload) ["00"; "64"])
         else mret tt);
    enabled ← _percent (slice 2 4 payload);
    level ← _percent (slice 2 4 payload);
    flags ← _flag8 (slice 4 6 payload);
    let result := py_dict
      [("actuator_enabled", VBool (py_truthy enabled));
       ("modulation_level", level);
       ("_unknown_2", VList (VInt <$> flags))] in
    result ←
      (if msg_len msg >? 3 then
         flags ← _flag8 (slice 6 8 payload);
         ch_enabled ← py_int16 (slice 6 8 payload);
         dhw_active ← py_int16 (slice 6 8 payload);
         flame_active ← py_int16 (slice 6 8 payload);
         mret (py_update result
           [("_unknown_3", VList (VInt <$> flags));
            ("ch_enabled", bit_set ch_enabled (Z.shiftl 1 1));
            ("dhw_active", bit_set dhw_active (Z.shiftl 1 2));
            ("flame_active", bit_set flame_active (Z.shiftl 1 3));
            ("_unknown_4", VStr (slice 8 10 payload));
            ("_unknown_5", VStr (slice 10 12 payload))])
       else mret result);
    result ←
      (if msg_len msg >? 6 then
         flags ← _flag8 (slice 12 14 payload);
         ch_active ← py_int16 (slice 12 14 payload);
         ch_setpoint ← py_int16 (slice 14 16 payload);
         max_rel_modulation ← py_int16 (slice 16 18 payload);
         mret (py_update result
           [("_unknown_6", VList (VInt <$> flags));
            ("ch_active", bit_set ch_active (Z.shiftl 1 0));
            ("ch_setpoint", VInt ch_setpoint);
            ("max_rel_modulation", VInt max_rel_modulation)])
       else mret result);
    mret (PDict result).

(** actuator_cycle.  [_percent(...) <= 1] on [None] raises [TypeError]. *)
Definition parser_3ef1 (payload : string) (msg : Msg) : res parsed :=
  if String.eqb (msg_src_type msg) "08" then
    _ ← py_assert (msg_len msg =? 18);
    mret (PDict (ordinal_blob payload))
  else if String.eqb (msg_src_type msg) "31" then
    _ ← py_assert (msg_len msg =? 12);
    mret (PDict (ordinal_blob payload))
  else if String.eqb (msg_verb msg) RQ then
    _ ← py_assert (msg_len msg <? 3);
    mret (PDict ∅)
  else
    _ ← py_assert (String.eqb (msg_verb msg) RP);
    _ ← py_assert (msg_len msg =? 7);
    _ ← py_assert (String.eqb (slice 0 2 payload) "00");
    p ← _percent (slice 10 12 payload);
    q ← py_num p;
    _ ← py_assert (bool_decide (q ≤ 1)%Qc);
    cycle_countdown ←
      (if String.eqb (slice 2 6 payload) "7FFF" then mret VNone
       else n ← py_int16 (slice 2 6 payload); mret (VInt n));
    idx ← _idx (slice 0 2 payload) msg;
    enabled ← _percent (slice 10 12 payload);
    level ← _percent (slice 10 12 payload);
    countdown ← py_int16 (slice 6 10 payload);
    mret (PDict (py_update idx
      [("actuator_enabled", VBool (py_truthy enabled));
       ("modulation_level", level);
       ("actuator_countdown", VInt countdown);
       ("cycle_countdown", cycle_countdown);
       ("_unknown_0", VStr (slice_from 12 payload))])).

(** The puzzle packet; its parser is not decorated. *)
Definition parser_7fff (payload : string) (msg : Msg) : res parsed :=
  if String.eqb (slice 0 2 payload) "00" then
    datetime ← dts_from_hex T (slice 2 14 payload);
    message ← _str (slice_from 16 payload);
    mret (PDict (py_dict [("datetime", datetime); ("message", message)]))
  else if str_in (slice 0 2 payload) ["01"; "02"; "03"] then
    v ← _str (slice_from 2 payload);
    mret (PDict {[(if String.eqb (slice 0 2 payload) "01" then "ramses_rf"
                   else if String.eqb (slice 0 2 payload) "02" then "impersonating"
                   else "message") := v]})
  else if String.eqb (slice 0 2 payload) "7F" then
    datetime ← dts_from_hex T (slice 2 14 payload);
    counter ← py_int16 (slice 16 20 payload);
    interval ← py_int16 (slice 22 26 payload);
    mret (PDict (py_dict [("datetime", datetime);
                          ("counter", VInt counter);
                          ("interval", VFloat (py_truediv interval 100))]))
  else
    mret (PDict (py_dict [("header", VStr (slice 0 2 payload));
                          ("payload", VStr (slice_from 2 payload))])).

(** ** All the parsers *)

(** The decorated parsers that return a record or a list of records, by
    code: those of the registry but [parser_1fc9] and [parser_7fff]. *)
Definition decorated_parsers : list (string * (string → Msg → res parsed)) :=
  embedded_parsers T
  ++ [("0016", parser_0016); ("1030", parser_1030); ("10A0", parser_10a0);
      ("1100", parser_1100);
      ("0001", parser_0001); ("0002", parser_0002); ("0004", parser_0004);
      ("0005", parser_0005); ("0006", parser_0006); ("000E", parser_000e);
      ("0100", parser_0100); ("01D0", parser_01d0); ("01E9", parser_01e9);
      ("0404", parser_0404); ("042F", parser_042f); ("0B04", parser_0b04);
      ("1060", parser_1060); ("1090", parser_1090); ("10E0", parser_10e0);
      ("1290", parser_1290); ("1298", parser_1298); ("12A0", parser_12a0);
      ("12C0", parser_12c0); ("12C8", parser_12c8); ("1F41", parser_1f41);
      ("1FD4", parser_1fd4); ("2249", parser_2249); ("22D0", parser_22d0);
      ("22D9", parser_22d9); ("22F1", parser_22f1); ("22F3", parser_22f3);
      ("2349", parser_2349); ("2D49", parser_2d49); ("2E04", parser_2e04);
      ("3120", parser_3120); ("313F", parser_313f); ("31D9", parser_31d9);
      ("31DA", parser_31da); ("31E0", parser_31e0); ("3220", parser_3220);
      ("3EF0", parser_3ef0); ("3EF1", parser_3ef1)].

(** All the parsers that return a record or a list of records. *)
Definition record_parsers : list (string * (string → Msg → res parsed)) :=
  decorated_parsers ++ [("7FFF", parser_7fff)].

End FurtherParsers.

(** The codes of the parsers that write an index key of their own choice
    into a record that the wrapper merges: the others write none, or hand
    on the one of [msg._idx]. *)
Definition index_writers : list string :=
  ["0008"; "000A"; "000C"; "0418"; "22C9"; "2309"; "30C9"; "3150"; "3B00"].

(** The record holds no index key but those of [idx]. *)
Definition adds_no_index (idx d : record) : Prop :=
  ∀ k, k ∈ identity_keys → is_Some (d !! k) → is_Some (idx !! k).

(** What a parser may hand to the merge of the wrapper whatever the index of
    the message: a record with no index key of its own, or a list, which is
    not merged. *)
Definition hands_on_index (msg : Msg) (p : parsed) : Prop :=
  match p with
  | PDict d => adds_no_index (msg_idx msg) d
  | PList l => Forall exclusive l
  end.

(** ** A further instance *)

(** Instances of the imports of the remaining parsers, with the names as the
    records of the package show them. *)
Definition demo_externals : Externals :=
  {| _0005_ZONE_TYPE := demo_lookup [("08", "radiator_valve"); ("09", "ufh")];
     SYSTEM_MODE_MAP := demo_lookup [("00", "auto"); ("01", "heat_off")];
     _dtm := λ s, Ok (VStr s);
     FAN_MODE := "fan_mode";
     FAN_MODES := λ n, if n =? 0 then Some (VStr "auto") else None;
     HEATER_MODE := "heater_mode";
     HEATER_MODES := λ n, if n =? 9 then Some (VStr "off") else None;
     BOOST_TIMER := "boost_timer";
     decode_frame := λ s,
       Ok ("Read-Ack", 25, py_dict [("msg_name", VStr "BoilerWaterTemperature");
                                    ("value", VFloat (py_truediv 97 2))],
           {["en" := VStr "Boiler water temperature"]});
     R8810A_MSG_IDS := λ n, n =? 25;
     MSG_ID := "msg_id";
     MSG_TYPE := "msg_type";
     MSG_NAME := "msg_name";
     MSG_DESC := "description";
     EN := "en" |}.
(** ** Facts about the string primitives *)

Lemma hex_digit_range (c : ascii) (d : Z) :
  hex_digit c = Some d → 0 ≤ d < 16.
Proof.
  unfold hex_digit. intros H.
  repeat case_match; simplify_eq; lia.
Qed.

Lemma hex_digit_plain (c : ascii) :
  is_hex_digit c = true →
  is_str_space c = false ∧ Ascii.eqb c "_" = false ∧ Ascii.eqb c "+" = false
  ∧ Ascii.eqb c "-" = false ∧ Ascii.eqb c "x" = false ∧ Ascii.eqb c "X" = false.
Proof.
  destruct c as [[] [] [] [] [] [] [] []]; vm_compute; intros; try discriminate;
    repeat split.
Qed.

Lemma lstrip_hex (s : string) : all_hex s = true → lstrip s = s.
Proof.
  destruct s as [|c s]; [done|]. simpl. intros [Hc _]%andb_prop.
  apply hex_digit_plain in Hc as [-> _]. done.
Qed.

Lemma rstrip_hex (s : string) : all_hex s = true → rstrip s = s.
Proof.
  induction s as [|c s IH]; [done|]. simpl. intros [Hc Hs]%andb_prop.
  apply hex_digit_plain in Hc as [-> _]. simpl. by rewrite IH.
Qed.

Lemma int_lstrip_hex (s : string) : all_hex s = true → int_lstrip s = s.
Proof.
  destruct s as [|c s]; [done|]. simpl. intros [Hc _]%andb_prop.
  apply hex_digit_plain in Hc as [Hc _].
  unfold is_str_space in Hc. by apply orb_false_iff in Hc as [-> _].
Qed.

Lemma int_rstrip_hex (s : string) : all_hex s = true → int_rstrip s = s.
Proof.
  induction s as [|c s IH]; [done|]. simpl. intros [Hc Hs]%andb_prop.
  apply hex_digit_plain in Hc as [Hc _].
  unfold is_str_space in Hc. apply orb_false_iff in Hc as [-> _].
  simpl. by rewrite IH.
Qed.

Lemma int_digits_hex (s : string) (acc : Z) :
  all_hex s = true → int_digits acc s = Some (hex_value_from acc s).
Proof.
  revert acc. induction s as [|c s IH]; intros acc; [done|].
  simpl. intros [Hc Hs]%andb_prop. unfold is_hex_digit in Hc.
  destruct (hex_digit c) as [d|]; [|done]. simpl. by apply IH.
Qed.

(** On a non-empty string of hex digits [int(s, 16)] is the base-16 value. *)
Lemma py_int16_hex (s : string) :
  all_hex s = true → s ≠ "" → py_int16 s = Ok (hex_value s).
Proof.
  intros Hs Hne. unfold py_int16, int_strip.
  rewrite (int_lstrip_hex s Hs), (int_rstrip_hex s Hs).
  destruct s as [|c s]; [done|].
  pose proof Hs as Hs'. simpl in Hs'. apply andb_prop in Hs' as [Hc Hs'].
  assert (Hlit : int_literal (String c s) = Some (hex_value (String c s))).
  { unfold int_literal. rewrite Hc. by apply int_digits_hex. }
  assert (Hun : int_unsigned (String c s) = Some (hex_value (String c s))).
  { rewrite <- Hlit. unfold int_unsigned. clear Hlit Hc.
    destruct s as [|x s].
    - by destruct c as [[] [] [] [] [] [] [] []].
    - simpl in Hs'. apply andb_prop in Hs' as [Hx _].
      apply hex_digit_plain in Hx as (_ & _ & _ & _ & Ex & EX).
      destruct c as [[] [] [] [] [] [] [] []]; try reflexivity.
      by rewrite Ex, EX. }
  apply hex_digit_plain in Hc as (_ & _ & Hp & Hm & _).
  replace (match String c s with
           | String "+" t' => int_unsigned t'
           | String "-" t' => Z.opp <$> int_unsigned t'
           | _ => int_unsigned (String c s)
           end) with (int_unsigned (String c s)).
  - by rewrite Hun.
  - destruct c as [[] [] [] [] [] [] [] []]; try reflexivity;
      vm_compute in Hp, Hm; discriminate.
Qed.

Lemma hex_value_from_bound (s : string) (acc : Z) :
  0 ≤ hex_value_from acc s - acc * 16 ^ Z.of_nat (String.length s)
    < 16 ^ Z.of_nat (String.length s).
Proof.
  revert acc. induction s as [|c s IH]; intros acc.
  - simpl. lia.
  - cbn [hex_value_from String.length]. specialize (IH (acc * 16 + default 0 (hex_digit c))).
    rewrite Nat2Z.inj_succ, Z.pow_succ_r by lia.
    assert (0 ≤ default 0 (hex_digit c) < 16).
    { destruct (hex_digit c) eqn:E; simpl; [by eapply hex_digit_range|lia]. }
    nia.
Qed.

Lemma hex_value_bound (s : string) :
  0 ≤ hex_value s < 16 ^ Z.of_nat (String.length s).
Proof. pose proof (hex_value_from_bound s 0). unfold hex_value. lia. Qed.

Lemma is_hex_spec (n : nat) (s : string) :
  is_hex n s = true ↔ String.length s = n ∧ all_hex s = true.
Proof.
  unfold is_hex. rewrite andb_true_iff, Nat.eqb_eq. done.
Qed.

Lemma py_len_is_hex (n : nat) (s : string) :
  is_hex n s = true → py_len s = Z.of_nat n.
Proof. intros [<- _]%is_hex_spec. done. Qed.

Example _bool_C8 : _bool "C8" = Ok (VBool true).
Proof. reflexivity. Qed.

Example _flag8_05 : _flag8 "05" = Ok [1; 0; 1; 0; 0; 0; 0; 0].
Proof. reflexivity. Qed.

Example _date_sample : _date "1F0C07E4" = Ok (VStr "2020-12-31").
Proof. reflexivity. Qed.

Example _str_sample : _str "4869207F00" = Ok (VStr "Hi").
Proof. reflexivity. Qed.

Example py_int16_forms :
  py_int16 " 0x_1f " = Ok 31 ∧ py_int16 "-1_0" = Ok (-16) ∧
  py_int16 "1__0" = Raise ValueError ∧ py_int16 "" = Raise ValueError.
Proof. repeat split. Qed.

(** ** The primitive decoders *)

Lemma bind_Ok {A B} (a : A) (k : A → res B) : (Ok a ≫= k) = k a.
Proof. done. Qed.

Lemma bind_Raise {A B} (e : exc) (k : A → res B) : (Raise e ≫= k) = Raise e.
Proof. done. Qed.

Lemma py_assert_true : py_assert true = Ok tt.
Proof. done. Qed.

Lemma py_assert_false : py_assert false = Raise AssertionError.
Proof. done. Qed.

(** Run the head of a monadic computation as far as it is determined. *)
Ltac res_step :=
  repeat first
    [ rewrite py_assert_true | rewrite py_assert_false
    | rewrite bind_Ok | rewrite bind_Raise ].

Lemma py_truediv_self (n : Z) : n ≠ 0 → py_truediv n n = 1%Qc.
Proof.
  intros Hn. unfold py_truediv. apply Qcmult_inv_r.
  rewrite <- Z2Qc_inj_0. by intros E%Z2Qc_inj.
Qed.

Lemma twos_complement16_spec (n : Z) :
  0 ≤ n < 2 ^ 16 →
  (if n <? 2 ^ 15 then n else n - 2 ^ 16) = twos_complement16 n.
Proof.
  intros Hn. unfold twos_complement16.
  destruct (n <? 2 ^ 15) eqn:E.
  - apply Z.ltb_lt in E. rewrite Z.mod_small; lia.
  - apply Z.ltb_ge in E.
    replace (n + 2 ^ 15) with ((n - 2 ^ 15) + 1 * 2 ^ 16) by lia.
    rewrite Z_mod_plus_full, Z.mod_small; lia.
Qed.

Lemma is_hex_int16 (n : nat) (v : string) :
  is_hex (S n) v = true → py_int16 v = Ok (hex_value v).
Proof.
  intros [Hl Hh]%is_hex_spec. apply py_int16_hex; [done|].
  by destruct v.
Qed.

(** C4. On four hex digits the temperature decoder returns absent for "31FF"
    and "7FFF", the boolean false (which is not absent) for "7EFF", and for
    every other input the two's-complement 16-bit value divided by 100. *)
Theorem temp_decoder (v : string) :
  is_hex 4 v = true →
  (v = "31FF" ∨ v = "7FFF" → _temp v = Ok VNone)
  ∧ (v = "7EFF" → _temp v = Ok (VBool false))
  ∧ (v ≠ "31FF" → v ≠ "7EFF" → v ≠ "7FFF" →
     _temp v = Ok (VFloat (py_truediv (twos_complement16 (hex_value v)) 100)))
  ∧ VBool false ≠ VNone.
Proof.
  intros Hv. repeat split; try done.
  - by intros [-> | ->].
  - by intros ->.
  - intros H1 H2 H3. unfold _temp.
    rewrite (py_len_is_hex 4 v Hv). simpl.
    apply String.eqb_neq in H1, H2, H3. rewrite H1, H2, H3.
    rewrite (is_hex_int16 3 v Hv). simpl.
    rewrite twos_complement16_spec; [done|].
    pose proof (hex_value_bound v) as Hb.
    apply is_hex_spec in Hv as [Hl _]. rewrite Hl in Hb. simpl in Hb. lia.
Qed.

Lemma temp_decoder_witness :
  is_hex 4 "F830" = true
  ∧ _temp "F830" = Ok (VFloat (py_truediv (twos_complement16 (hex_value "F830")) 100))
  ∧ twos_complement16 (hex_value "F830") = -2000.
Proof.
  split; [reflexivity|]. split; [|reflexivity].
  destruct (temp_decoder "F830" eq_refl) as (_ & _ & Hother & _).
  apply Hother; discriminate.
Defined.

(** C7. On two hex digits the percentage decoder returns absent for "EF",
    "FE" and "FF", faults on any other input above 200 (such as "C9"), and
    otherwise returns the value divided by 200; "C8" decodes to 1.0. *)
Theorem percent_decoder (v : string) :
  is_hex 2 v = true →
  (v = "EF" ∨ v = "FE" ∨ v = "FF" → _percent v = Ok VNone)
  ∧ (v ≠ "EF" → v ≠ "FE" → v ≠ "FF" → 200 < hex_value v →
     _percent v = Raise AssertionError)
  ∧ (v ≠ "EF" → v ≠ "FE" → v ≠ "FF" → hex_value v ≤ 200 →
     _percent v = Ok (VFloat (py_truediv (hex_value v) 200)))
  ∧ _percent "C9" = Raise AssertionError
  ∧ _percent "C8" = Ok (VFloat 1%Qc).
Proof.
  intros Hv.
  assert (Hother : v ≠ "EF" → v ≠ "FE" → v ≠ "FF" →
    _percent v = (_ ← py_assert (hex_value v <=? 200);
                  mret (VFloat (py_truediv (hex_value v) 200)))).
  { intros H1 H2 H3. unfold _percent.
    rewrite (py_len_is_hex 2 v Hv). change (Z.of_nat 2 =? 2) with true.
    res_step. unfold str_in. cbn [existsb].
    apply String.eqb_neq in H1, H2, H3. rewrite H1, H2, H3. cbn [orb].
    rewrite (is_hex_int16 1 v Hv). res_step.
    destruct (hex_value v <=? 200); by res_step. }
  split; [|split; [|split; [|split]]].
  - by intros [-> | [-> | ->]].
  - intros H1 H2 H3 Hgt. rewrite Hother by done.
    apply Z.leb_gt in Hgt. by rewrite Hgt.
  - intros H1 H2 H3 Hle. rewrite Hother by done.
    apply Z.leb_le in Hle. by rewrite Hle.
  - reflexivity.
  - change (_percent "C8") with (Ok (VFloat (py_truediv 200 200)) : res pyval).
    by rewrite py_truediv_self.
Qed.

Lemma percent_decoder_witness :
  is_hex 2 "64" = true
  ∧ _percent "64" = Ok (VFloat (py_truediv (hex_value "64") 200))
  ∧ hex_value "64" = 100.
Proof.
  split; [reflexivity|]. split; [|reflexivity].
  destruct (percent_decoder "64" eq_refl) as (_ & _ & Hother & _).
  apply Hother; [discriminate..|vm_compute; discriminate].
Defined.

Lemma py_assert_false_bind {A} (k : unit → res A) :
  (py_assert false ≫= k) = Raise AssertionError.
Proof. done. Qed.

Lemma py_len_neq (n : nat) (v : string) :
  String.length v ≠ n → (py_len v =? Z.of_nat n) = false.
Proof. intros Hn. apply Z.eqb_neq. unfold py_len. lia. Qed.

Lemma str_in_length (v : string) (l : list string) (n : nat) :
  Forall (λ s, String.length s = n) l → String.length v ≠ n → str_in v l = false.
Proof.
  intros Hl Hv. unfold str_in. induction Hl as [|s l Hs _ IH]; [done|].
  simpl. rewrite IH, orb_false_r. apply String.eqb_neq. congruence.
Qed.

(** C6 (counterexample). Three of the decoders return a result on an input
    of the wrong length: [_double] (4 hex characters expected) converts the
    2-character "7F", [_flag8] (one byte expected) decodes the first byte of
    the two-byte "0102", and [_str] returns absent for the empty input. *)
Lemma wrong_length_accepted :
  _double "7F" 1 = Ok (VInt 127)
  ∧ _flag8 "0102" = Ok [1; 0; 0; 0; 0; 0; 0; 0]
  ∧ _str "" = Ok VNone.
Proof. repeat split. Qed.

(** C6 (amended). The boolean, percentage, temperature and date decoders
    fault on every input whose length differs from their width (2, 2, 4 and
    8 characters).  The other three make no length check: [_double] converts
    a string of hex digits of any length whose value is below 32767,
    [_flag8] decodes the first byte of any hex string of at least one byte,
    and [_str] accepts any hex string. *)
Theorem fixed_width_decoders_fault (v : string) :
  (String.length v ≠ 2%nat → _bool v = Raise AssertionError)
  ∧ (String.length v ≠ 2%nat → _percent v = Raise AssertionError)
  ∧ (String.length v ≠ 4%nat → _temp v = Raise AssertionError)
  ∧ (String.length v ≠ 8%nat → _date v = Raise AssertionError)
  ∧ (all_hex v = true → v ≠ "" → v ≠ "7FFF" → hex_value v < 32767 →
     _double v 1 = Ok (VInt (hex_value v)))
  ∧ (∀ b bs, fromhex_opt v = Some (b :: bs) → _flag8 v = Ok (flag_bits 8 b))
  ∧ (∀ bs, fromhex_opt v = Some bs → ¬ raises (_str v)).
Proof.
  split; [|split; [|split; [|split; [|split; [|split]]]]].
  - intros Hn. unfold _bool. rewrite (str_in_length v _ 2%nat); [done| |done].
    by repeat constructor.
  - intros Hn. unfold _percent. by rewrite (py_len_neq 2).
  - intros Hn. unfold _temp. by rewrite (py_len_neq 4).
  - intros Hn. unfold _date. by rewrite (py_len_neq 8).
  - intros Hh Hne H7 Hlt. unfold _double.
    apply String.eqb_neq in H7. rewrite H7, (py_int16_hex v Hh Hne). res_step.
    apply Z.ltb_lt in Hlt. rewrite Hlt. by res_step.
  - intros b bs Hb. unfold _flag8, bytes_fromhex. by rewrite Hb.
  - intros bs Hb. unfold _str, bytes_fromhex. rewrite Hb. res_step. simpl. tauto.
Qed.

Lemma fixed_width_decoders_fault_witness :
  _bool "C" = Raise AssertionError
  ∧ _percent "0C8" = Raise AssertionError
  ∧ _temp "7FF" = Raise AssertionError
  ∧ _date "FFFFFF" = Raise AssertionError
  ∧ _double "07D" 1 = Ok (VInt (hex_value "07D")).
Proof.
  split; [|split; [|split; [|split]]].
  - by apply (fixed_width_decoders_fault "C").
  - by apply (fixed_width_decoders_fault "0C8").
  - by apply (fixed_width_decoders_fault "7FF").
  - by apply (fixed_width_decoders_fault "FFFFFF").
  - apply (fixed_width_decoders_fault "07D"); [reflexivity|discriminate..|reflexivity].
Defined.

(** ** Ordering of commands *)

Lemma tuple_lt_spec (a b : Z * Z) : tuple_lt a b = true ↔ lex_smaller a b.
Proof.
  unfold tuple_lt, lex_smaller.
  destruct (a.1 =? b.1) eqn:E1; simpl.
  - apply Z.eqb_eq in E1. destruct (a.2 =? b.2) eqn:E2; simpl.
    + apply Z.eqb_eq in E2. split; [done|lia].
    + apply Z.eqb_neq in E2. rewrite Z.ltb_lt. lia.
  - apply Z.eqb_neq in E1. rewrite Z.ltb_lt. lia.
Qed.

Lemma tuple_eq_spec (a b : Z * Z) : tuple_eq a b = true ↔ a.1 = b.1 ∧ a.2 = b.2.
Proof. unfold tuple_eq. rewrite andb_true_iff, !Z.eqb_eq. done. Qed.

(** C9. Commands are totally ordered by (priority, creation timestamp): [a]
    sorts before [b] exactly when its pair is lexicographically smaller, the
    lower priority value first; two commands are equal exactly when both
    components are; the order is irreflexive, transitive and total, and the
    derived comparisons agree with it. *)
Theorem command_order (a b c : Command) :
  (Command_lt a b = true ↔ lex_smaller (sort_key a) (sort_key b))
  ∧ (Command_lt a b = true ↔
       cmd_priority a < cmd_priority b
       ∨ (cmd_priority a = cmd_priority b ∧ cmd_dtm a < cmd_dtm b))
  ∧ (Command_eq a b = true ↔
       cmd_priority a = cmd_priority b ∧ cmd_dtm a = cmd_dtm b)
  ∧ Command_lt a a = false
  ∧ (Command_lt a b = true → Command_lt b c = true → Command_lt a c = true)
  ∧ (Command_lt a b = true ∧ Command_eq a b = false ∧ Command_lt b a = false
     ∨ Command_lt a b = false ∧ Command_eq a b = true ∧ Command_lt b a = false
     ∨ Command_lt a b = false ∧ Command_eq a b = false ∧ Command_lt b a = true)
  ∧ (Command_le a b = true ↔ Command_lt b a = false)
  ∧ Command_gt a b = Command_lt b a
  ∧ Command_ge a b = Command_le b a.
Proof.
  assert (L : ∀ x y, Command_lt x y = true ↔
            cmd_priority x < cmd_priority y
            ∨ (cmd_priority x = cmd_priority y ∧ cmd_dtm x < cmd_dtm y)).
  { intros x y. unfold Command_lt. by rewrite tuple_lt_spec. }
  assert (E : ∀ x y, Command_eq x y = true ↔
            cmd_priority x = cmd_priority y ∧ cmd_dtm x = cmd_dtm y).
  { intros x y. unfold Command_eq. by rewrite tuple_eq_spec. }
  assert (Lf : ∀ x y, Command_lt x y = false ↔
            ¬ (cmd_priority x < cmd_priority y
               ∨ (cmd_priority x = cmd_priority y ∧ cmd_dtm x < cmd_dtm y))).
  { intros x y. rewrite <- L. by destruct (Command_lt x y). }
  assert (Ef : ∀ x y, Command_eq x y = false ↔
            ¬ (cmd_priority x = cmd_priority y ∧ cmd_dtm x = cmd_dtm y)).
  { intros x y. rewrite <- E. by destruct (Command_eq x y). }
  split; [apply tuple_lt_spec|]. split; [apply L|]. split; [apply E|].
  split; [apply Lf; lia|]. split; [rewrite !L; lia|].
  split; [rewrite !L, !E, !Lf, !Ef; lia|].
  assert (Hle : Command_le a b = true ↔ Command_lt b a = false).
  { unfold Command_le. rewrite orb_true_iff, L, E, Lf. lia. }
  split; [done|]. split.
  - unfold Command_gt. apply eq_true_iff_eq.
    rewrite negb_true_iff, orb_false_iff, Lf, Ef, L. lia.
  - unfold Command_ge, Command_le. apply eq_true_iff_eq.
    rewrite negb_true_iff, orb_true_iff, Lf, L, E. lia.
Qed.

Lemma command_order_witness :
  let cmd (p t : Z) :=
    {| cmd_verb := RQ; cmd_seqn := "---";
       cmd_src := {| addr_id := "18:000730"; addr_type := "18" |};
       cmd_dst := {| addr_id := "01:145038"; addr_type := "01" |};
       cmd_addrs := []; cmd_code := "0418"; cmd_len := 3; cmd_payload := "000000";
       cmd_callback := None;
       cmd_qos := {| qos_retries := 3; qos_timeout := 50000;
                     qos_disable_backoff := false |};
       cmd_priority := p; cmd_dtm := t |} in
  Command_lt (cmd Priority_HIGH 20) (cmd Priority_LOW 10) = true
  ∧ Command_lt (cmd Priority_LOW 10) (cmd Priority_LOW 20) = true
  ∧ Command_lt (cmd Priority_HIGH 20) (cmd Priority_LOW 20) = true.
Proof.
  intros cmd.
  destruct (command_order (cmd Priority_HIGH 20) (cmd Priority_LOW 10)
              (cmd Priority_LOW 20)) as (_ & _ & _ & _ & Htrans & _).
  assert (H1 : Command_lt (cmd Priority_HIGH 20) (cmd Priority_LOW 10) = true)
    by reflexivity.
  assert (H2 : Command_lt (cmd Priority_LOW 10) (cmd Priority_LOW 20) = true)
    by reflexivity.
  split; [exact H1|]. split; [exact H2|]. exact (Htrans H1 H2).
Defined.

(** ** Command construction *)

Example set_dhw_params_default :
  fmap (M := option) cmd_payload
    <$> (fst <$> set_dhw_params demo_helpers "01:145038" (dhw_call VNone VNone VNone))
  = Ok (Some "001388050064").
Proof. vm_compute. reflexivity. Qed.

Example set_zone_mode_permanent :
  fmap (M := option) cmd_payload
    <$> (fst <$> set_zone_mode demo_helpers "01:145038" (ZoneStr "08")
                   (mode_call VNone (VInt 5) None None))
  = Ok (Some "0801F402FFFFFF").
Proof. vm_compute. reflexivity. Qed.

Section CommandProps.
Context (H : Helpers).

Lemma validate_wrapper_caught (r : res Command) (e : exc) :
  r = Raise e →
  caught_by e [AssertionError; AttributeError; LookupError; TypeError; ValueError] = true →
  validate_wrapper r = Ok (None, [Log_exception]).
Proof. intros -> He. unfold validate_wrapper. by rewrite He. Qed.

Lemma Command_init_inv verb code payload dest_id kw now cmd :
  Command_init H verb code payload dest_id kw now = Ok cmd →
  ∃ src dst addrs,
    pkt_addrs H (default (HGI_DEV_ADDR_id H) (kw_from_id kw) ++ " " ++ dest_id
                 ++ " " ++ NON_DEV_ADDR_id H) = Ok (src, dst, addrs)
    ∧ frame_is_valid H (str_take 2 (rjust2 verb)) "---" addrs code
        (py_len payload / 2) payload = Ok true
    ∧ cmd_verb cmd = str_take 2 (rjust2 verb) ∧ cmd_seqn cmd = "---"
    ∧ cmd_addrs cmd = addrs ∧ cmd_code cmd = code
    ∧ cmd_len cmd = py_len payload / 2 ∧ cmd_payload cmd = payload
    ∧ cmd_dtm cmd = now.
Proof.
  unfold Command_init. intros Hc.
  destruct (pkt_addrs H _) as [[[src dst] addrs]|] eqn:Ea; [|done].
  rewrite bind_Ok in Hc.
  destruct (frame_is_valid H _ _ addrs code _ payload) as [[]|] eqn:Ev; [|done..].
  rewrite bind_Ok in Hc. cbn [negb] in Hc.
  destruct (_qos _ code kw) as [priority qos]. injection Hc as <-.
  exists src, dst, addrs. by repeat split.
Qed.

(** C8. A command exists only if it passed the structural self-check: when
    [Command.__init__] returns, the frame it formats matches the frame regex
    and its payload has 2 to 96 characters; when the check fails, the
    constructor raises [ValueError] and no command is returned. *)
Theorem command_validity_gate (verb code payload dest_id : string)
    (kw : Kwargs) (now : Z) :
  (∀ cmd, Command_init H verb code payload dest_id kw now = Ok cmd →
     is_valid H cmd = Ok true
     ∧ (∃ s, frame_str (cmd_verb cmd) (cmd_seqn cmd) (cmd_addrs cmd) (cmd_code cmd)
               (cmd_len cmd) (cmd_payload cmd) = Ok s
             ∧ COMMAND_REGEX_match H s = true)
     ∧ 2 ≤ py_len (cmd_payload cmd) ≤ 96)
  ∧ (∀ src dst addrs s,
       pkt_addrs H (default (HGI_DEV_ADDR_id H) (kw_from_id kw) ++ " " ++ dest_id
                    ++ " " ++ NON_DEV_ADDR_id H) = Ok (src, dst, addrs) →
       frame_str (str_take 2 (rjust2 verb)) "---" addrs code
         (py_len payload / 2) payload = Ok s →
       COMMAND_REGEX_match H s = false ∨ py_len payload < 2 ∨ 96 < py_len payload →
       Command_init H verb code payload dest_id kw now = Raise ValueError).
Proof.
  split.
  - intros cmd Hc.
    apply Command_init_inv in Hc
      as (src & dst & addrs & _ & Hv & Hverb & Hseqn & Haddrs & Hcode & Hlen & Hp & _).
    unfold is_valid. rewrite Hverb, Hseqn, Haddrs, Hcode, Hlen, Hp.
    split; [done|].
    unfold frame_is_valid in Hv.
    destruct (frame_str _ _ addrs code _ payload) as [s|] eqn:Es; [|done].
    rewrite bind_Ok in Hv. injection Hv as Hv.
    apply andb_prop in Hv as [Hre [H2 H96]%andb_prop].
    split; [by exists s|]. split; [by apply Z.leb_le|by apply Z.leb_le].
  - intros src dst addrs s Ha Hs Hbad. unfold Command_init.
    rewrite Ha, bind_Ok. unfold frame_is_valid. rewrite Hs, !bind_Ok.
    assert (COMMAND_REGEX_match H s
            && ((2 <=? py_len payload) && (py_len payload <=? 96)) = false) as ->; [|done].
    destruct Hbad as [-> | [Hlt | Hgt]]; [done| |].
    + apply Z.leb_gt in Hlt. rewrite Hlt. by rewrite andb_false_r.
    + apply Z.leb_gt in Hgt. rewrite Hgt. by rewrite !andb_false_r.
Qed.

Lemma py_between_outside (lo hi q : Qc) :
  (q < lo ∨ hi < q)%Qc → py_between lo (VFloat q) hi = Ok false.
Proof.
  intros Hq. unfold py_between. simpl. f_equal.
  apply andb_false_iff.
  destruct Hq as [Hq|Hq]; [left|right]; apply bool_decide_eq_false;
    by apply Qclt_not_le.
Qed.

Lemma normalise_duration_both (mode : string) (target : pyval) (u d : Z) :
  normalise_duration mode target (Some u) (Some d) = Raise ValueError.
Proof.
  unfold normalise_duration.
  destruct (String.eqb mode temporary_override); [done|].
  by destruct (is_substring mode countdown_override).
Qed.

Lemma ZONE_MODE_hex_raises (key : pyval) (e : exc) :
  ZONE_MODE_hex key = Raise e → e = KeyError ∨ e = TypeError.
Proof.
  unfold ZONE_MODE_hex. destruct key; intros He; simplify_eq; auto.
  destruct (find _ _); simplify_eq. auto.
Qed.

Lemma normalise_zone_mode_raises (mode target : pyval) (until duration : option Z)
    (e : exc) :
  normalise_zone_mode mode target until duration = Raise e →
  e = ValueError ∨ e = KeyError ∨ e = TypeError.
Proof.
  unfold normalise_zone_mode. intros He.
  destruct (is_none mode && is_none target); [simplify_eq; auto|].
  destruct (bool_decide (is_Some until) && _); [simplify_eq; auto|].
  destruct (is_none mode).
  - repeat case_match; simpl in He; repeat case_match; simplify_eq; auto.
  - assert (Hk : ∀ key,
              (ZONE_MODE_hex key ≫= λ m : string,
                 if negb (String.eqb m follow_schedule) && is_none target
                 then Raise ValueError else mret m) = Raise e →
              e = ValueError ∨ e = KeyError ∨ e = TypeError).
    { intros key Hk. destruct (ZONE_MODE_hex key) as [m|e'] eqn:Em; simpl in Hk.
      - repeat case_match; simplify_eq; auto.
      - simplify_eq. apply ZONE_MODE_hex_raises in Em. tauto. }
    destruct (is_int mode) eqn:Ei.
    + destruct mode; try done; exact (Hk _ He).
    + exact (Hk _ He).
Qed.

(** With both [until] and [duration] given, the payload of either mode
    constructor is never produced: one of the two normalisation steps, or
    the type check between them, raises. *)
Lemma mode_payload_both (zone_idx : Z) (a : mode_args) :
  is_Some (ma_until a) → is_Some (ma_duration a) →
  (∃ e, set_zone_mode_payload H zone_idx a = Raise e
        ∧ (e = ValueError ∨ e = KeyError ∨ e = TypeError))
  ∧ (∃ e, set_dhw_mode_payload H a = Raise e
          ∧ (e = ValueError ∨ e = KeyError ∨ e = TypeError)).
Proof.
  intros [u Hu] [d Hd]. split.
  - unfold set_zone_mode_payload. rewrite Hu, Hd.
    destruct (normalise_zone_mode _ _ _ _) as [m|e] eqn:En.
    + rewrite bind_Ok. destruct (_ && _); [eauto|].
      rewrite normalise_duration_both. eauto.
    + exists e. split; [done|]. by eapply normalise_zone_mode_raises.
  - unfold set_dhw_mode_payload. rewrite Hu, Hd.
    destruct (normalise_zone_mode _ _ _ _) as [m|e] eqn:En.
    + rewrite bind_Ok. destruct (_ && _); [eauto|].
      rewrite normalise_duration_both. eauto.
    + exists e. split; [done|]. by eapply normalise_zone_mode_raises.
Qed.

Lemma zone_decorator_int {A} (fcn : string → Z → A → res Command)
    (ctl_id : string) (z : Z) (args : A) :
  zone_decorator fcn ctl_id (ZoneInt z) args = validate_wrapper (fcn ctl_id z args).
Proof.
  unfold zone_decorator. rewrite bind_Ok.
  assert ((0 >? z) && (z >? 15) = false) as ->; [|done].
  apply andb_false_iff. rewrite !Z.gtb_ltb, !Z.ltb_ge. lia.
Qed.

(** C1 (amended). A fault raised inside a constructor decorated with
    [validate_command] - an assertion on a numeric range, an illegal
    combination of mode, until and duration, or the structural self-check of
    the command - does not reach the caller: the wrapper catches
    [AssertionError], [AttributeError], [LookupError], [TypeError] and
    [ValueError], logs the exception, and the constructor returns [None]. *)
Theorem builder_faults_are_swallowed :
  (∀ (r : res Command) (e : exc), validate_wrapper r = Raise e →
     r = Raise e
     ∧ caught_by e [AssertionError; AttributeError; LookupError; TypeError; ValueError]
       = false)
  ∧ (∀ ctl_id a q, dp_setpoint a = VFloat q → (q < Qc_of_Z 30 ∨ Qc_of_Z 85 < q)%Qc →
       set_dhw_params H ctl_id a = Ok (None, [Log_exception]))
  ∧ (∀ ctl_id z a, is_Some (ma_until a) → is_Some (ma_duration a) →
       set_zone_mode H ctl_id (ZoneInt z) a = Ok (None, [Log_exception])
       ∧ set_dhw_mode H ctl_id a = Ok (None, [Log_exception]))
  ∧ (∀ ctl_id (a : dhw_params) verb code payload,
       Command_init H verb code payload ctl_id (dp_kwargs a) (dp_now a) = Raise ValueError →
       device_decorator
         (λ c a, Command_init H verb code payload c (dp_kwargs a) (dp_now a)) ctl_id a
       = Ok (None, [Log_exception])).
Proof.
  split; [|split; [|split]].
  - intros r e. unfold validate_wrapper. destruct r as [c|e']; [done|].
    destruct (caught_by e' _) eqn:Ec; [done|]. by intros [= ->].
  - intros ctl_id a q Hs Hq. unfold set_dhw_params, device_decorator.
    eapply validate_wrapper_caught with (e := AssertionError); [|done].
    unfold set_dhw_params_body. rewrite Hs. cbn [is_none].
    by rewrite (py_between_outside _ _ q Hq).
  - intros ctl_id z a Hu Hd.
    destruct (mode_payload_both z a Hu Hd) as [(e1 & E1 & C1) (e2 & E2 & C2)].
    split.
    + unfold set_zone_mode. rewrite zone_decorator_int.
      eapply validate_wrapper_caught with (e := e1).
      * unfold set_zone_mode_body. by rewrite E1.
      * by destruct C1 as [-> | [-> | ->]].
    + unfold set_dhw_mode, device_decorator.
      eapply validate_wrapper_caught with (e := e2).
      * unfold set_dhw_mode_body. by rewrite E2.
      * by destruct C2 as [-> | [-> | ->]].
  - intros ctl_id a verb code payload Hc. unfold device_decorator.
    by eapply validate_wrapper_caught.
Qed.

End CommandProps.

(** C1 (counterexample). [set_dhw_params] with a setpoint of 20.0, below the
    30.0 to 85.0 range, raises nothing: it returns [None] after logging. *)
Lemma set_dhw_params_out_of_range_returns_None :
  set_dhw_params demo_helpers "01:145038" (dhw_call (VFloat (Qc_of_Z 20)) VNone VNone)
  = Ok (None, [Log_exception])
  ∧ ¬ raises (set_dhw_params demo_helpers "01:145038"
                (dhw_call (VFloat (Qc_of_Z 20)) VNone VNone)).
Proof. split; [by vm_compute|]. vm_compute. tauto. Qed.

Lemma builder_faults_are_swallowed_witness :
  set_dhw_params demo_helpers "01:145038" (dhw_call (VFloat (Qc_of_Z 90)) VNone VNone)
  = Ok (None, [Log_exception])
  ∧ set_zone_mode demo_helpers "01:145038" (ZoneInt 1)
      (mode_call VNone (VInt 20) (Some 63000000000000000) (Some 60))
    = Ok (None, [Log_exception]).
Proof.
  destruct (builder_faults_are_swallowed demo_helpers) as (_ & Hrange & Hboth & _).
  split.
  - apply (Hrange _ _ (Qc_of_Z 90)); [reflexivity|]. right. by vm_compute.
  - apply Hboth; by eexists.
Defined.

Lemma command_validity_gate_witness :
  (∃ cmd, Command_init demo_helpers W_ "2309" "0107D0" "01:145038" no_kwargs 0 = Ok cmd
          ∧ is_valid demo_helpers cmd = Ok true)
  ∧ Command_init demo_helpers W_ "2309" "" "01:145038" no_kwargs 0 = Raise ValueError.
Proof.
  destruct (command_validity_gate demo_helpers W_ "2309" "0107D0" "01:145038" no_kwargs 0)
    as [Hok _].
  destruct (command_validity_gate demo_helpers W_ "2309" "" "01:145038" no_kwargs 0)
    as [_ Hbad].
  split.
  - destruct (Command_init demo_helpers W_ "2309" "0107D0" "01:145038" no_kwargs 0)
      as [cmd|] eqn:E; [|by vm_compute in E].
    exists cmd. split; [done|]. by apply Hok.
  - eapply Hbad; [by vm_compute|by vm_compute|]. right. left. by vm_compute.
Defined.

(** ** Mode normalisation *)

(** A duration of 0, given without a mode: [normalise_zone_mode] tests the
    truth of [duration], not its presence, and infers permanent override;
    [normalise_duration], which tests [duration is None], then rejects the
    duration, which it would accept under countdown override. *)
Lemma zero_duration_infers_permanent :
  normalise_zone_mode VNone (VInt 20) None (Some 0) = Ok permanent_override
  ∧ permanent_override ≠ countdown_override
  ∧ normalise_duration permanent_override (VInt 20) None (Some 0) = Raise ValueError
  ∧ normalise_duration countdown_override (VInt 20) None (Some 0) = Ok (None, Some 0).
Proof. repeat split. discriminate. Qed.




Section ModeProps.
Context (H : Helpers).

(** The command that [Command.__init__] returns for a frame that the address
    helper accepts and that passes the structural self-check. *)
Lemma Command_init_ok (verb code payload dest_id : string) (kw : Kwargs) (now : Z)
    (src dst : Address) (addrs : list Address) :
  pkt_addrs H (default (HGI_DEV_ADDR_id H) (kw_from_id kw) ++ " " ++ dest_id
               ++ " " ++ NON_DEV_ADDR_id H) = Ok (src, dst, addrs) →
  frame_is_valid H (str_take 2 (rjust2 verb)) "---" addrs code (py_len payload / 2) payload
  = Ok true →
  Command_init H verb code payload dest_id kw now
  = Ok {| cmd_verb := str_take 2 (rjust2 verb); cmd_seqn := "---"; cmd_src := src;
          cmd_dst := dst; cmd_addrs := addrs; cmd_code := code;
          cmd_len := py_len payload / 2; cmd_payload := payload;
          cmd_callback := kw_callback kw;
          cmd_qos := (_qos (str_take 2 (rjust2 verb)) code kw).2;
          cmd_priority := (_qos (str_take 2 (rjust2 verb)) code kw).1;
          cmd_dtm := now |}.
Proof.
  intros Ha Hv. unfold Command_init. rewrite Ha, bind_Ok, Hv, bind_Ok.
  cbn [negb]. by destruct (_qos _ code kw).
Qed.

(** C10 (amended). With the mode explicitly that of a temporary override,
    neither until nor duration, and a target - a numeric setpoint that the
    helper encodes, for [set_zone_mode]; a boolean or integer active, for
    [set_dhw_mode] - normalisation raises no fault: [normalise_duration]
    returns the pair unchanged (the downgrade to advanced override stays in
    its local variable), and the payload carries the temporary override
    code, "FFFFFF" for the duration and nothing after it.  The constructor
    then returns what [Command.__init__] makes of this payload: for ids that
    the address helper accepts and a frame that passes the structural
    self-check, a [W] command of code 2349 (resp. 1F41) with this payload,
    half its number of characters as length, and the sequence number
    "---". *)
Theorem temporary_override_without_until (ctl_id : string) (zone_idx : Z)
    (mode target : pyval) (kw : Kwargs) (now : Z) :
  mode = VStr "temporary_override" ∨ mode = VStr temporary_override ∨ mode = VInt 4 →
  let a := {| ma_mode := mode; ma_target := target; ma_until := None;
              ma_duration := None; ma_kwargs := kw; ma_now := now |} in
  let built (code payload : string) (src dst : Address) (addrs : list Address) :=
    {| cmd_verb := W_; cmd_seqn := "---"; cmd_src := src; cmd_dst := dst;
       cmd_addrs := addrs; cmd_code := code; cmd_len := py_len payload / 2;
       cmd_payload := payload; cmd_callback := kw_callback kw;
       cmd_qos := (_qos W_ code kw).2; cmd_priority := (_qos W_ code kw).1;
       cmd_dtm := now |} in
  normalise_duration temporary_override target None None = Ok (None, None)
  ∧ (is_number target = true → ∀ t, temp_to_hex H target = Ok t →
     let payload := fmt_X 2 zone_idx ++ t ++ temporary_override ++ "FFFFFF" in
     set_zone_mode_payload H zone_idx a = Ok payload
     ∧ set_zone_mode H ctl_id (ZoneInt zone_idx) a
       = validate_wrapper (Command_init H W_ "2349" payload ctl_id kw now)
     ∧ (∀ src dst addrs,
          pkt_addrs H (default (HGI_DEV_ADDR_id H) (kw_from_id kw) ++ " " ++ ctl_id
                       ++ " " ++ NON_DEV_ADDR_id H) = Ok (src, dst, addrs) →
          frame_is_valid H W_ "---" addrs "2349" (py_len payload / 2) payload = Ok true →
          set_zone_mode H ctl_id (ZoneInt zone_idx) a
          = Ok (Some (built "2349" payload src dst addrs), []))
     ∧ (∀ cmd, set_zone_mode H ctl_id (ZoneInt zone_idx) a = Ok (Some cmd, []) →
          cmd_payload cmd = payload ∧ cmd_code cmd = "2349" ∧ cmd_verb cmd = W_
          ∧ is_valid H cmd = Ok true))
  ∧ (is_int target = true →
     let payload := "00" ++ (if py_truthy target then "01" else "00")
                    ++ temporary_override ++ "FFFFFF" in
     set_dhw_mode_payload H a = Ok payload
     ∧ set_dhw_mode H ctl_id a
       = validate_wrapper (Command_init H W_ "1F41" payload ctl_id kw now)
     ∧ (∀ src dst addrs,
          pkt_addrs H (default (HGI_DEV_ADDR_id H) (kw_from_id kw) ++ " " ++ ctl_id
                       ++ " " ++ NON_DEV_ADDR_id H) = Ok (src, dst, addrs) →
          frame_is_valid H W_ "---" addrs "1F41" (py_len payload / 2) payload = Ok true →
          set_dhw_mode H ctl_id a = Ok (Some (built "1F41" payload src dst addrs), []))
     ∧ (∀ cmd, set_dhw_mode H ctl_id a = Ok (Some cmd, []) →
          cmd_payload cmd = payload ∧ cmd_code cmd = "1F41" ∧ cmd_verb cmd = W_
          ∧ is_valid H cmd = Ok true)).
Proof.
  intros Hmode a built. split; [done|].
  assert (Hret : ∀ code payload (r : res (option Command * list log_call)) cmd,
            r = validate_wrapper (Command_init H W_ code payload ctl_id kw now) →
            r = Ok (Some cmd, []) →
            cmd_payload cmd = payload ∧ cmd_code cmd = code ∧ cmd_verb cmd = W_
            ∧ is_valid H cmd = Ok true).
  { intros code payload r cmd -> Hr.
    destruct (Command_init H W_ code payload ctl_id kw now) as [cmd'|e] eqn:Ec.
    - injection Hr as <-.
      apply Command_init_inv in Ec
        as (_ & _ & addrs & _ & Hv & Hverb & Hseqn & Haddrs & Hcode & Hlen & Hp & _).
      split; [done|]. split; [done|]. split; [done|].
      unfold is_valid. by rewrite Hverb, Hseqn, Haddrs, Hcode, Hlen, Hp.
    - unfold validate_wrapper in Hr. by destruct (caught_by e _). }
  assert (Hbuilt : ∀ code payload src dst addrs,
            pkt_addrs H (default (HGI_DEV_ADDR_id H) (kw_from_id kw) ++ " " ++ ctl_id
                         ++ " " ++ NON_DEV_ADDR_id H) = Ok (src, dst, addrs) →
            frame_is_valid H W_ "---" addrs code (py_len payload / 2) payload = Ok true →
            validate_wrapper (Command_init H W_ code payload ctl_id kw now)
            = Ok (Some (built code payload src dst addrs), [])).
  { intros code payload src dst addrs Ha Hv.
    by rewrite (Command_init_ok W_ code payload ctl_id kw now src dst addrs Ha Hv). }
  split.
  - intros Hnum t Ht payload.
    assert (Hp : set_zone_mode_payload H zone_idx a = Ok payload).
    { unfold set_zone_mode_payload, a. cbn [ma_mode ma_target ma_until ma_duration].
      assert (normalise_zone_mode mode target None None = Ok temporary_override) as ->.
      { destruct target; try done; by destruct Hmode as [-> | [-> | ->]]. }
      rewrite bind_Ok, Hnum.
      assert (is_none target = false) as -> by by destruct target.
      cbn [negb andb].
      change (normalise_duration temporary_override target None None)
        with (Ok (None, None) : res (option Z * option Z)).
      by rewrite bind_Ok, Ht, bind_Ok. }
    assert (Hz : set_zone_mode H ctl_id (ZoneInt zone_idx) a
                 = validate_wrapper (Command_init H W_ "2349" payload ctl_id kw now)).
    { unfold set_zone_mode. rewrite zone_decorator_int.
      unfold set_zone_mode_body. by rewrite Hp. }
    split; [done|]. split; [done|]. split.
    + intros src dst addrs Ha Hv. rewrite Hz. by apply Hbuilt.
    + intros cmd Hc. by eapply Hret.
  - intros Hint payload.
    assert (Hp : set_dhw_mode_payload H a = Ok payload).
    { unfold set_dhw_mode_payload, payload, a.
      cbn [ma_mode ma_target ma_until ma_duration].
      destruct target; try done; by destruct Hmode as [-> | [-> | ->]]. }
    assert (Hd : set_dhw_mode H ctl_id a
                 = validate_wrapper (Command_init H W_ "1F41" payload ctl_id kw now)).
    { unfold set_dhw_mode, device_decorator, set_dhw_mode_body. by rewrite Hp. }
    split; [done|]. split; [done|]. split.
    + intros src dst addrs Ha Hv. rewrite Hd. by apply Hbuilt.
    + intros cmd Hc. by eapply Hret.
Qed.

End ModeProps.

(** C10 (counterexample). [set_zone_mode] and [set_dhw_mode] called with the
    mode of a temporary override and nothing else - the setpoint, or active,
    left at its default [None] - raise a fault: [normalise_zone_mode]
    rejects every mode but follow_schedule without a target.  No command is
    built; the fault is logged and [None] is returned. *)
Lemma temporary_override_without_target_faults :
  set_zone_mode_payload demo_helpers 1
    (mode_call (VStr "temporary_override") VNone None None) = Raise ValueError
  ∧ set_zone_mode demo_helpers "01:145038" (ZoneInt 1)
      (mode_call (VStr "temporary_override") VNone None None)
    = Ok (None, [Log_exception])
  ∧ set_dhw_mode_payload demo_helpers
      (mode_call (VStr "temporary_override") VNone None None) = Raise ValueError
  ∧ set_dhw_mode demo_helpers "01:145038"
      (mode_call (VStr "temporary_override") VNone None None)
    = Ok (None, [Log_exception]).
Proof. repeat split. Qed.

Lemma temporary_override_without_until_witness :
  set_zone_mode demo_helpers "01:145038" (ZoneInt 1)
    (mode_call (VStr "temporary_override") (VInt 20) None None)
  = Ok (Some {| cmd_verb := W_; cmd_seqn := "---";
                cmd_src := {| addr_id := "18:000730"; addr_type := "18" |};
                cmd_dst := {| addr_id := "01:145038"; addr_type := "01" |};
                cmd_addrs := [{| addr_id := "18:000730"; addr_type := "18" |};
                              {| addr_id := "01:145038"; addr_type := "01" |};
                              {| addr_id := "--:------"; addr_type := "--" |}];
                cmd_code := "2349"; cmd_len := 7; cmd_payload := "0107D004FFFFFF";
                cmd_callback := None;
                cmd_qos := {| qos_retries := 2; qos_timeout := 50000;
                              qos_disable_backoff := false |};
                cmd_priority := 4; cmd_dtm := 0 |}, [])
  ∧ set_dhw_mode demo_helpers "01:145038"
      (mode_call (VInt 4) (VBool true) None None)
    = Ok (Some {| cmd_verb := W_; cmd_seqn := "---";
                  cmd_src := {| addr_id := "18:000730"; addr_type := "18" |};
                  cmd_dst := {| addr_id := "01:145038"; addr_type := "01" |};
                  cmd_addrs := [{| addr_id := "18:000730"; addr_type := "18" |};
                                {| addr_id := "01:145038"; addr_type := "01" |};
                                {| addr_id := "--:------"; addr_type := "--" |}];
                  cmd_code := "1F41"; cmd_len := 6; cmd_payload := "000104FFFFFF";
                  cmd_callback := None;
                  cmd_qos := {| qos_retries := 2; qos_timeout := 50000;
                                qos_disable_backoff := false |};
                  cmd_priority := 4; cmd_dtm := 0 |}, []).
Proof.
  split.
  - destruct (temporary_override_without_until demo_helpers "01:145038" 1
                (VStr "temporary_override") (VInt 20) no_kwargs 0 (or_introl eq_refl))
      as (_ & Hzone & _).
    destruct (Hzone eq_refl "07D0" eq_refl) as (_ & _ & Hbuilt & _).
    exact (Hbuilt _ _ _ eq_refl eq_refl).
  - destruct (temporary_override_without_until demo_helpers "01:145038" 1
                (VInt 4) (VBool true) no_kwargs 0 (or_intror (or_intror eq_refl)))
      as (_ & _ & Hdhw).
    destruct (Hdhw eq_refl) as (_ & _ & Hbuilt & _).
    exact (Hbuilt _ _ _ eq_refl eq_refl).
Defined.

(** ** The top-level entry point *)

Example parse_sync :
  parse_payload demo_tables no_other_parsers (controller_frame "1F09" "FF073F" 0 ∅)
  = Ok (Some (PDict (py_dict [("remaining_seconds", VFloat (py_truediv 1855 10));
                              ("_next_sync", VStr "00:03:05")])), []).
Proof. by vm_compute. Qed.

Example parse_bad_payload :
  parse_payload demo_tables no_other_parsers (controller_frame "1F09" "02073F" 0 ∅)
  = Ok (None, [Log_warning]).
Proof. by vm_compute. Qed.

Example parse_zone_config :
  parse_payload demo_tables no_other_parsers
    (controller_frame "000A" "081001F409C4" 0 {["zone_idx" := VStr "08"]})
  = Ok (Some (PDict (py_dict
      [("zone_idx", VStr "08");
       ("min_temp", VFloat (py_truediv 500 100));
       ("max_temp", VFloat (py_truediv 2500 100));
       ("local_override", VBool true);
       ("openwindow_function", VBool true);
       ("multiroom_mode", VBool false);
       ("_unknown_bitmap", VStr "0b00010000")])), []).
Proof. by vm_compute. Qed.

Example parse_fault_log_entry :
  parse_payload demo_tables no_other_parsers
    (controller_frame "0418" "000000B00401010000008694A3CC7FFFFF70000ECC8A" 0 ∅)
  = Ok (Some (PDict (py_dict
      [("log_idx", VStr "00");
       ("timestamp", VStr "008694A3CC7F");
       ("fault_state", VStr "fault");
       ("fault_type", VStr "battery_low");
       ("device_class", VStr "sensor");
       ("zone_id", VStr "01");
       ("device_id", VStr "0ECC8A");
       ("_unknown_1", VStr "B0");
       ("_unknown_2", VStr "0000");
       ("_unknown_3", VStr "FFFF7000")])), []).
Proof. by vm_compute. Qed.

Example parse_zone_devices :
  parse_payload demo_tables no_other_parsers
    (controller_frame "000C" "01000010DAF501000010DAFB" 0 ∅)
  = Ok (Some (PDict (py_dict
      [("zone_idx", VStr "01");
       ("device_class", VStr "zone_actuators");
       ("devices", VList [VStr "10DAF5"; VStr "10DAFB"])])), []).
Proof. by vm_compute. Qed.

Example parse_relay_demand :
  parse_payload demo_tables no_other_parsers
    (controller_frame "0008" "FCC8" 0 ∅)
  = Ok (Some (PDict (py_dict
      [("domain_id", VStr "FC"); ("relay_demand", VFloat (py_truediv 200 200))])), []).
Proof. by vm_compute. Qed.

Section EntryProps.
Context (T : Tables) (other_parsers : string → option (string → Msg → res parsed)).

(** What [parse_payload] does with the outcome of the parser it selected:
    a result is returned as it is; an exception of a class named in one of
    the four handlers is logged and [None] is returned; an exception of any
    other class leaves [parse_payload]. *)
Lemma parse_payload_outcome (msg : Msg) :
  let parser := default (parser_decorator T parser_unknown)
                        (PAYLOAD_PARSERS T other_parsers (msg_code msg)) in
  match parser (msg_raw_payload msg) msg with
  | Ok result => parse_payload T other_parsers msg = Ok (Some result, [])
  | Raise e =>
      if caught_by e HANDLED
      then ∃ l, parse_payload T other_parsers msg = Ok (None, [l])
      else parse_payload T other_parsers msg = Raise e
  end.
Proof.
  intros parser. unfold parse_payload. fold parser.
  destruct (parser (msg_raw_payload msg) msg) as [result|e]; [done|].
  destruct e; vm_compute; eauto.
Qed.

(** A code that [RAMSES_CODES] does not know and that has no parser: the
    wrapper around [parser_unknown] raises [CorruptPacketError], which is
    logged, and [None] is returned. *)
Lemma parse_payload_unknown_code (msg : Msg) :
  RAMSES_CODES T (msg_code msg) = None →
  PAYLOAD_PARSERS T other_parsers (msg_code msg) = None →
  parse_payload T other_parsers msg
  = Ok (None, [if DEV_MODE T then Log_exception else Log_warning]).
Proof.
  intros Hc Hp. unfold parse_payload. rewrite Hp. cbn [default].
  unfold parser_decorator. by rewrite Hc.
Qed.

End EntryProps.

(** C2. The frame [ I --- 01:145038 --:------ 01:145038 1F09 003 FF073F]
    with the timestamp 9999-12-31T23:59:00: [parser_1f09] adds 185.5 seconds
    to the timestamp, the sum is past [datetime.max], and the
    [OverflowError] is of none of the classes that [parse_payload] catches;
    it leaves [parse_payload]. *)
Theorem parse_payload_overflow_escapes :
  parse_payload demo_tables no_other_parsers
    (controller_frame "1F09" "FF073F" last_minute ∅)
  = Raise OverflowError
  ∧ caught_by OverflowError HANDLED = false.
Proof. split; by vm_compute. Qed.

(** ** Index keys of decoded records *)

Lemma filter_at_most_one {A} (P : A → Prop) `{!∀ x, Decision (P x)} (l : list A) :
  NoDup l →
  (length (filter P l) ≤ 1)%nat ↔ (∀ x y, x ∈ l → y ∈ l → P x → P y → x = y).
Proof.
  induction 1 as [|a l Ha Hl IH]; [by split; [intros _ x y Hx; inversion Hx|simpl; lia]|].
  rewrite filter_cons. destruct (decide (P a)) as [Pa|nPa].
  - cbn [length]. split.
    + intros Hlen. assert (Hnil : filter P l = []) by (destruct (filter P l); [done|simpl in Hlen; lia]).
      assert (Hno : ∀ x, x ∈ l → ¬ P x).
      { intros x Hx Px. assert (x ∈ filter P l) as Hf by by apply list_elem_of_filter.
        rewrite Hnil in Hf. inversion Hf. }
      intros x y [->|Hx]%elem_of_cons [->|Hy]%elem_of_cons Px Py; try done.
      * by destruct (Hno y).
      * by destruct (Hno x).
      * by destruct (Hno x).
    + intros Hall. assert (Hnil : filter P l = []).
      { destruct (filter P l) as [|x l'] eqn:E; [done|].
        assert (x ∈ filter P l) as [Px Hx]%list_elem_of_filter by (rewrite E; left).
        assert (x = a) as -> by (apply Hall; [by right|by left|done..]). done. }
      rewrite Hnil. simpl. lia.
  - rewrite IH. split.
    + intros Hall x y [->|Hx]%elem_of_cons [->|Hy]%elem_of_cons Px Py; try done.
      by apply Hall.
    + intros Hall x y Hx Hy. apply Hall; by right.
Qed.

Lemma identity_keys_NoDup : NoDup identity_keys.
Proof. by apply (bool_decide_unpack _). Qed.

Lemma exclusive_pairwise (r : record) :
  exclusive r ↔
  ∀ k k', k ∈ identity_keys → k' ∈ identity_keys →
          is_Some (r !! k) → is_Some (r !! k') → k = k'.
Proof. apply filter_at_most_one, identity_keys_NoDup. Qed.

Lemma exclusive_empty : exclusive ∅.
Proof. apply exclusive_pairwise. intros k k' _ _ [v Hv]. by rewrite lookup_empty in Hv. Qed.

(** A key that is not an index key does not change the count. *)
Lemma exclusive_insert_other (k0 : string) (v : pyval) (r : record) :
  k0 ∉ identity_keys → exclusive r → exclusive (<[k0 := v]> r).
Proof.
  intros Hk0. rewrite !exclusive_pairwise. intros Hr k k' Hk Hk'.
  rewrite !lookup_insert_ne by (intros ->; done). by apply Hr.
Qed.

(** A record that holds one index key besides other keys. *)
Lemma exclusive_insert_only (k0 : string) (v : pyval) (r : record) :
  (∀ k, k ∈ identity_keys → r !! k = None) → exclusive (<[k0 := v]> r).
Proof.
  intros Hr. apply exclusive_pairwise. intros k k' Hk Hk' [x Hx] [y Hy].
  destruct (decide (k0 = k)) as [<-|Hne]; destruct (decide (k0 = k')) as [<-|Hne'];
    try done.
  - rewrite lookup_insert_ne, Hr in Hy; done.
  - rewrite lookup_insert_ne, Hr in Hx; done.
  - rewrite lookup_insert_ne, Hr in Hx; done.
Qed.

(** The merge of the wrapper keeps the bound when the index of the message
    and the record are of one kind. *)
Lemma exclusive_merge (a b : record) :
  exclusive a → exclusive b → one_kind a b → exclusive (dict_merge a b).
Proof.
  rewrite !exclusive_pairwise. intros Ha Hb Hab k k' Hk Hk'.
  unfold dict_merge. rewrite !lookup_union_is_Some.
  intros [Hkb|Hka] [Hkb'|Hka'].
  - by apply Hb.
  - symmetry. by apply (Hab k' k).
  - by apply (Hab k k').
  - by apply Ha.
Qed.

Lemma dict_merge_empty (a : record) : dict_merge a ∅ = a.
Proof. unfold dict_merge. by rewrite (left_id_L ∅ (∪)). Qed.

Lemma dict_merge_same (a : record) : dict_merge a a = a.
Proof. unfold dict_merge. by rewrite (idemp_L (∪)). Qed.

Lemma not_identity_key (k : string) :
  str_in k identity_keys = false → k ∉ identity_keys.
Proof.
  intros Hk Hin. unfold identity_keys in Hin.
  repeat (apply elem_of_cons in Hin as [->|Hin]; [by vm_compute in Hk|]).
  inversion Hin.
Qed.

(** Inversion of a computation that returned. *)
Ltac res_inv H :=
  repeat first
    [ progress unfold mret, res_ret in H
    | progress rewrite ?bind_Ok in H
    | match type of H with
      | (?m ≫= _) = Ok _ =>
          let E := fresh "E" in
          destruct m eqn:E; [rewrite bind_Ok in H; try res_inv E|discriminate H]
      | (_ <$> ?m) = Ok _ =>
          let E := fresh "E" in
          destruct m eqn:E; [cbn [fmap res_fmap] in H; try res_inv E|discriminate H]
      | (if ?b then _ else _) = Ok _ =>
          let E := fresh "E" in destruct b eqn:E
      end ];
  try discriminate H;
  try (injection H as H; try subst).

Section IndexProps.
Context (T : Tables).

(** [_idx] hands back [msg._idx] itself. *)
Lemma _idx_result (seqx : string) (msg : Msg) (r : record) :
  _idx seqx msg = Ok r → r = msg_idx msg.
Proof.
  unfold _idx. intros Hr.
  repeat match type of Hr with
         | (if ?b then _ else _) = Ok _ => destruct b
         end;
    try discriminate Hr;
    repeat match type of Hr with
           | (?m ≫= _) = Ok _ => destruct m; [rewrite bind_Ok in Hr|discriminate Hr]
           end;
    by injection Hr.
Qed.

Lemma map_res_Forall {A B} (f : A → res B) (P : B → Prop) (l : list A) (l' : list B) :
  (∀ x y, f x = Ok y → P y) → map_res f l = Ok l' → Forall P l'.
Proof.
  intros Hf. revert l'. induction l as [|x l IH]; intros l' Hl; simpl in Hl.
  - injection Hl as <-. constructor.
  - destruct (f x) as [y|] eqn:Ey; [|done]. rewrite bind_Ok in Hl.
    destruct (map_res f l) as [ys|]; [|done]. rewrite bind_Ok in Hl.
    injection Hl as <-. constructor; [by eapply Hf|by apply IH].
Qed.

Lemma exclusive_singleton (k : string) (v : pyval) : exclusive ({[k := v]} : record).
Proof.
  rewrite <- insert_empty. apply exclusive_insert_only. intros; apply lookup_empty.
Qed.

Lemma parser_0008_idx_exclusive payload msg r :
  parser_0008_idx payload msg = Ok r → exclusive r.
Proof.
  unfold parser_0008_idx. intros Hr. res_inv Hr;
    first [apply exclusive_empty | apply exclusive_singleton].
Qed.

Lemma parser_0008_exclusive payload msg res :
  parser_0008 payload msg = Ok res → Forall exclusive (records_of res).
Proof.
  unfold parser_0008. intros Hr. res_inv Hr;
    apply Forall_singleton; unfold py_dict; cbn [foldl fst snd];
    repeat (apply exclusive_insert_other; [by apply not_identity_key|]);
    first [apply exclusive_empty | by eapply parser_0008_idx_exclusive].
Qed.

Lemma parser_0009_exclusive payload msg res :
  parser_0009 payload msg = Ok res → Forall exclusive (records_of res).
Proof.
  unfold parser_0009. intros Hr. res_inv Hr. cbn [records_of].
  eapply map_res_Forall; [|done]. clear. intros seqx r Hr.
  unfold parser_0009_parser in Hr. res_inv Hr; cbn [py_dict foldl fst snd];
    (apply exclusive_insert_other; [by apply not_identity_key|]);
    apply exclusive_insert_only; intros; apply lookup_empty.
Qed.

(** No index key in a record built from keys that are none. *)
Ltac no_identity :=
  let k := fresh "k" in
  let Hk := fresh "Hk" in
  intros k Hk; unfold identity_keys in Hk;
  repeat (apply elem_of_cons in Hk as [->|Hk];
          [by rewrite ?lookup_insert_ne, ?lookup_empty by done|]);
  inversion Hk.

(** A record built by displays and updates has at most one index key. *)
Ltac excl :=
  repeat match goal with
         | |- context [if ?b then _ else _] => destruct b
         end;
  unfold py_dict; cbn [foldl fst snd];
  repeat lazymatch goal with
         | |- exclusive (<[?k := _]> _) =>
             apply exclusive_insert_other; [by apply not_identity_key|]
         end;
  lazymatch goal with
  | |- exclusive ∅ => apply exclusive_empty
  | |- exclusive {[ _ := _ ]} => apply exclusive_singleton
  | |- exclusive (<[_ := _]> _) => apply exclusive_insert_only; no_identity
  | _ => assumption
  end.

Lemma _idx_exclusive seqx msg r :
  idx_exclusive msg → _idx seqx msg = Ok r → exclusive r.
Proof. intros Hm Hr. by rewrite (_idx_result _ _ _ Hr). Qed.

Lemma parser_000a_exclusive payload msg res :
  idx_exclusive msg →
  parser_000a payload msg = Ok res → Forall exclusive (records_of res).
Proof.
  assert (Hp : ∀ seqx r, parser_000a_parser seqx = Ok r → exclusive r).
  { unfold parser_000a_parser. intros seqx r Hr. res_inv Hr. excl. }
  unfold parser_000a. intros Hm Hr. res_inv Hr; cbn [records_of].
  - apply Forall_singleton. by eapply _idx_exclusive.
  - by eapply map_res_Forall.
  - apply Forall_singleton. by eapply Hp.
Qed.

Lemma parser_000c_exclusive payload msg res :
  parser_000c T payload msg = Ok res → Forall exclusive (records_of res).
Proof.
  assert (Hp : ∀ seqx r, parser_000c_idx payload seqx msg = Ok r → exclusive r).
  { unfold parser_000c_idx. intros seqx r Hr. res_inv Hr; excl. }
  unfold parser_000c. intros Hr. res_inv Hr; apply Forall_singleton;
    repeat (apply exclusive_insert_other; [by apply not_identity_key|]);
    by eapply Hp.
Qed.

Lemma parser_22c9_exclusive payload msg res :
  parser_22c9 payload msg = Ok res → Forall exclusive (records_of res).
Proof.
  assert (Hp : ∀ seqx r, parser_22c9_parser seqx = Ok r → exclusive r).
  { unfold parser_22c9_parser. intros seqx r Hr. res_inv Hr. excl. }
  unfold parser_22c9. intros Hr. res_inv Hr; cbn [records_of].
  - by eapply map_res_Forall.
  - apply Forall_singleton. by eapply Hp.
Qed.

Lemma parser_0418_exclusive payload msg res :
  parser_0418 T payload msg = Ok res → Forall exclusive (records_of res).
Proof.
  unfold parser_0418. intros Hr. res_inv Hr; apply Forall_singleton; excl.
Qed.

Lemma parser_1260_exclusive payload msg res :
  idx_exclusive msg →
  parser_1260 payload msg = Ok res → Forall exclusive (records_of res).
Proof.
  unfold parser_1260. intros Hm Hr. res_inv Hr; apply Forall_singleton.
  - by eapply _idx_exclusive.
  - excl.
Qed.

Lemma parser_12b0_exclusive payload msg res :
  idx_exclusive msg →
  parser_12b0 payload msg = Ok res → Forall exclusive (records_of res).
Proof.
  unfold parser_12b0. intros Hm Hr. res_inv Hr. apply Forall_singleton.
  apply exclusive_insert_other; [by apply not_identity_key|].
  by eapply _idx_exclusive.
Qed.

Lemma parser_1f09_exclusive payload msg res :
  parser_1f09 payload msg = Ok res → Forall exclusive (records_of res).
Proof.
  unfold parser_1f09. intros Hr. res_inv Hr. apply Forall_singleton. excl.
Qed.

Lemma parser_2309_exclusive payload msg res :
  idx_exclusive msg →
  parser_2309 payload msg = Ok res → Forall exclusive (records_of res).
Proof.
  assert (Hp : ∀ seqx r, parser_2309_parser seqx = Ok r → exclusive r).
  { unfold parser_2309_parser. intros seqx r Hr. res_inv Hr. excl. }
  unfold parser_2309. intros Hm Hr. res_inv Hr; cbn [records_of].
  - apply Forall_singleton. by eapply _idx_exclusive.
  - by eapply map_res_Forall.
  - apply Forall_singleton. by eapply Hp.
Qed.

Lemma parser_30c9_exclusive payload msg res :
  parser_30c9 payload msg = Ok res → Forall exclusive (records_of res).
Proof.
  assert (Hp : ∀ seqx r, parser_30c9_parser seqx = Ok r → exclusive r).
  { unfold parser_30c9_parser. intros seqx r Hr. res_inv Hr. excl. }
  unfold parser_30c9. intros Hr. res_inv Hr; cbn [records_of].
  - by eapply map_res_Forall.
  - apply Forall_singleton. by eapply Hp.
Qed.

Lemma parser_3150_exclusive payload msg res :
  parser_3150 payload msg = Ok res → Forall exclusive (records_of res).
Proof.
  assert (Hp : ∀ seqx r, parser_3150_parser msg seqx = Ok r → exclusive r).
  { unfold parser_3150_parser. intros seqx r Hr. res_inv Hr; excl. }
  unfold parser_3150. intros Hr. res_inv Hr; cbn [records_of].
  - by eapply map_res_Forall.
  - apply Forall_singleton. by eapply Hp.
Qed.

Lemma parser_3b00_exclusive payload msg res :
  parser_3b00 payload msg = Ok res → Forall exclusive (records_of res).
Proof.
  assert (Hp : ∀ p r, parser_3b00_idx p msg = Ok r → exclusive r).
  { unfold parser_3b00_idx. intros p r Hr. res_inv Hr; excl. }
  unfold parser_3b00. intros Hr. res_inv Hr. apply Forall_singleton.
  apply exclusive_insert_other; [by apply not_identity_key|]. by eapply Hp.
Qed.

(** Every embedded parser returns records with at most one index key. *)
Lemma embedded_parsers_exclusive c body payload msg res :
  (c, body) ∈ embedded_parsers T → idx_exclusive msg →
  body payload msg = Ok res → Forall exclusive (records_of res).
Proof.
  intros Hin Hm. unfold embedded_parsers in Hin.
  repeat (apply elem_of_cons in Hin as [[= -> ->]|Hin];
          [eauto using parser_0008_exclusive, parser_0009_exclusive,
             parser_000a_exclusive, parser_000c_exclusive, parser_22c9_exclusive,
             parser_0418_exclusive, parser_1260_exclusive, parser_12b0_exclusive,
             parser_1f09_exclusive, parser_2309_exclusive, parser_30c9_exclusive,
             parser_3150_exclusive, parser_3b00_exclusive|]).
  inversion Hin.
Qed.

End IndexProps.


(** * Further properties of the code *)

(** ** The primitive decoders *)

Lemma land_1 (b : Z) : Z.land b 1 = b mod 2.
Proof. exact (Z.land_ones b 1 ltac:(lia)). Qed.

Lemma flag_bits_length (k : nat) (b : Z) : length (flag_bits k b) = k.
Proof. revert b. induction k as [|k IH]; intros b; simpl; [done|by rewrite IH]. Qed.

Lemma flag_bits_binary (k : nat) (b : Z) :
  Forall (λ x, x = 0 ∨ x = 1) (flag_bits k b).
Proof.
  revert b. induction k as [|k IH]; intros b; simpl; constructor; [|by apply IH].
  rewrite land_1. pose proof (Z.mod_pos_bound b 2 ltac:(lia)). lia.
Qed.

Lemma flag_bits_value (k : nat) (b : Z) :
  bits_value (flag_bits k b) = b mod 2 ^ Z.of_nat k.
Proof.
  revert b. induction k as [|k IH]; intros b.
  - simpl. by rewrite Z.mod_1_r.
  - cbn [flag_bits bits_value]. rewrite IH.
    rewrite land_1, Z.shiftr_div_pow2 by lia. change (2 ^ 1) with 2.
    rewrite Nat2Z.inj_succ, Z.pow_succ_r by lia.
    rewrite Z.rem_mul_r by lia. done.
Qed.

Lemma fromhex_byte (v : string) :
  is_hex 2 v = true → fromhex_opt v = Some [hex_value v].
Proof.
  intros [Hl Hh]%is_hex_spec.
  destruct v as [|a [|b [|]]]; try done.
  simpl in Hh. apply andb_prop in Hh as [Ha [Hb _]%andb_prop].
  pose proof (hex_digit_plain a Ha) as [Hsa _].
  unfold is_hex_digit in Ha, Hb. cbn [fromhex_opt].
  assert (is_space a = false) as ->.
  { unfold is_str_space in Hsa. by apply orb_false_iff in Hsa as [-> _]. }
  unfold hex_value. cbn [hex_value_from].
  destruct (hex_digit a) as [h|]; [|done]. destruct (hex_digit b) as [l|]; [|done].
  simpl. repeat f_equal; lia.
Qed.

(** X1. On two hex digits [_flag8] returns eight flags, each 0 or 1, lowest
    bit first, and they are the binary digits of the byte: the byte can be
    recovered from the flags. *)
Theorem flag8_bits_of_byte (v : string) :
  is_hex 2 v = true →
  ∃ bits, _flag8 v = Ok bits
    ∧ length bits = 8%nat
    ∧ Forall (λ x, x = 0 ∨ x = 1) bits
    ∧ bits_value bits = hex_value v.
Proof.
  intros Hv. exists (flag_bits 8 (hex_value v)).
  split; [|split; [|split]].
  - unfold _flag8, bytes_fromhex. by rewrite (fromhex_byte v Hv).
  - apply flag_bits_length.
  - apply flag_bits_binary.
  - rewrite flag_bits_value. apply Z.mod_small.
    pose proof (hex_value_bound v) as Hb.
    apply is_hex_spec in Hv as [Hl _]. by rewrite Hl in Hb.
Qed.

Lemma flag8_bits_of_byte_witness :
  ∃ bits, _flag8 "A5" = Ok bits
    ∧ length bits = 8%nat
    ∧ Forall (λ x, x = 0 ∨ x = 1) bits
    ∧ bits_value bits = hex_value "A5".
Proof. apply (flag8_bits_of_byte "A5"). reflexivity. Defined.

Lemma py_truediv_mono (a b d : Z) :
  0 < d → a ≤ b → (py_truediv a d ≤ py_truediv b d)%Qc.
Proof.
  intros Hd Hab. unfold py_truediv, Qcdiv.
  apply Qcmult_le_mono_nonneg_r.
  - apply Qclt_le_weak, Qcinv_pos. rewrite <- Z2Qc_inj_0. by apply (Z2Qc_inj_lt 0 d).
  - by apply (Z2Qc_inj_le a b).
Qed.

Lemma py_truediv_0 (d : Z) : py_truediv 0 d = 0%Qc.
Proof. unfold py_truediv, Qcdiv. rewrite Z2Qc_inj_0. apply Qcmult_0_l. Qed.

(** X2. On well-formed input the decoded values stay in range: a percentage
    from two hex digits is absent or a multiple of 1/200 between 0 and 1; a
    temperature from four hex digits is absent, the boolean false, or a
    multiple of 1/100 between -327.68 and 327.67, negative exactly when the
    top bit of the 16-bit pattern is set. *)
Theorem decoded_ranges (v : string) (r : pyval) :
  (is_hex 2 v = true → _percent v = Ok r →
   r = VNone
   ∨ ∃ k, 0 ≤ k ≤ 200 ∧ r = VFloat (py_truediv k 200)
          ∧ (0 ≤ py_truediv k 200 ≤ 1)%Qc)
  ∧ (is_hex 4 v = true → _temp v = Ok r →
     r = VNone ∨ r = VBool false
     ∨ ∃ t, -32768 ≤ t ≤ 32767 ∧ r = VFloat (py_truediv t 100)
            ∧ (t < 0 ↔ 32768 ≤ hex_value v)
            ∧ (py_truediv (-32768) 100 ≤ py_truediv t 100 ≤ py_truediv 32767 100)%Qc).
Proof.
  split.
  - intros Hv. unfold _percent.
    rewrite (py_len_is_hex 2 v Hv). change (Z.of_nat 2 =? 2) with true. res_step.
    destruct (str_in v _); [intros [= <-]; by left|].
    rewrite (is_hex_int16 1 v Hv). res_step.
    pose proof (hex_value_bound v) as [Hlo _].
    destruct (hex_value v <=? 200) eqn:Hle; res_step; [|done].
    apply Z.leb_le in Hle. intros [= <-]. right. exists (hex_value v).
    split; [lia|]. split; [done|]. split.
    + rewrite <- (py_truediv_0 200). by apply py_truediv_mono.
    + rewrite <- (py_truediv_self 200) by done. by apply py_truediv_mono.
  - intros Hv. unfold _temp.
    rewrite (py_len_is_hex 4 v Hv). change (Z.of_nat 4 =? 4) with true. res_step.
    destruct (String.eqb v "31FF"); [intros [= <-]; by left|].
    destruct (String.eqb v "7EFF"); [intros [= <-]; right; by left|].
    destruct (String.eqb v "7FFF"); [intros [= <-]; by left|].
    rewrite (is_hex_int16 3 v Hv). res_step.
    pose proof (hex_value_bound v) as Hb.
    pose proof Hv as [Hl _]%is_hex_spec. rewrite Hl in Hb.
    change (16 ^ Z.of_nat 4) with 65536 in Hb.
    intros [= <-]. right. right.
    exists (if hex_value v <? 2 ^ 15 then hex_value v else hex_value v - 2 ^ 16).
    destruct (hex_value v <? 2 ^ 15) eqn:E;
      [apply Z.ltb_lt in E|apply Z.ltb_ge in E];
      change (2 ^ 15) with 32768 in *; change (2 ^ 16) with 65536 in *.
    + split; [lia|]. split; [done|]. split; [lia|].
      split; apply py_truediv_mono; lia.
    + split; [lia|]. split; [done|]. split; [lia|].
      split; apply py_truediv_mono; lia.
Qed.

Lemma decoded_ranges_witness :
  (VFloat (py_truediv 100 200) = VNone
   ∨ ∃ k, 0 ≤ k ≤ 200 ∧ VFloat (py_truediv 100 200) = VFloat (py_truediv k 200)
          ∧ (0 ≤ py_truediv k 200 ≤ 1)%Qc)
  ∧ is_hex 4 "F830" = true
  ∧ _temp "F830" = Ok (VFloat (py_truediv (-2000) 100)).
Proof.
  split; [|split; reflexivity].
  apply (decoded_ranges "64" (VFloat (py_truediv 100 200))); reflexivity.
Defined.

Lemma all_hex_take (n : nat) (s : string) :
  all_hex s = true → all_hex (str_take n s) = true.
Proof.
  revert s. induction n as [|n IH]; intros [|c s]; simpl; try done.
  intros [-> Hs]%andb_prop. simpl. by apply IH.
Qed.

Lemma all_hex_drop (n : nat) (s : string) :
  all_hex s = true → all_hex (str_drop n s) = true.
Proof.
  revert s. induction n as [|n IH]; intros [|c s]; simpl; try done.
  intros [_ Hs]%andb_prop. by apply IH.
Qed.

Lemma length_str_take (n : nat) (s : string) :
  String.length (str_take n s) = (n `min` String.length s)%nat.
Proof.
  revert s. induction n as [|n IH]; intros [|c s]; simpl; try done.
  by rewrite IH.
Qed.

Lemma length_str_drop (n : nat) (s : string) :
  String.length (str_drop n s) = (String.length s - n)%nat.
Proof.
  revert s. induction n as [|n IH]; intros [|c s]; simpl; try done.
Qed.

(** A slice inside a string of hex digits is a string of hex digits. *)
Lemma is_hex_slice (i j n : nat) (s : string) :
  is_hex n s = true → (i ≤ j ≤ n)%nat → is_hex (j - i) (slice i j s) = true.
Proof.
  intros [Hl Hh]%is_hex_spec Hij. apply is_hex_spec. unfold slice. split.
  - rewrite length_str_take, length_str_drop. lia.
  - by apply all_hex_take, all_hex_drop.
Qed.

Lemma py_int16_slice (i j n : nat) (s : string) :
  is_hex n s = true → (i < j ≤ n)%nat →
  py_int16 (slice i j s) = Ok (hex_value (slice i j s)).
Proof.
  intros Hs Hij. apply (is_hex_int16 (j - i - 1)).
  replace (S (j - i - 1)) with (j - i)%nat by lia.
  apply (is_hex_slice i j n); [done|lia].
Qed.

(** X3. The date decoder reads the day from the low five bits of the first
    byte: two 8-digit inputs that agree on the month and year bytes and on
    those five bits decode alike, whatever their top three bits (the day of
    the week on the wire). *)
Theorem date_ignores_high_day_bits (v w : string) :
  is_hex 8 v = true → is_hex 8 w = true →
  v ≠ "FFFFFFFF" → w ≠ "FFFFFFFF" →
  slice 2 8 v = slice 2 8 w →
  Z.land (hex_value (slice 0 2 v)) 31 = Z.land (hex_value (slice 0 2 w)) 31 →
  _date v = _date w.
Proof.
  intros Hv Hw Nv Nw Hrest Hday.
  assert (Hs : ∀ i j, slice i j (slice 2 8 v) = slice i j (slice 2 8 w))
    by (intros; by rewrite Hrest).
  assert (H24 : slice 2 4 v = slice 2 4 w).
  { pose proof (Hs 0 2)%nat as E.
    apply is_hex_spec in Hv as [Lv _], Hw as [Lw _].
    destruct v as [|? [|? [|? [|? [|? [|? [|? [|? [|]]]]]]]]]; try done.
    destruct w as [|? [|? [|? [|? [|? [|? [|? [|? [|]]]]]]]]]; try done. }
  assert (H48 : slice 4 8 v = slice 4 8 w).
  { pose proof (Hs 2 6)%nat as E.
    apply is_hex_spec in Hv as [Lv _], Hw as [Lw _].
    destruct v as [|? [|? [|? [|? [|? [|? [|? [|? [|]]]]]]]]]; try done.
    destruct w as [|? [|? [|? [|? [|? [|? [|? [|? [|]]]]]]]]]; try done. }
  unfold _date.
  rewrite (py_len_is_hex 8 v Hv), (py_len_is_hex 8 w Hw).
  apply String.eqb_neq in Nv, Nw. rewrite Nv, Nw.
  rewrite !(py_int16_slice _ _ 8 v Hv), !(py_int16_slice _ _ 8 w Hw) by lia.
  res_step. by rewrite H24, H48, Hday.
Qed.

Lemma date_ignores_high_day_bits_witness :
  _date "1F0C07E4" = _date "FF0C07E4" ∧ _date "FF0C07E4" = Ok (VStr "2020-12-31").
Proof.
  split; [|reflexivity].
  apply (date_ignores_high_day_bits "1F0C07E4" "FF0C07E4");
    [reflexivity|reflexivity|discriminate|discriminate|reflexivity|reflexivity].
Defined.

Lemma str_forall_lstrip (p : ascii → bool) (s : string) :
  str_forall p s = true → str_forall p (lstrip s) = true.
Proof.
  induction s as [|c s IH]; [done|]. cbn [lstrip]. intros Hs.
  destruct (is_str_space c); [|done].
  apply IH. simpl in Hs. by apply andb_prop in Hs as [_ ?].
Qed.

Lemma str_forall_rstrip (p : ascii → bool) (s : string) :
  str_forall p s = true → str_forall p (rstrip s) = true.
Proof.
  induction s as [|c s IH]; [done|]. cbn [rstrip str_forall].
  intros [Hc Hs]%andb_prop.
  destruct (is_str_space c && String.eqb (rstrip s) ""); [done|].
  simpl. by rewrite Hc, IH.
Qed.

Lemma rstrip_idem (s : string) : rstrip (rstrip s) = rstrip s.
Proof.
  induction s as [|c s IH]; [done|]. cbn [rstrip].
  destruct (is_str_space c && String.eqb (rstrip s) "") eqn:E; [done|].
  cbn [rstrip]. by rewrite IH, E.
Qed.

Lemma lstrip_rstrip_lstrip (s : string) :
  lstrip (rstrip (lstrip s)) = rstrip (lstrip s).
Proof.
  induction s as [|c s IH]; [done|]. cbn [lstrip].
  destruct (is_str_space c) eqn:E; [done|].
  cbn [rstrip]. rewrite E. cbn [andb lstrip]. by rewrite E.
Qed.

(** [strip] is idempotent: its result has no blank at either end. *)
Lemma py_strip_idem (s : string) : py_strip (py_strip s) = py_strip s.
Proof. unfold py_strip. by rewrite lstrip_rstrip_lstrip, rstrip_idem. Qed.

Lemma printable_bytes (bs : list Z) :
  Forall (λ x, 31 < x ∧ x < 127) bs →
  str_forall is_printable (string_of_bytes bs) = true.
Proof.
  induction 1 as [|b bs [Hlo Hhi] _ IH]; [done|].
  cbn [string_of_bytes str_forall]. rewrite IH, andb_true_r.
  unfold is_printable, ascii_code, ascii_of_byte.
  rewrite nat_ascii_embedding by lia. rewrite Z2Nat.id by lia.
  apply andb_true_intro. split; apply Z.leb_le; lia.
Qed.

(** X4. [_str] on a hex string returns absent exactly when no byte is a
    printable ASCII character; otherwise it returns a string made of
    printable ASCII characters only, without blanks at either end - which
    is the empty string, not absent, when all the printable bytes are
    blanks.  It raises only when the input is not a hex string. *)
Theorem str_decoder_printable (v : string) :
  (∀ r, _str v = Ok r →
     ∃ bs, fromhex_opt v = Some bs
       ∧ (r = VNone ↔ Forall (λ x, ¬ (31 < x ∧ x < 127)) bs)
       ∧ (∀ s, r = VStr s →
            str_forall is_printable s = true ∧ py_strip s = s))
  ∧ (∀ e, _str v = Raise e → e = ValueError ∧ fromhex_opt v = None)
  ∧ _str "2020" = Ok (VStr "").
Proof.
  split; [|split; [|reflexivity]].
  - intros r. unfold _str, bytes_fromhex.
    destruct (fromhex_opt v) as [bs|]; [|done]. res_step.
    intros [= <-]. exists bs. split; [done|].
    assert (Hf : Forall (λ x, 31 < x ∧ x < 127) (filter (λ x, 31 < x ∧ x < 127) bs)).
    { apply Forall_forall. intros x Hx. by apply list_elem_of_filter in Hx as [? _]. }
    destruct (filter _ bs) as [|b l] eqn:Ef.
    + split; [|done]. split; [|done]. intros _.
      apply Forall_forall. intros x Hx Hp.
      assert (x ∈ filter (λ x, 31 < x ∧ x < 127) bs) as Hin
        by (apply list_elem_of_filter; done).
      rewrite Ef in Hin. by apply elem_of_nil in Hin.
    + split.
      * split; [done|]. intros Hall. exfalso.
        assert (b ∈ filter (λ x, 31 < x ∧ x < 127) bs) as Hin
          by (rewrite Ef; left).
        apply list_elem_of_filter in Hin as [Hp Hin].
        rewrite Forall_forall in Hall. by apply (Hall b Hin).
      * intros s [= <-]. split; [|apply py_strip_idem].
        unfold py_strip. apply str_forall_rstrip, str_forall_lstrip.
        by apply (printable_bytes (b :: l)).
  - intros e. unfold _str, bytes_fromhex.
    destruct (fromhex_opt v) as [bs|]; [done|]. by intros [= <-].
Qed.

(** ** Arrays: a payload cut into elements *)

Lemma str_take_drop (k : nat) (s : string) : str_take k s ++ str_drop k s = s.
Proof.
  revert s. induction k as [|k IH]; intros [|c s]; simpl; try done.
  change (String c (str_take k s ++ str_drop k s) = String c s). by rewrite IH.
Qed.

Lemma chunks_from_concat (fuel k : nat) (s : string) :
  (0 < k)%nat → (String.length s ≤ fuel)%nat →
  foldr String.append "" (chunks_from fuel k s) = s.
Proof.
  intros Hk. revert s. induction fuel as [|fuel IH]; intros s Hs.
  - destruct s; [done|simpl in Hs; lia].
  - destruct s as [|c s]; [done|]. cbn [chunks_from foldr].
    rewrite IH; [apply str_take_drop|].
    rewrite length_str_drop. simpl in Hs |- *. lia.
Qed.

Lemma chunks_from_length (fuel k : nat) (s : string) :
  (0 < k)%nat → (String.length s ≤ fuel)%nat →
  length (chunks_from fuel k s) = ((String.length s + (k - 1)) / k)%nat.
Proof.
  intros Hk. revert s. induction fuel as [|fuel IH]; intros s Hs.
  - destruct s; [|simpl in Hs; lia]. simpl. symmetry. apply Nat.div_small. lia.
  - destruct s as [|c s].
    + simpl. symmetry. apply Nat.div_small. lia.
    + cbn [chunks_from length]. rewrite IH by (rewrite length_str_drop; simpl in *; lia).
      rewrite length_str_drop. set (n := String.length (String c s)).
      assert (0 < n)%nat by (unfold n; simpl; lia).
      replace (n + (k - 1))%nat with ((n - 1) + 1 * k)%nat by lia.
      rewrite Nat.div_add by lia.
      destruct (decide (k ≤ n)%nat) as [Hle|Hgt].
      * replace (n - k + (k - 1))%nat with (n - 1)%nat by lia. lia.
      * replace (n - k + (k - 1))%nat with (k - 1)%nat by lia.
        rewrite !Nat.div_small by lia. lia.
Qed.

Lemma chunks_from_bounds (fuel k : nat) (s : string) :
  (0 < k)%nat →
  Forall (λ c, 0 < String.length c ≤ k)%nat (chunks_from fuel k s).
Proof.
  intros Hk. revert s. induction fuel as [|fuel IH]; intros s; [constructor|].
  destruct s as [|c s]; [constructor|]. cbn [chunks_from].
  constructor; [|apply IH].
  rewrite length_str_take. simpl. lia.
Qed.

(** X5. The comprehension [[s[i:i+k] for i in range(0, len(s), k)]] that the
    array parsers run on a payload cuts it into consecutive elements: put
    together again they are the payload, none is empty or longer than [k],
    and there are [ceil(len(s) / k)] of them - so a payload whose length is
    not a multiple of [k] yields a short last element rather than a fault. *)
Theorem chunks_partition (k : nat) (s : string) :
  (0 < k)%nat →
  foldr String.append "" (chunks k s) = s
  ∧ Forall (λ c, 0 < String.length c ≤ k)%nat (chunks k s)
  ∧ length (chunks k s) = ((String.length s + (k - 1)) / k)%nat.
Proof.
  intros Hk. unfold chunks. split; [|split].
  - by apply chunks_from_concat.
  - by apply chunks_from_bounds.
  - by apply chunks_from_length.
Qed.

Lemma chunks_partition_witness :
  foldr String.append "" (chunks 6 "0007D00108FC02") = "0007D00108FC02"
  ∧ Forall (λ c, 0 < String.length c ≤ 6)%nat (chunks 6 "0007D00108FC02")
  ∧ length (chunks 6 "0007D00108FC02") = 3%nat.
Proof. apply (chunks_partition 6 "0007D00108FC02"). lia. Defined.

Lemma map_res_Forall2 {A B} (f : A → res B) (l : list A) (l' : list B) :
  map_res f l = Ok l' → Forall2 (λ x y, f x = Ok y) l l'.
Proof.
  revert l'. induction l as [|x l IH]; intros l'; simpl.
  - intros [= <-]. constructor.
  - destruct (f x) as [y|] eqn:Ex; [|done]. rewrite bind_Ok.
    destruct (map_res f l) as [ys|]; [|done]. rewrite bind_Ok.
    intros [= <-]. constructor; [done|by apply IH].
Qed.

Lemma fmap_PList_inv (m : res (list record)) (p : parsed) :
  PList <$> m = Ok p → ∃ l, p = PList l ∧ m = Ok l.
Proof. destruct m as [l|]; [|done]. intros [= <-]. eauto. Qed.

(** X6. An array parser returns one record per element, in the order of the
    payload, and record [i] is what the element parser returns on element
    [i] alone: elements are decoded independently, and the array is a list,
    never a record.  [parser_0009] treats every payload as an array;
    [parser_000a] and [parser_2309] answer a short request before they
    look at the array flag. *)
Theorem array_parsers_elementwise (payload : string) (msg : Msg) (p : parsed) :
  (parser_0009 payload msg = Ok p →
   ∃ l, p = PList l
     ∧ Forall2 (λ c r, parser_0009_parser msg c = Ok r) (chunks 6 payload) l)
  ∧ (msg_has_array msg = true →
     (parser_22c9 payload msg = Ok p →
      ∃ l, p = PList l
        ∧ Forall2 (λ c r, parser_22c9_parser c = Ok r) (chunks 12 payload) l)
     ∧ (parser_30c9 payload msg = Ok p →
        ∃ l, p = PList l
          ∧ Forall2 (λ c r, parser_30c9_parser c = Ok r) (chunks 6 payload) l)
     ∧ (parser_3150 payload msg = Ok p →
        ∃ l, p = PList l
          ∧ Forall2 (λ c r, parser_3150_parser msg c = Ok r) (chunks 4 payload) l)
     ∧ (String.eqb (msg_verb msg) RQ && (msg_len msg <=? 2) = false →
        (parser_000a payload msg = Ok p →
         ∃ l, p = PList l
           ∧ Forall2 (λ c r, parser_000a_parser c = Ok r) (chunks 12 payload) l)
        ∧ (parser_2309 payload msg = Ok p →
           ∃ l, p = PList l
             ∧ Forall2 (λ c r, parser_2309_parser c = Ok r) (chunks 6 payload) l))).
Proof.
  split; [|intros Ha; split; [|split; [|split; [|intros Hrq; split]]]].
  - unfold parser_0009. intros (l & -> & Hl)%fmap_PList_inv.
    exists l. split; [done|]. by apply map_res_Forall2.
  - unfold parser_22c9. rewrite Ha. intros (l & -> & Hl)%fmap_PList_inv.
    exists l. split; [done|]. by apply map_res_Forall2.
  - unfold parser_30c9. rewrite Ha. intros (l & -> & Hl)%fmap_PList_inv.
    exists l. split; [done|]. by apply map_res_Forall2.
  - unfold parser_3150. rewrite Ha. intros (l & -> & Hl)%fmap_PList_inv.
    exists l. split; [done|]. by apply map_res_Forall2.
  - unfold parser_000a. rewrite Hrq, Ha. intros (l & -> & Hl)%fmap_PList_inv.
    exists l. split; [done|]. by apply map_res_Forall2.
  - unfold parser_2309. rewrite Hrq, Ha. intros (l & -> & Hl)%fmap_PList_inv.
    exists l. split; [done|]. by apply map_res_Forall2.
Qed.

(** ** The validation wrapper *)

Section WrapperProps.
Context (T : Tables).

Lemma call_unless_empty_inv (func : string → Msg → res parsed)
    (payload : string) (msg : Msg) (p : parsed) :
  call_unless_empty func payload msg = Ok p →
  (msg_has_payload msg = false ∧ p = PDict ∅)
  ∨ (msg_has_payload msg = true ∧ func payload msg = Ok p).
Proof.
  unfold call_unless_empty. destruct (msg_has_payload msg); simpl.
  - by right.
  - intros [= <-]. by left.
Qed.

(** What the wrapper passes to the merge: the parser's result, the empty
    record of a frame without payload, or the index of a request. *)
Lemma parser_decorator_inv (func : string → Msg → res parsed)
    (payload : string) (msg : Msg) (p : parsed) :
  parser_decorator T func payload msg = Ok p →
  ∃ q, (q = PDict ∅ ∨ func payload msg = Ok q
        ∨ ∃ d, q = PDict d ∧ _handle_rq T msg payload = Ok d)
    ∧ p = match q with
          | PList l => PList l
          | PDict d => PDict (dict_merge (msg_idx msg) d)
          end.
Proof.
  unfold parser_decorator. intros Hp.
  destruct (RAMSES_CODES T (msg_code msg)) as [entry|]; [|done].
  destruct (check_verb_code_src T msg); [|done]. rewrite bind_Ok in Hp.
  destruct (check_verb_code_dst T msg); [|done]. rewrite bind_Ok in Hp.
  destruct (check_verb_code_payload T msg payload); [|done]. rewrite bind_Ok in Hp.
  match type of Hp with (?m ≫= _) = _ => destruct m as [q|] eqn:Eq; [|done] end.
  rewrite bind_Ok in Hp. injection Hp as <-. exists q. split; [|done].
  assert (Hcall : call_unless_empty func payload msg = Ok q →
                  q = PDict ∅ ∨ func payload msg = Ok q
                  ∨ ∃ d, q = PDict d ∧ _handle_rq T msg payload = Ok d).
  { intros [[_ ->]|[_ Hf]]%call_unless_empty_inv; auto. }
  destruct (rq_may_have_payload entry); [by apply Hcall|].
  destruct (String.eqb (msg_verb msg) RQ).
  - destruct (_handle_rq T msg payload) as [d|]; [|done].
    injection Eq as <-. right. right. by exists d.
  - destruct (_ || _); [by apply Hcall|].
    destruct (str_in _ _); by apply Hcall.
Qed.

(** X7. The wrapper never loses or invents data.  A list comes from the
    parser unchanged.  A record holds every key of the parser's record with
    the parser's value, and every other key of [msg._idx] with the value of
    [msg._idx]: on a key that both give, the parser wins. *)
Theorem wrapper_merges_index (func : string → Msg → res parsed)
    (payload : string) (msg : Msg) (p : parsed) :
  parser_decorator T func payload msg = Ok p →
  (∀ l, p = PList l → func payload msg = Ok (PList l))
  ∧ (∀ r, p = PDict r →
       ∃ d, (d = ∅ ∨ func payload msg = Ok (PDict d)
             ∨ _handle_rq T msg payload = Ok d)
         ∧ (∀ k v, d !! k = Some v → r !! k = Some v)
         ∧ (∀ k, d !! k = None → r !! k = msg_idx msg !! k)).
Proof.
  intros (q & Hq & ->)%parser_decorator_inv. split.
  - intros l Hl. destruct q as [d|l']; [done|]. injection Hl as ->.
    destruct Hq as [Hq|[Hq|(d & Hq & _)]]; done.
  - intros r Hr. destruct q as [d|l']; [|done]. injection Hr as <-.
    exists d. split; [|split].
    + destruct Hq as [[= ->]|[Hq|(d' & [= ->] & Hq)]]; auto.
    + intros k v Hk. unfold dict_merge. by apply lookup_union_Some_l.
    + intros k Hk. unfold dict_merge. by apply lookup_union_r.
Qed.

(** X8. The parser body is not run on a frame without payload, nor on a
    request ([RQ]) for a code that is not flagged [RQ_MAY_HAVE_PAYLOAD]:
    whatever the parser is, the wrapped call behaves the same, and a result
    is the record [msg._idx] itself. *)
Theorem request_never_reaches_parser (func func' : string → Msg → res parsed)
    (payload : string) (msg : Msg) (entry : CodeEntry) :
  RAMSES_CODES T (msg_code msg) = Some entry →
  msg_has_payload msg = false
  ∨ (msg_verb msg = RQ ∧ rq_may_have_payload entry = false) →
  parser_decorator T func payload msg = parser_decorator T func' payload msg
  ∧ (∀ p, parser_decorator T func payload msg = Ok p → p = PDict (msg_idx msg)).
Proof.
  intros Hc Hcase. unfold parser_decorator. rewrite Hc.
  destruct (check_verb_code_src T msg); [|done]. rewrite !bind_Ok.
  destruct (check_verb_code_dst T msg); [|done]. rewrite !bind_Ok.
  destruct (check_verb_code_payload T msg payload); [|done]. rewrite !bind_Ok.
  assert (Hrq : ∀ p,
    (PDict <$> _handle_rq T msg payload) ≫=
      (λ result, mret (match result with
                       | PList l => PList l
                       | PDict d => PDict (dict_merge (msg_idx msg) d)
                       end)) = Ok p → p = PDict (msg_idx msg)).
  { intros p. destruct (_handle_rq T msg payload) as [d|] eqn:Ed; [|done].
    cbn. intros [= <-]. f_equal.
    assert (d = msg_idx msg) as ->; [|apply dict_merge_same].
    unfold _handle_rq in Ed. destruct (code_regex T _ _); [|by destruct (isinstance _ _)].
    destruct (py_assert _); [|done]. rewrite bind_Ok in Ed.
    destruct (_ && _); [done|]. by eapply _idx_result. }
  destruct Hcase as [Hp|[Hv Hm]].
  - unfold call_unless_empty. rewrite Hp. cbn [negb].
    destruct (rq_may_have_payload entry).
    { split; [done|]. cbn. intros p [= <-]. by rewrite dict_merge_empty. }
    destruct (String.eqb (msg_verb msg) RQ); [split; [done|apply Hrq]|].
    destruct (_ || _).
    { split; [done|]. cbn. intros p [= <-]. by rewrite dict_merge_empty. }
    destruct (str_in _ _);
      (split; [done|]; cbn; intros p [= <-]; by rewrite dict_merge_empty).
  - rewrite Hm, Hv. change (String.eqb RQ RQ) with true. cbv iota.
    split; [done|apply Hrq].
Qed.

(** X9. The destination check lets pass, without looking at any table,
    every frame from or to the gateway (type 18) and every frame to the
    null (--) or broadcast (63) address; an information frame is rejected
    only when the type of its destination is unknown.  When the check
    rejects a frame it raises [CorruptPacketError], except that a verb
    outside I/RQ/RP/W makes it raise [KeyError]. *)
Theorem destination_check_bypass (msg : Msg) :
  (str_in "18" [msg_src_type msg; msg_dst_type msg] = true
   ∨ str_in (msg_dst_type msg) ["--"; "63"] = true →
   check_verb_code_dst T msg = Ok tt)
  ∧ (msg_verb msg = I_ → is_Some (RAMSES_DEVICES T (msg_dst_type msg)) →
     check_verb_code_dst T msg = Ok tt)
  ∧ (∀ e, check_verb_code_dst T msg = Raise e →
       e = CorruptPacketError
       ∨ (e = KeyError ∧ str_in (msg_verb msg) [I_; RQ; RP; W_] = false)).
Proof.
  unfold check_verb_code_dst. split; [|split].
  - intros [-> | ->]; [done|by rewrite orb_true_r].
  - intros Hv [codes Hd]. rewrite Hd, Hv. change (String.eqb I_ I_) with true.
    by destruct (_ || _).
  - intros e. destruct (_ || _); [done|].
    destruct (RAMSES_DEVICES T (msg_dst_type msg)) as [codes|]; [|intros [= <-]; by left].
    destruct (String.eqb (msg_verb msg) I_) eqn:EI; [done|].
    destruct (str_in _ _); [done|].
    destruct (codes (msg_code msg)) as [verbs|]; [|intros [= <-]; by left].
    destruct (str_in _ _); [done|]. destruct (str_in _ _); [done|].
    unfold reply_verb.
    destruct (String.eqb (msg_verb msg) RQ) eqn:E1.
    { rewrite bind_Ok. destruct (negb _); [intros [= <-]; by left|done]. }
    destruct (String.eqb (msg_verb msg) RP) eqn:E2.
    { rewrite bind_Ok. destruct (negb _); [intros [= <-]; by left|done]. }
    destruct (String.eqb (msg_verb msg) W_) eqn:E3.
    { rewrite bind_Ok. destruct (negb _); [intros [= <-]; by left|done]. }
    intros [= <-]. right. split; [done|].
    unfold str_in. cbn [existsb]. by rewrite EI, E1, E2, E3.
Qed.

End WrapperProps.

(** ** Hexadecimal fields: formatting and reading back *)

Lemma hex_digit_hex_char (d : Z) : 0 ≤ d < 16 → hex_digit (hex_char d) = Some d.
Proof.
  intros Hd.
  assert (d = 0 ∨ d = 1 ∨ d = 2 ∨ d = 3 ∨ d = 4 ∨ d = 5 ∨ d = 6 ∨ d = 7 ∨ d = 8
          ∨ d = 9 ∨ d = 10 ∨ d = 11 ∨ d = 12 ∨ d = 13 ∨ d = 14 ∨ d = 15) as Hc by lia.
  repeat destruct Hc as [-> | Hc]; try reflexivity. by subst.
Qed.

Lemma all_hex_app (s t : string) :
  all_hex (s ++ t) = all_hex s && all_hex t.
Proof.
  induction s as [|c s IH]; [done|].
  change (String c s ++ t) with (String c (s ++ t)).
  cbn [all_hex]. by rewrite IH, andb_assoc.
Qed.

Lemma hex_value_from_app (a : Z) (s t : string) :
  hex_value_from a (s ++ t) = hex_value_from (hex_value_from a s) t.
Proof.
  revert a. induction s as [|c s IH]; intros a; [done|].
  change (String c s ++ t) with (String c (s ++ t)).
  cbn [hex_value_from]. by rewrite IH.
Qed.

Lemma length_app_string (s t : string) :
  String.length (s ++ t) = (String.length s + String.length t)%nat.
Proof.
  induction s as [|c s IH]; [done|].
  change (String c s ++ t) with (String c (s ++ t)). simpl. by rewrite IH.
Qed.

Lemma app_string_assoc (s t u : string) : (s ++ t) ++ u = s ++ (t ++ u).
Proof.
  induction s as [|c s IH]; [done|].
  change (String c (s ++ t) ++ u = String c (s ++ (t ++ u))).
  change (String c ((s ++ t) ++ u) = String c (s ++ (t ++ u))). by rewrite IH.
Qed.

(** The digits that [hex_digits] writes in front of [acc]. *)
Lemma hex_digits_spec (fuel : nat) (n : Z) (acc : string) :
  0 ≤ n < 16 ^ Z.of_nat fuel → (0 < fuel)%nat →
  ∃ d, hex_digits fuel n acc = d ++ acc
    ∧ all_hex d = true ∧ d ≠ ""
    ∧ (∀ a, hex_value_from a d = a * 16 ^ Z.of_nat (String.length d) + n)
    ∧ (∀ w : nat, (0 < w)%nat → n < 16 ^ Z.of_nat w → (String.length d ≤ w)%nat).
Proof.
  revert n acc. induction fuel as [|fuel IH]; intros n acc Hn Hf; [lia|].
  cbn [hex_digits].
  assert (Hm : 0 ≤ n mod 16 < 16) by (apply Z.mod_pos_bound; lia).
  destruct (n / 16 =? 0) eqn:Eq.
  - apply Z.eqb_eq in Eq.
    assert (n mod 16 = n) as Hsmall.
    { apply Z.mod_small. split; [lia|].
      destruct (decide (n < 16)) as [|Hge]; [done|].
      assert (1 ≤ n / 16); [|lia]. apply Z.div_le_lower_bound; lia. }
    exists (String (hex_char (n mod 16)) "").
    split; [done|]. split.
    { simpl. unfold is_hex_digit. by rewrite hex_digit_hex_char. }
    split; [done|]. split.
    + intros a. cbn [hex_value_from String.length]. rewrite hex_digit_hex_char by done.
      simpl default. rewrite Hsmall. change (16 ^ Z.of_nat 1) with 16. lia.
    + intros w Hw _. simpl. lia.
  - apply Z.eqb_neq in Eq.
    assert (16 ≤ n).
    { destruct (decide (n < 16)) as [Hlt|]; [|lia].
      rewrite Z.div_small in Eq by lia. done. }
    assert (Hf' : (0 < fuel)%nat).
    { destruct fuel; [|lia]. change (16 ^ Z.of_nat 1) with 16 in Hn. lia. }
    destruct (IH (n / 16) (String (hex_char (n mod 16)) acc))
      as (d & Hd & Hh & Hne & Hval & Hlen); [|done|].
    { split; [apply Z.div_pos; lia|].
      apply Z.div_lt_upper_bound; [lia|].
      rewrite Nat2Z.inj_succ, Z.pow_succ_r in Hn by lia. lia. }
    exists (d ++ String (hex_char (n mod 16)) "").
    split; [|split; [|split; [|split]]].
    + rewrite Hd. by rewrite app_string_assoc.
    + rewrite all_hex_app, Hh. simpl. unfold is_hex_digit.
      by rewrite hex_digit_hex_char.
    + destruct d; done.
    + intros a. rewrite hex_value_from_app, Hval. cbn [hex_value_from].
      rewrite hex_digit_hex_char by done. simpl default.
      rewrite length_app_string. cbn [String.length].
      rewrite Nat2Z.inj_add, Z.pow_add_r by lia. change (16 ^ Z.of_nat 1) with 16.
      pose proof (Z.div_mod n 16 ltac:(lia)). lia.
    + intros w Hw Hnw. rewrite length_app_string. cbn [String.length].
      destruct w as [|w]; [lia|].
      assert (0 < w)%nat.
      { destruct w; [|lia]. change (16 ^ Z.of_nat 1) with 16 in Hnw. lia. }
      assert (String.length d ≤ w)%nat; [|lia].
      apply Hlen; [done|].
      apply Z.div_lt_upper_bound; [lia|].
      rewrite Nat2Z.inj_succ, Z.pow_succ_r in Hnw by lia. lia.
Qed.

Lemma hex_string_spec (n : Z) :
  0 ≤ n →
  all_hex (hex_string n) = true ∧ hex_string n ≠ ""
  ∧ hex_value (hex_string n) = n
  ∧ (∀ w : nat, (0 < w)%nat → n < 16 ^ Z.of_nat w → (String.length (hex_string n) ≤ w)%nat).
Proof.
  intros Hn. unfold hex_string.
  destruct (hex_digits_spec (S (Z.to_nat (Z.log2 n))) n "")
    as (d & Hd & Hh & Hne & Hval & Hlen); [|lia|].
  - split; [done|]. rewrite Nat2Z.inj_succ, Z2Nat.id by apply Z.log2_nonneg.
    destruct (decide (n = 0)) as [->|]; [done|].
    pose proof (Z.log2_spec n ltac:(lia)) as [_ Hlt].
    eapply Z.lt_le_trans; [exact Hlt|].
    pose proof (Z.log2_nonneg n).
    change 16 with (2 ^ 4). rewrite <- Z.pow_mul_r by lia.
    apply Z.pow_le_mono_r; lia.
  - assert (d ++ "" = d) as Hnil.
    { clear. induction d as [|c d IH]; [done|].
      change (String c (d ++ "") = String c d). by rewrite IH. }
    rewrite Hd, Hnil. split; [done|]. split; [done|]. split; [|done].
    unfold hex_value. rewrite Hval. lia.
Qed.

Lemma all_hex_zeros (k : nat) : all_hex (zeros k) = true.
Proof. induction k; [done|]. simpl. done. Qed.

Lemma hex_value_from_zeros (k : nat) (s : string) :
  hex_value_from 0 (zeros k ++ s) = hex_value_from 0 s.
Proof.
  induction k as [|k IH]; [done|].
  change (zeros (S k) ++ s) with (String "0" (zeros k ++ s)).
  cbn [hex_value_from]. exact IH.
Qed.

Lemma length_zeros (k : nat) : String.length (zeros k) = k.
Proof. induction k; [done|]. simpl. by f_equal. Qed.

(** [f"{n:0wX}"] on a non-negative integer is a non-empty string of hex
    digits whose value is [n]; it has exactly [w] digits when [n] fits. *)
Lemma fmt_X_spec (w : nat) (n : Z) :
  0 ≤ n →
  all_hex (fmt_X w n) = true ∧ fmt_X w n ≠ ""
  ∧ hex_value (fmt_X w n) = n
  ∧ ((0 < w)%nat → n < 16 ^ Z.of_nat w → String.length (fmt_X w n) = w).
Proof.
  intros Hn. destruct (hex_string_spec n Hn) as (Hh & Hne & Hval & Hlen).
  unfold fmt_X. assert ((n <? 0) = false) as -> by (apply Z.ltb_ge; lia).
  unfold zfill. split; [|split; [|split]].
  - by rewrite all_hex_app, all_hex_zeros, Hh.
  - destruct (zeros _); [done|done].
  - unfold hex_value. by rewrite hex_value_from_zeros.
  - intros Hw Hnw. rewrite length_app_string, length_zeros.
    specialize (Hlen w Hw Hnw). lia.
Qed.

Lemma fmt_X_is_hex (w : nat) (n : Z) :
  (0 < w)%nat → 0 ≤ n < 16 ^ Z.of_nat w →
  is_hex w (fmt_X w n) = true ∧ hex_value (fmt_X w n) = n.
Proof.
  intros Hw [Hn Hlt]. destruct (fmt_X_spec w n Hn) as (Hh & _ & Hv & Hl).
  split; [|done]. apply is_hex_spec. split; [by apply Hl|done].
Qed.

Lemma py_int16_fmt_X (w : nat) (n : Z) : 0 ≤ n → py_int16 (fmt_X w n) = Ok n.
Proof.
  intros Hn. destruct (fmt_X_spec w n Hn) as (Hh & Hne & Hv & _).
  by rewrite (py_int16_hex _ Hh Hne), Hv.
Qed.

(** ** Constructors and the parsers of their payloads *)

Lemma py_between_int (lo hi z : Z) :
  lo ≤ z ≤ hi → py_between (Qc_of_Z lo) (VInt z) (Qc_of_Z hi) = Ok true.
Proof.
  intros [Hlo Hhi]. unfold py_between. cbn [py_num]. rewrite bind_Ok. f_equal.
  apply andb_true_intro.
  split; apply bool_decide_eq_true; [by apply (Z2Qc_inj_le lo z)|by apply (Z2Qc_inj_le z hi)].
Qed.

Lemma is_hex_2_inv (s : string) :
  is_hex 2 s = true → ∃ a b, s = String a (String b "").
Proof.
  intros [Hl _]%is_hex_spec. destruct s as [|a [|b [|]]]; try done. eauto.
Qed.

(** One parameter of a mix valve payload: the tag, "01", and the value. *)
Lemma parser_1030_parser_field (v : string) :
  is_hex 2 v = true →
  parser_1030_parser ("C801" ++ v) = Ok ("max_flow_setpoint", VInt (hex_value v))
  ∧ parser_1030_parser ("C901" ++ v) = Ok ("min_flow_setpoint", VInt (hex_value v))
  ∧ parser_1030_parser ("CA01" ++ v) = Ok ("valve_run_time", VInt (hex_value v))
  ∧ parser_1030_parser ("CB01" ++ v) = Ok ("pump_run_time", VInt (hex_value v))
  ∧ parser_1030_parser ("CC01" ++ v) = Ok ("_unknown_0", VInt (hex_value v)).
Proof.
  intros Hv. pose proof (is_hex_int16 1 v Hv) as Hi.
  destruct (is_hex_2_inv v Hv) as (a & b & ->).
  unfold parser_1030_parser.
  repeat split;
    (change (slice 2 4 (_ ++ String a (String b ""))) with "01";
     change (slice_from 4 (_ ++ String a (String b ""))) with (String a (String b ""));
     rewrite Hi; reflexivity).
Qed.

Lemma mix_valve_payload_layout (z a b c d e : string) :
  is_hex 2 z = true → is_hex 2 a = true → is_hex 2 b = true →
  is_hex 2 c = true → is_hex 2 d = true → is_hex 2 e = true →
  let payload := z ++ "C801" ++ a ++ "C901" ++ b ++ "CA01" ++ c ++ "CB01" ++ d
                 ++ "CC01" ++ e in
  py_len payload = 32
  ∧ slice 0 2 payload = z
  ∧ slice_from 30 payload = e
  ∧ chunks 6 (slice_from 2 payload)
    = ["C801" ++ a; "C901" ++ b; "CA01" ++ c; "CB01" ++ d; "CC01" ++ e].
Proof.
  intros (? & ? & ->)%is_hex_2_inv (? & ? & ->)%is_hex_2_inv (? & ? & ->)%is_hex_2_inv
         (? & ? & ->)%is_hex_2_inv (? & ? & ->)%is_hex_2_inv (? & ? & ->)%is_hex_2_inv.
  repeat split.
Qed.

(** X10. What [set_mix_valve_params] writes, [parser_1030] reads back: for a
    zone index below 256 and integer parameters within the asserted ranges
    the constructor builds a 16-byte payload, and the parser returns, on top
    of the index of the message, the four parameters with the values given
    and the fifth, unnamed one as 1. *)
Theorem mix_valve_round_trip (zone_idx mx mn vt pt : Z) (kw : Kwargs) (now : Z) :
  0 ≤ zone_idx < 256 → 0 ≤ mx ≤ 99 → 0 ≤ mn ≤ 50 → 0 ≤ vt ≤ 240 → 0 ≤ pt ≤ 99 →
  let a := {| mv_max_flow_setpoint := VInt mx; mv_min_flow_setpoint := VInt mn;
              mv_valve_run_time := VInt vt; mv_pump_run_time := VInt pt;
              mv_kwargs := kw; mv_now := now |} in
  ∃ payload,
    set_mix_valve_params_payload zone_idx a = Ok payload
    ∧ py_len payload = 32
    ∧ (∀ H ctl_id cmd,
         set_mix_valve_params H ctl_id (ZoneInt zone_idx) a = Ok (Some cmd, []) →
         cmd_payload cmd = payload ∧ cmd_code cmd = "1030" ∧ cmd_verb cmd = W_)
    ∧ (∀ msg idx, msg_len msg = 16 → _idx (fmt_X 2 zone_idx) msg = Ok idx →
         parser_1030 payload msg
         = Ok (PDict (<["_unknown_0" := VInt 1]>
                      (<["pump_run_time" := VInt pt]>
                       (<["valve_run_time" := VInt vt]>
                        (<["min_flow_setpoint" := VInt mn]>
                         (<["max_flow_setpoint" := VInt mx]> idx))))))).
Proof.
  intros Hz Hmx Hmn Hvt Hpt a.
  destruct (fmt_X_is_hex 2 zone_idx) as [Zh _]; [lia|done|].
  destruct (fmt_X_is_hex 2 mx) as [Ah Av]; [lia|change (16 ^ Z.of_nat 2) with 256; lia|].
  destruct (fmt_X_is_hex 2 mn) as [Bh Bv]; [lia|change (16 ^ Z.of_nat 2) with 256; lia|].
  destruct (fmt_X_is_hex 2 vt) as [Ch Cv]; [lia|change (16 ^ Z.of_nat 2) with 256; lia|].
  destruct (fmt_X_is_hex 2 pt) as [Dh Dv]; [lia|change (16 ^ Z.of_nat 2) with 256; lia|].
  destruct (mix_valve_payload_layout (fmt_X 2 zone_idx) (fmt_X 2 mx) (fmt_X 2 mn)
              (fmt_X 2 vt) (fmt_X 2 pt) "01") as (Hlen & H02 & H30 & Hchunks); try done.
  set (payload := fmt_X 2 zone_idx ++ "C801" ++ fmt_X 2 mx ++ "C901" ++ fmt_X 2 mn
                  ++ "CA01" ++ fmt_X 2 vt ++ "CB01" ++ fmt_X 2 pt ++ "CC01" ++ "01") in *.
  assert (Hp : set_mix_valve_params_payload zone_idx a = Ok payload).
  { unfold set_mix_valve_params_payload, a. cbn [mv_max_flow_setpoint
      mv_min_flow_setpoint mv_valve_run_time mv_pump_run_time].
    rewrite <- Z2Qc_inj_0.
    rewrite !py_between_int by lia. res_step. cbn [py_fmt_X]. by res_step. }
  exists payload. split; [done|]. split; [done|]. split.
  - intros H ctl_id cmd. unfold set_mix_valve_params. rewrite zone_decorator_int.
    unfold set_mix_valve_params_body. rewrite Hp, bind_Ok.
    destruct (Command_init H W_ "1030" payload ctl_id (mv_kwargs a) (mv_now a))
      as [cmd'|e] eqn:Ec.
    + intros [= <-].
      apply Command_init_inv in Ec as (_ & _ & _ & _ & _ & Hv & _ & _ & Hc & _ & Hpl & _).
      by rewrite Hv, Hc, Hpl.
    + unfold validate_wrapper. by destruct (caught_by e _).
  - intros msg idx Hl Hidx. unfold parser_1030.
    rewrite Hl. change (16 =? 1 + 5 * 3) with true. res_step.
    rewrite H30. change (str_in "01" ["00"; "01"]) with true. res_step.
    rewrite Hchunks, H02. cbn [map_res].
    destruct (parser_1030_parser_field (fmt_X 2 mx) Ah) as (-> & _).
    destruct (parser_1030_parser_field (fmt_X 2 mn) Bh) as (_ & -> & _).
    destruct (parser_1030_parser_field (fmt_X 2 vt) Ch) as (_ & _ & -> & _).
    destruct (parser_1030_parser_field (fmt_X 2 pt) Dh) as (_ & _ & _ & -> & _).
    destruct (parser_1030_parser_field "01" eq_refl) as (_ & _ & _ & _ & ->).
    rewrite Av, Bv, Cv, Dv, Hidx. reflexivity.
Qed.

Lemma mix_valve_round_trip_witness :
  ∃ payload,
    set_mix_valve_params_payload 1 mix_valve_defaults = Ok payload
    ∧ py_len payload = 32
    ∧ (∀ H ctl_id cmd,
         set_mix_valve_params H ctl_id (ZoneInt 1) mix_valve_defaults = Ok (Some cmd, []) →
         cmd_payload cmd = payload ∧ cmd_code cmd = "1030" ∧ cmd_verb cmd = W_)
    ∧ (∀ msg idx, msg_len msg = 16 → _idx (fmt_X 2 1) msg = Ok idx →
         parser_1030 payload msg
         = Ok (PDict (<["_unknown_0" := VInt 1]>
                      (<["pump_run_time" := VInt 15]>
                       (<["valve_run_time" := VInt 150]>
                        (<["min_flow_setpoint" := VInt 15]>
                         (<["max_flow_setpoint" := VInt 55]> idx))))))).
Proof. apply (mix_valve_round_trip 1 55 15 150 15 no_kwargs 0); lia. Defined.

Lemma is_hex_4_inv (s : string) :
  is_hex 4 s = true → ∃ a b c d, s = String a (String b (String c (String d ""))).
Proof.
  intros [Hl _]%is_hex_spec. destruct s as [|a [|b [|c [|d [|]]]]]; try done. eauto 6.
Qed.

(** [_temp] returns on every string of four hex digits. *)
Lemma _temp_total (v : string) : is_hex 4 v = true → ∃ r, _temp v = Ok r.
Proof.
  intros Hv. unfold _temp. rewrite (py_len_is_hex 4 v Hv).
  change (Z.of_nat 4 =? 4) with true. res_step.
  repeat (destruct (String.eqb v _); [eauto|]).
  rewrite (is_hex_int16 3 v Hv). res_step. eauto.
Qed.

Lemma zone_config_payload_layout (z bm t1 t2 : string) :
  is_hex 2 z = true → is_hex 2 bm = true → is_hex 4 t1 = true → is_hex 4 t2 = true →
  let payload := z ++ bm ++ t1 ++ t2 in
  py_len payload = 12
  ∧ slice 0 2 payload = z ∧ slice 2 4 payload = bm
  ∧ slice 4 8 payload = t1 ∧ slice_from 8 payload = t2.
Proof.
  intros (? & ? & ->)%is_hex_2_inv (? & ? & ->)%is_hex_2_inv
         (? & ? & ? & ? & ->)%is_hex_4_inv (? & ? & ? & ? & ->)%is_hex_4_inv.
  repeat split.
Qed.

Section RoundTrips.
Context (H : Helpers).

(** X11. What [set_zone_config] writes, [parser_000a] reads back.  For a
    zone index below 256, temperatures within the asserted ranges that the
    helper encodes on four hex digits, and three boolean flags, the
    constructor builds a 6-byte payload; the parser returns the zone index
    as written, the three flags as given - each is stored inverted, as a
    cleared bit of the bitmap - and the two temperatures as [_temp] decodes
    the helper's digits. *)
Theorem zone_config_round_trip (zone_idx : Z) (min_temp max_temp : pyval)
    (local_override openwindow_function multiroom_mode : bool)
    (kw : Kwargs) (now : Z) (t1 t2 : string) :
  0 ≤ zone_idx < 256 →
  py_between (Qc_of_Z 5) min_temp (Qc_of_Z 21) = Ok true →
  py_between (Qc_of_Z 21) max_temp (Qc_of_Z 35) = Ok true →
  temp_to_hex H min_temp = Ok t1 → is_hex 4 t1 = true →
  temp_to_hex H max_temp = Ok t2 → is_hex 4 t2 = true →
  let a := {| zc_min_temp := min_temp; zc_max_temp := max_temp;
              zc_local_override := VBool local_override;
              zc_openwindow_function := VBool openwindow_function;
              zc_multiroom_mode := VBool multiroom_mode;
              zc_kwargs := kw; zc_now := now |} in
  ∃ payload bitmap v1 v2,
    set_zone_config_payload H zone_idx a = Ok payload
    ∧ py_len payload = 12
    ∧ _temp t1 = Ok v1 ∧ _temp t2 = Ok v2
    ∧ parser_000a_parser payload
      = Ok (py_dict
          [("zone_idx", VStr (fmt_X 2 zone_idx));
           ("min_temp", v1);
           ("max_temp", v2);
           ("local_override", VBool local_override);
           ("openwindow_function", VBool openwindow_function);
           ("multiroom_mode", VBool multiroom_mode);
           ("_unknown_bitmap", VStr ("0b" ++ fmt_08b bitmap))]).
Proof.
  intros Hz Hmin Hmax Ht1 Hh1 Ht2 Hh2 a.
  destruct (fmt_X_is_hex 2 zone_idx) as [Zh _]; [lia|done|].
  destruct (_temp_total t1 Hh1) as [v1 Hv1], (_temp_total t2 Hh2) as [v2 Hv2].
  set (bitmap := Z.lor (Z.lor (if local_override then 0 else 1)
                              (if openwindow_function then 0 else 2))
                       (if multiroom_mode then 0 else 16)).
  assert (Hbm : is_hex 2 (fmt_X 2 bitmap) = true ∧ py_int16 (fmt_X 2 bitmap) = Ok bitmap
                ∧ negb (negb (Z.land bitmap 1 =? 0)) = local_override
                ∧ negb (negb (Z.land bitmap 2 =? 0)) = openwindow_function
                ∧ negb (negb (Z.land bitmap 16 =? 0)) = multiroom_mode).
  { unfold bitmap. by destruct local_override, openwindow_function, multiroom_mode. }
  destruct Hbm as (Bh & Bi & Blo & Bow & Bmr).
  destruct (zone_config_payload_layout (fmt_X 2 zone_idx) (fmt_X 2 bitmap) t1 t2)
    as (Hlen & H02 & H24 & H48 & H8); try done.
  exists (fmt_X 2 zone_idx ++ fmt_X 2 bitmap ++ t1 ++ t2), bitmap, v1, v2.
  split; [|split; [done|split; [done|split; [done|]]]].
  - unfold set_zone_config_payload, a.
    cbn [zc_min_temp zc_max_temp zc_local_override zc_openwindow_function
         zc_multiroom_mode is_bool py_truthy].
    rewrite Hmin, Hmax. res_step. rewrite Ht1, Ht2. by res_step.
  - unfold parser_000a_parser. rewrite H02, H24, H48, H8, Bi, Hv1, Hv2. res_step.
    by rewrite Blo, Bow, Bmr.
Qed.

End RoundTrips.

Lemma zone_config_round_trip_witness :
  ∃ payload bitmap v1 v2,
    set_zone_config_payload demo_helpers 8
      {| zc_min_temp := VInt 5; zc_max_temp := VInt 25;
         zc_local_override := VBool true; zc_openwindow_function := VBool true;
         zc_multiroom_mode := VBool false; zc_kwargs := no_kwargs; zc_now := 0 |}
    = Ok payload
    ∧ py_len payload = 12
    ∧ _temp "01F4" = Ok v1 ∧ _temp "09C4" = Ok v2
    ∧ parser_000a_parser payload
      = Ok (py_dict
          [("zone_idx", VStr (fmt_X 2 8));
           ("min_temp", v1);
           ("max_temp", v2);
           ("local_override", VBool true);
           ("openwindow_function", VBool true);
           ("multiroom_mode", VBool false);
           ("_unknown_bitmap", VStr ("0b" ++ fmt_08b bitmap))]).
Proof.
  apply (zone_config_round_trip demo_helpers 8 (VInt 5) (VInt 25) true true false
           no_kwargs 0 "01F4" "09C4");
    [lia|by apply py_between_int|by apply py_between_int
    |reflexivity|reflexivity|reflexivity|reflexivity].
Defined.

Lemma fmt_X_6_low_byte (i : Z) :
  0 ≤ i < 256 → slice 4 6 (fmt_X 6 i) = fmt_X 2 i ∧ py_len (fmt_X 6 i) = 6.
Proof.
  intros Hi. destruct (hex_string_spec i) as (_ & Hne & _ & Hlen); [lia|].
  specialize (Hlen 2%nat ltac:(lia) ltac:(change (16 ^ Z.of_nat 2) with 256; lia)).
  unfold fmt_X. assert ((i <? 0) = false) as -> by (apply Z.ltb_ge; lia).
  unfold zfill. destruct (hex_string i) as [|a [|b [|]]]; try done.
  simpl in Hlen. lia.
Qed.

Section LogEntry.
Context (H : Helpers) (T : Tables).

(** The wrapper on a request for a code that is flagged
    [RQ_MAY_HAVE_PAYLOAD], once the three checks have passed: the parser
    runs, and [msg._idx] is merged into its record. *)
Lemma parser_decorator_flagged (func : string → Msg → res parsed)
    (payload : string) (msg : Msg) (entry : CodeEntry) (d : record) :
  RAMSES_CODES T (msg_code msg) = Some entry →
  rq_may_have_payload entry = true → msg_has_payload msg = true →
  check_verb_code_src T msg = Ok tt → check_verb_code_dst T msg = Ok tt →
  check_verb_code_payload T msg payload = Ok tt →
  func payload msg = Ok (PDict d) →
  parser_decorator T func payload msg = Ok (PDict (dict_merge (msg_idx msg) d)).
Proof.
  intros Hc Hf Hp Hs Hd Hpl Hfunc. unfold parser_decorator.
  rewrite Hc, Hs, bind_Ok, Hd, bind_Ok, Hpl, bind_Ok, Hf.
  unfold call_unless_empty. rewrite Hp. cbn [negb]. by rewrite Hfunc.
Qed.

(** X12. The request for a fault log entry names the entry in its payload,
    and the wrapped [parser_0418] finds it there.  For an index below 256
    (an [int], or the hex string of one) [get_system_log_entry] builds an
    [RQ] for code 0418 whose 3-byte payload is the index in hex.  On such a
    request, code 0418 being flagged [RQ_MAY_HAVE_PAYLOAD] in the table and
    the checks of the wrapper passing, the wrapper runs the parser and
    returns [msg._idx] with the last byte of the payload under [log_idx],
    which reads back as the index. *)
Theorem log_entry_round_trip (ctl_id : string) (i : Z) (kw : Kwargs) (now : Z) :
  0 ≤ i < 256 →
  (∀ s, all_hex s = true → s ≠ "" → hex_value s = i →
     get_system_log_entry H ctl_id (AStr s, kw, now)
     = get_system_log_entry H ctl_id (AnInt i, kw, now))
  ∧ (∀ cmd, get_system_log_entry H ctl_id (AnInt i, kw, now) = Ok (Some cmd, []) →
       cmd_verb cmd = RQ ∧ cmd_code cmd = "0418" ∧ cmd_payload cmd = fmt_X 6 i
       ∧ cmd_len cmd = 3
       ∧ (∀ msg entry,
            msg_verb msg = cmd_verb cmd → msg_code msg = cmd_code cmd →
            RAMSES_CODES T "0418" = Some entry →
            rq_may_have_payload entry = true → msg_has_payload msg = true →
            check_verb_code_src T msg = Ok tt → check_verb_code_dst T msg = Ok tt →
            check_verb_code_payload T msg (cmd_payload cmd) = Ok tt →
            ∃ r, parser_decorator T (parser_0418 T) (cmd_payload cmd) msg = Ok (PDict r)
              ∧ r = dict_merge (msg_idx msg) {["log_idx" := VStr (fmt_X 2 i)]}
              ∧ r !! "log_idx" = Some (VStr (fmt_X 2 i)))
       ∧ py_int16 (fmt_X 2 i) = Ok i).
Proof.
  intros Hi. split.
  - intros s Hs Hne Hv. unfold get_system_log_entry, device_decorator,
      get_system_log_entry_body. by rewrite (py_int16_hex s Hs Hne), Hv.
  - intros cmd. unfold get_system_log_entry, device_decorator,
      get_system_log_entry_body. rewrite bind_Ok.
    destruct (Command_init H RQ "0418" (fmt_X 6 i) ctl_id kw now) as [cmd'|e] eqn:Ec.
    + intros [= <-].
      apply Command_init_inv in Ec
        as (_ & _ & _ & _ & _ & Hv & _ & _ & Hc & Hl & Hpl & _).
      destruct (fmt_X_6_low_byte i Hi) as [Hlow Hlen].
      rewrite Hv, Hc, Hpl, Hl, Hlen.
      split; [done|]. split; [done|]. split; [done|]. split; [done|]. split.
      * intros msg entry Hm Hcode Hentry Hflag Hpay Hsrc Hdst Hre.
        exists (dict_merge (msg_idx msg) {["log_idx" := VStr (fmt_X 2 i)]}).
        split; [|split; [done|]].
        -- apply (parser_decorator_flagged _ _ _ entry); try done.
           ++ by rewrite Hcode.
           ++ unfold parser_0418. change (str_take 2 (rjust2 RQ)) with RQ in Hm.
              rewrite Hm. change (String.eqb RQ RQ) with true. cbv iota.
              by rewrite Hlow.
        -- unfold dict_merge. apply lookup_union_Some_l. apply lookup_singleton_eq.
      * apply py_int16_fmt_X. lia.
    + unfold validate_wrapper. by destruct (caught_by e _).
Qed.

End LogEntry.

Lemma log_entry_round_trip_witness :
  ∃ cmd r,
    get_system_log_entry demo_helpers "01:145038" (AnInt 5, no_kwargs, 0)
    = Ok (Some cmd, [])
    ∧ cmd_payload cmd = fmt_X 6 5
    ∧ parser_decorator fault_log_tables (parser_0418 fault_log_tables) (cmd_payload cmd)
        (request_frame "0418" "000005" ∅) = Ok (PDict r)
    ∧ r !! "log_idx" = Some (VStr (fmt_X 2 5))
    ∧ get_system_log_entry demo_helpers "01:145038" (AStr "05", no_kwargs, 0)
      = get_system_log_entry demo_helpers "01:145038" (AnInt 5, no_kwargs, 0).
Proof.
  destruct (log_entry_round_trip demo_helpers fault_log_tables "01:145038" 5 no_kwargs 0)
    as [Hstr Hint]; [lia|].
  eexists.
  edestruct Hint as (_ & _ & Hp & _ & Hparse & _); [vm_compute; reflexivity|].
  edestruct (Hparse (request_frame "0418" "000005" ∅)) as (r & Hr & _ & Hlog);
    [reflexivity|reflexivity|reflexivity|reflexivity|reflexivity
    |reflexivity|reflexivity|reflexivity|].
  exists r. split; [reflexivity|]. split; [exact Hp|]. split; [exact Hr|].
  split; [exact Hlog|].
  apply Hstr; [reflexivity|discriminate|reflexivity].
Defined.

Lemma py_truediv_mul (n d : Z) : d ≠ 0 → py_truediv (n * d) d = Qc_of_Z n.
Proof.
  intros Hd. unfold py_truediv, Qcdiv.
  rewrite Z2Qc_inj_mul, <- Qcmult_assoc, Qcmult_inv_r, Qcmult_1_r; [done|].
  rewrite <- Z2Qc_inj_0. by intros E%Z2Qc_inj.
Qed.

Lemma tpi_payload_layout (dom a b c t : string) :
  is_hex 2 dom = true → is_hex 2 a = true → is_hex 2 b = true →
  is_hex 2 c = true → is_hex 4 t = true →
  let payload := dom ++ a ++ b ++ (c ++ "FF") ++ (t ++ "01") in
  py_len payload = 16
  ∧ slice 0 2 payload = dom ∧ slice 2 4 payload = a ∧ slice 4 6 payload = b
  ∧ slice 6 8 payload = c ∧ slice 8 10 payload = "FF"
  ∧ slice 10 14 payload = t ∧ slice_from 14 payload = "01".
Proof.
  intros (? & ? & ->)%is_hex_2_inv (? & ? & ->)%is_hex_2_inv (? & ? & ->)%is_hex_2_inv
         (? & ? & ->)%is_hex_2_inv (? & ? & ? & ? & ->)%is_hex_4_inv.
  repeat split.
Qed.

Lemma quarter_in_range_times4 (n lo hi : Z) :
  lo ≤ n < hi → quarter_in_range (n * 4) lo hi = true.
Proof.
  intros Hn. unfold quarter_in_range.
  rewrite Z.mod_mul, Z.div_mul by lia.
  apply andb_true_intro. split; [apply andb_true_intro; split|]; [done|lia|lia].
Qed.

Section TpiParams.
Context (H : Helpers).

(** X13. What [set_tpi_params] writes, [parser_1100] reads back: for the
    domain "00" or "FC", a cycle rate of 3, 6, 9 or 12, on and off times of
    1 to 5 minutes (integers) and a bandwidth that the helper encodes on
    four hex digits, the constructor builds an 8-byte payload, and the
    parser returns the cycle rate and the two times as given - stored as
    quarters - together with the bandwidth as [_temp] decodes it. *)
Theorem tpi_params_round_trip (dom : string) (c on off : Z) (pbw : pyval)
    (kw : Kwargs) (now : Z) (t : string) :
  dom = "00" ∨ dom = "FC" →
  c = 3 ∨ c = 6 ∨ c = 9 ∨ c = 12 →
  1 ≤ on ≤ 5 → 1 ≤ off ≤ 5 →
  none_or_between (Qc_of_Z 3 / Qc_of_Z 2)%Qc pbw (Qc_of_Z 3) = Ok true →
  temp_to_hex H pbw = Ok t → is_hex 4 t = true →
  let a := {| tp_domain_id := AStr dom; tp_cycle_rate := VInt c;
              tp_min_on_time := VInt on; tp_min_off_time := VInt off;
              tp_proportional_band_width := pbw; tp_kwargs := kw; tp_now := now |} in
  ∃ payload v,
    set_tpi_params_payload H a = Ok payload
    ∧ py_len payload = 16
    ∧ _temp t = Ok v
    ∧ (∀ msg, msg_src_type msg ≠ "08" → msg_len msg = 8 →
         parser_1100 payload msg
         = Ok (PDict (<["_unknown_1" := VStr "01"]>
                      (<["proportional_band_width" := v]>
                       (py_dict [("cycle_rate", VInt c);
                                 ("min_on_time", VFloat (Qc_of_Z on));
                                 ("min_off_time", VFloat (Qc_of_Z off));
                                 ("_unknown_0", VStr "FF")]))))).
Proof.
  intros Hdom Hc Hon Hoff Hpbw Ht Hh a.
  assert (Dh : is_hex 2 dom = true) by (by destruct Hdom as [-> | ->]).
  destruct (fmt_X_is_hex 2 (c * 4)) as [Ch Cv]; [lia|change (16 ^ Z.of_nat 2) with 256; lia|].
  destruct (fmt_X_is_hex 2 (on * 4)) as [Oh Ov]; [lia|change (16 ^ Z.of_nat 2) with 256; lia|].
  destruct (fmt_X_is_hex 2 (off * 4)) as [Fh Fv]; [lia|change (16 ^ Z.of_nat 2) with 256; lia|].
  destruct (_temp_total t Hh) as [v Hv].
  destruct (tpi_payload_layout dom (fmt_X 2 (c * 4)) (fmt_X 2 (on * 4))
              (fmt_X 2 (off * 4)) t)
    as (Hlen & H02 & H24 & H46 & H68 & H810 & H1014 & H14); try done.
  exists (dom ++ fmt_X 2 (c * 4) ++ fmt_X 2 (on * 4) ++ (fmt_X 2 (off * 4) ++ "FF")
          ++ (t ++ "01")), v.
  split; [|split; [done|split; [done|]]].
  - unfold set_tpi_params_payload, a.
    cbn [tp_domain_id tp_cycle_rate tp_min_on_time tp_min_off_time
         tp_proportional_band_width is_none orb].
    assert (py_in_cycle_rates (VInt c) = true) as ->
      by (by destruct Hc as [-> | [-> | [-> | ->]]]; vm_compute).
    res_step.
    assert (Hb : ∀ z, 1 ≤ z ≤ 5 → none_or_between 1%Qc (VInt z) (Qc_of_Z 5) = Ok true).
    { intros z Hz. unfold none_or_between. cbn [is_none].
      rewrite <- Z2Qc_inj_1. by apply py_between_int. }
    rewrite !Hb by done. res_step.
    rewrite Hpbw. res_step. cbn [py_times4 py_fmt_X py_int_of]. res_step.
    rewrite Ht. by res_step.
  - intros msg Hsrc Hl. unfold parser_1100.
    apply String.eqb_neq in Hsrc. rewrite Hsrc, Hl.
    rewrite andb_false_r. change (8 =? 5) with false. change (8 =? 8) with true.
    cbn [orb]. res_step. rewrite H02.
    assert (str_in dom ["00"; "FC"] = true) as -> by (by destruct Hdom as [-> | ->]).
    res_step. rewrite H24, H46, H68, H810, H1014, H14.
    rewrite !(is_hex_int16 1) by done. rewrite Cv, Ov, Fv. res_step.
    rewrite !quarter_in_range_times4 by lia. res_step.
    change (str_in "FF" ["00"; "FF"]) with true. res_step.
    change (8 >? 5) with true. cbv iota.
    change (String.eqb "01" "01") with true. res_step.
    rewrite Hv. res_step.
    unfold py_int_truediv. rewrite Z.quot_mul by lia.
    by rewrite !py_truediv_mul by lia.
Qed.

(** X14. [set_tpi_params] lets [None] pass its assertions on the cycle rate
    and on the two times, but cannot encode it: with any of the three left
    at [None] no command is built, whatever the other arguments are; the
    fault is logged and [None] is returned. *)
Theorem tpi_params_none_is_rejected (ctl_id : string) (a : tpi_params) :
  tp_cycle_rate a = VNone ∨ tp_min_on_time a = VNone ∨ tp_min_off_time a = VNone →
  set_tpi_params H ctl_id a = Ok (None, [Log_exception]).
Proof.
  intros Hnone.
  assert (Hp : ∃ e, set_tpi_params_payload H a = Raise e
                    ∧ (e = AssertionError ∨ e = TypeError ∨ e = ValueError)).
  { unfold set_tpi_params_payload.
    assert (Hb : ∀ lo v hi, none_or_between lo v hi = Raise TypeError
                            ∨ ∃ b, none_or_between lo v hi = Ok b).
    { intros lo v hi. unfold none_or_between, py_between.
      destruct v; simpl; eauto. }
    destruct (is_none (tp_cycle_rate a) || py_in_cycle_rates (tp_cycle_rate a));
      res_step; [|eauto].
    destruct (Hb 1%Qc (tp_min_on_time a) (Qc_of_Z 5)) as [->|[[] ->]];
      res_step; [eauto| |eauto].
    destruct (Hb 1%Qc (tp_min_off_time a) (Qc_of_Z 5)) as [->|[[] ->]];
      res_step; [eauto| |eauto].
    destruct (Hb (Qc_of_Z 3 / Qc_of_Z 2)%Qc (tp_proportional_band_width a) (Qc_of_Z 3))
      as [->|[[] ->]]; res_step; [eauto| |eauto].
    assert (Hf : ∀ v, py_times4 v = Raise TypeError
                      ∨ ∃ w, py_times4 v = Ok w ∧ v ≠ VNone).
    { intros v. destruct v; simpl; eauto. }
    assert (Hx : ∀ v, (∃ e, py_fmt_X 2 v = Raise e ∧ (e = TypeError ∨ e = ValueError))
                      ∨ ∃ s, py_fmt_X 2 v = Ok s).
    { intros v. destruct v; simpl; eauto 6. }
    assert (Hi : ∀ v, (∃ e, py_int_of v = Raise e ∧ (e = TypeError ∨ e = ValueError))
                      ∨ ∃ n, py_int_of v = Ok n).
    { intros v. destruct v as [| | | |s|]; simpl; eauto 6.
      unfold py_int10. destruct (match int_strip s with "" => _ | _ => _ end); eauto 6. }
    destruct (Hf (tp_cycle_rate a)) as [->|(w & -> & Nc)]; res_step; [eauto|].
    destruct (Hx w) as [(e & -> & He)|[s ->]]; res_step;
      [exists e; split; [done|tauto]|].
    destruct (Hf (tp_min_on_time a)) as [->|(w1 & -> & Non)]; res_step; [eauto|].
    destruct (Hi w1) as [(e & -> & He)|[n1 ->]]; res_step;
      [exists e; split; [done|tauto]|].
    destruct (Hf (tp_min_off_time a)) as [->|(w2 & -> & Noff)]; res_step; [eauto|].
    destruct Hnone as [?|[?|?]]; done. }
  destruct Hp as (e & Hp & He).
  unfold set_tpi_params, device_decorator.
  eapply validate_wrapper_caught with (e := e).
  - unfold set_tpi_params_body. by rewrite Hp.
  - by destruct He as [-> | [-> | ->]].
Qed.

End TpiParams.

(** ** The fault log *)

Section FaultLogProps.
Context (reply : Z → option record) (start limit stop : Z).
Hypothesis Hrange : start ≤ stop ≤ limit + 1.
Hypothesis Hstart : start ≤ limit.
Hypothesis Hentries : ∀ i, start ≤ i < stop → entry_reply i (reply i).
Hypothesis Hstop : stop ≤ limit → null_reply (reply stop).

Lemma rq_callback_null (self : FaultLog) :
  null_reply (reply stop) → stop ≤ limit →
  rq_callback self (reply stop) = Ok (fault_log_done self, None).
Proof.
  intros Hn _. unfold rq_callback. destruct (reply stop) as [payload|]; [|done].
  destruct Hn as [He Hi]. rewrite He.
  destruct (payload !! "log_idx") as [[| | | |s|]|]; try done.
  destruct Hi as [n Hi]. change (default (VStr "00") (Some (VStr s))) with (VStr s).
  cbv iota. by rewrite Hi, bind_Ok.
Qed.

Lemma rq_callback_entry (self : FaultLog) (entries : gmap Z record) (i : Z) :
  start ≤ i < stop → fl_fault_log self = Some entries →
  ∃ payload, reply i = Some payload
    ∧ rq_callback self (reply i)
      = let self' := {| fl_START := fl_START self; fl_limit := fl_limit self;
                        fl_fault_log := Some (<[i := delete "log_idx" payload]> entries);
                        fl_fault_log_done := fl_fault_log_done self |} in
        if i <? fl_limit self then Ok (self', Some (i + 1))
        else Ok (fault_log_done self', None).
Proof.
  intros Hi Hl. destruct (Hentries i Hi) as (payload & s & Hr & Hk & Hs & Hne).
  exists payload. split; [done|]. rewrite Hr. unfold rq_callback.
  rewrite Hk. change (default (VStr "00") (Some (VStr s))) with (VStr s).
  cbv iota. rewrite Hs, bind_Ok.
  rewrite bool_decide_eq_false_2 by done. rewrite Hl. cbn [fl_limit].
  by destruct (i <? fl_limit self).
Qed.

Lemma _rq_log_entry_run (n : nat) :
  ∀ (fuel : nat) (self : FaultLog) (entries : gmap Z record) (i : Z),
    Z.of_nat n = stop - i → start ≤ i ≤ limit →
    fl_limit self = limit → fl_fault_log self = Some entries →
    (n < fuel)%nat →
    ∃ self' entries',
      _rq_log_entry reply fuel self i = Ok (self', seqZ i (Z.min stop limit - i + 1))
      ∧ fl_fault_log_done self' = true
      ∧ fl_fault_log self' = Some entries'
      ∧ ∀ j, entries' !! j
             = if bool_decide (i ≤ j < stop)
               then delete "log_idx" <$> reply j else entries !! j.
Proof.
  induction n as [|n IH]; intros fuel self entries i Hn Hi Hlim Hlog Hfuel.
  - assert (i = stop) as -> by lia.
    destruct fuel as [|fuel]; [lia|]. cbn [_rq_log_entry].
    rewrite rq_callback_null by (try apply Hstop; lia). rewrite bind_Ok.
    exists (fault_log_done self), entries.
    split; [|split; [done|split; [done|]]].
    + replace (Z.min stop limit - stop + 1) with 1 by lia. done.
    + intros j. rewrite bool_decide_eq_false_2 by lia. done.
  - destruct fuel as [|fuel]; [lia|]. cbn [_rq_log_entry].
    destruct (rq_callback_entry self entries i) as (payload & Hr & ->); [lia|done|].
    rewrite Hlim. cbv zeta.
    destruct (i <? limit) eqn:Elt; rewrite bind_Ok.
    + apply Z.ltb_lt in Elt.
      destruct (IH fuel
                  {| fl_START := fl_START self; fl_limit := limit;
                     fl_fault_log := Some (<[i := delete "log_idx" payload]> entries);
                     fl_fault_log_done := fl_fault_log_done self |}
                  (<[i := delete "log_idx" payload]> entries) (i + 1))
        as (self' & entries' & Hrun & Hdone & Hlog' & Hkeys); [lia|lia|done|done|lia|].
      rewrite Hrun, bind_Ok. exists self', entries'.
      split; [|split; [done|split; [done|]]].
      * cbn. do 2 f_equal.
        rewrite (seqZ_cons i) by lia. f_equal. f_equal; lia.
      * intros j. rewrite Hkeys.
        destruct (decide (j = i)) as [->|Hne].
        -- rewrite bool_decide_eq_false_2 by lia. rewrite bool_decide_eq_true_2 by lia.
           by rewrite lookup_insert_eq, Hr.
        -- destruct (decide (i + 1 ≤ j < stop)).
           ++ rewrite !bool_decide_eq_true_2 by lia. done.
           ++ rewrite !bool_decide_eq_false_2 by lia. by rewrite lookup_insert_ne.
    + apply Z.ltb_ge in Elt. assert (i = limit) as -> by lia.
      assert (stop = limit + 1) as -> by lia.
      exists (fault_log_done
                {| fl_START := fl_START self; fl_limit := limit;
                   fl_fault_log := Some (<[limit := delete "log_idx" payload]> entries);
                   fl_fault_log_done := fl_fault_log_done self |}),
             (<[limit := delete "log_idx" payload]> entries).
      split; [|split; [done|split; [done|]]].
      * replace (Z.min (limit + 1) limit - limit + 1) with 1 by lia. done.
      * intros j. destruct (decide (j = limit)) as [->|Hne].
        -- rewrite bool_decide_eq_true_2 by lia. by rewrite lookup_insert_eq, Hr.
        -- rewrite bool_decide_eq_false_2 by lia. by rewrite lookup_insert_ne.
Qed.

(** X15. The fault log is fetched entry by entry, from [start], until the
    controller answers with a null entry (or nothing), or until the entry
    numbered [limit] has arrived - the limit is inclusive.  If the entries
    [start] to [stop - 1] arrive and the exchange ends at [stop] for one of
    these two reasons, then, given time for [stop - start + 1] answers, the
    log is marked complete, it holds exactly the entries [start] to
    [stop - 1], each without its [log_idx] key, and no request went out
    beyond the one that ended the exchange. *)
Theorem fault_log_collects (fuel : nat) (self : FaultLog) :
  stop - start < Z.of_nat fuel →
  ∃ self' entries,
    get_fault_log reply fuel self (Some start) (Some limit)
    = Ok (self', seqZ start (Z.min stop limit - start + 1))
    ∧ fl_fault_log_done self' = true
    ∧ fl_fault_log self' = Some entries
    ∧ ∀ j, entries !! j
           = if bool_decide (start ≤ j < stop)
             then delete "log_idx" <$> reply j else None.
Proof.
  intros Hfuel. unfold get_fault_log. cbn [default fl_START].
  destruct (_rq_log_entry_run (Z.to_nat (stop - start)) fuel
              {| fl_START := start; fl_limit := limit; fl_fault_log := Some ∅;
                 fl_fault_log_done := false |} ∅ start)
    as (self' & entries & Hrun & Hdone & Hlog & Hkeys); [lia|lia|done|done|lia|].
  exists self', entries. split; [done|]. split; [done|]. split; [done|].
  intros j. rewrite Hkeys. by rewrite lookup_empty.
Qed.

End FaultLogProps.

Lemma fault_log_collects_witness :
  ∃ self' entries,
    get_fault_log six_entries 10 FaultLog_init (Some 0) (Some 63)
    = Ok (self', seqZ 0 (Z.min 6 63 - 0 + 1))
    ∧ fl_fault_log_done self' = true
    ∧ fl_fault_log self' = Some entries
    ∧ ∀ j, entries !! j
           = if bool_decide (0 ≤ j < 6)
             then delete "log_idx" <$> six_entries j else None.
Proof.
  apply (fault_log_collects six_entries 0 63 6); [lia|lia| | |simpl; lia].
  - intros i Hi. unfold entry_reply, six_entries.
    assert ((0 <=? i) && (i <? 6) = true) as ->
      by (apply andb_true_intro; split; [apply Z.leb_le|apply Z.ltb_lt]; lia).
    exists (py_dict [("log_idx", VStr (fmt_X 2 i)); ("fault_state", VStr "fault")]),
           (fmt_X 2 i).
    split; [done|]. split; [done|]. split; [apply py_int16_fmt_X; lia|].
    intros E. apply (f_equal (λ m : record, m !! "fault_state")) in E.
    by vm_compute in E.
  - intros _. unfold null_reply. vm_compute. split; [done|]. by exists 0.
Defined.

(** ** Signal strength *)

(** X16. [parser_0016] accepts requests and replies of two bytes only, and
    grades the signal: on four hex digits it returns the second byte as
    [rf_value] and a strength of 1 to 5, one more than a fifth of the value,
    capped at 5, which never decreases when the value grows. *)
Theorem rf_strength_grades (payload : string) (msg : Msg) :
  (str_in (msg_verb msg) [RQ; RP] = false ∨ msg_len msg ≠ 2 →
   parser_0016 payload msg = Raise AssertionError)
  ∧ (str_in (msg_verb msg) [RQ; RP] = true → msg_len msg = 2 →
     is_hex 4 payload = true →
     ∃ v s, parser_0016 payload msg
            = Ok (PDict (py_dict [("rf_strength", VInt s); ("rf_value", VInt v)]))
       ∧ v = hex_value (slice 2 4 payload) ∧ 0 ≤ v ≤ 255
       ∧ s = Z.min (v / 5 + 1) 5 ∧ 1 ≤ s ≤ 5
       ∧ (s = 5 ↔ 20 ≤ v)).
Proof.
  unfold parser_0016. split.
  - intros [Hv|Hl].
    + by rewrite Hv.
    + destruct (str_in _ _); [|done]. res_step.
      apply Z.eqb_neq in Hl. by rewrite Hl.
  - intros Hv Hl Hp. rewrite Hv, Hl. change (2 =? 2) with true. res_step.
    rewrite (py_int16_slice 2 4 4 payload Hp) by lia. res_step.
    pose proof (hex_value_bound (slice 2 4 payload)) as Hb.
    pose proof (is_hex_slice 2 4 4 payload Hp ltac:(lia)) as [Hlen _]%is_hex_spec.
    rewrite Hlen in Hb. change (16 ^ Z.of_nat (4 - 2)) with 256 in Hb.
    set (v := hex_value (slice 2 4 payload)) in *.
    assert (Hq : py_int_truediv v 5 = v / 5)
      by (unfold py_int_truediv; apply Z.quot_div_nonneg; lia).
    exists v, (Z.min (v / 5 + 1) 5). rewrite Hq.
    split; [done|]. split; [done|]. split; [lia|]. split; [done|].
    assert (0 ≤ v / 5) by (apply Z.div_pos; lia).
    split; [lia|]. split.
    + intros Hs. destruct (decide (20 ≤ v)) as [|Hlt]; [done|].
      assert (v / 5 < 4) by (apply Z.div_lt_upper_bound; lia). lia.
    + intros Hge. assert (4 ≤ v / 5) by (apply Z.div_le_lower_bound; lia). lia.
Qed.

Lemma rf_strength_grades_witness :
  ∃ v s, parser_0016 "021E" (request_frame "0016" "021E" ∅)
         = Ok (PDict (py_dict [("rf_strength", VInt s); ("rf_value", VInt v)]))
    ∧ v = hex_value (slice 2 4 "021E") ∧ 0 ≤ v ≤ 255
    ∧ s = Z.min (v / 5 + 1) 5 ∧ 1 ≤ s ≤ 5
    ∧ (s = 5 ↔ 20 ≤ v).
Proof.
  apply (rf_strength_grades "021E" (request_frame "0016" "021E" ∅)); reflexivity.
Defined.

(** ** Commands *)

Section PacketProps.
Context (H : Helpers).

(** X17. [Command.packet] checks the frame twice.  A command it returns is
    valid with the addresses and the sequence number given, its verb, code
    and payload are those of the command first built for the null device
    (itself valid), and its addresses are what the address helper makes of
    the three given, an absent one being the non-device address.  When the
    command for the null device cannot be built, [packet] raises the same
    exception, whatever addresses were given. *)
Theorem packet_checks_twice (verb code payload : string) (a : packet_args) :
  let verb' := if String.eqb verb "I" then I_
               else if String.eqb verb "W" then W_ else verb in
  (∀ cmd, Command_packet H verb code payload a = Ok cmd →
     is_valid H cmd = Ok true
     ∧ (∃ cmd0, Command_init H verb' code payload (NUL_DEV_ADDR_id H)
                  (pk_kwargs a) (pk_now a) = Ok cmd0
          ∧ cmd_verb cmd = cmd_verb cmd0 ∧ cmd_code cmd = cmd_code cmd0
          ∧ cmd_payload cmd = cmd_payload cmd0 ∧ cmd_len cmd = cmd_len cmd0
          ∧ cmd_priority cmd = cmd_priority cmd0)
     ∧ cmd_code cmd = code ∧ cmd_payload cmd = payload
     ∧ pkt_addrs H (default (NON_DEV_ADDR_id H) (pk_addr0 a) ++ " "
                    ++ default (NON_DEV_ADDR_id H) (pk_addr1 a) ++ " "
                    ++ default (NON_DEV_ADDR_id H) (pk_addr2 a))
       = Ok (cmd_src cmd, cmd_dst cmd, cmd_addrs cmd)
     ∧ (pk_seqn a = None → cmd_seqn cmd = "---"))
  ∧ (∀ e, Command_init H verb' code payload (NUL_DEV_ADDR_id H)
            (pk_kwargs a) (pk_now a) = Raise e →
       Command_packet H verb code payload a = Raise e).
Proof.
  intros verb'. unfold Command_packet. fold verb'. split.
  - intros cmd Hc.
    destruct (Command_init H verb' code payload _ _ _) as [cmd0|] eqn:E0; [|done].
    rewrite bind_Ok in Hc.
    match type of Hc with (?m ≫= _) = _ => destruct m as [seqn|] eqn:Es; [|done] end.
    rewrite bind_Ok in Hc.
    destruct (pkt_addrs H _) as [[[src dst] addrs]|] eqn:Ea; [|done].
    rewrite bind_Ok in Hc.
    match type of Hc with (?m ≫= _) = _ => destruct m as [[]|] eqn:Ev; [|done..] end.
    rewrite bind_Ok in Hc. cbn [negb] in Hc. injection Hc as <-.
    apply Command_init_inv in E0 as (_ & _ & _ & _ & _ & _ & Hseq & _ & Hcode & _ & Hp & _).
    split; [done|]. split; [by exists cmd0|]. cbn.
    split; [done|]. split; [done|]. split; [done|].
    intros Hn. rewrite Hn in Es. by injection Es as <-.
  - intros e ->. done.
Qed.

(** X18. Invariants of a constructed command: whatever the arguments, a
    command that [Command.__init__] returns has a verb of exactly two
    characters (a shorter one is right-justified, a longer one cut), the
    sequence number "---", a payload of 2 to 96 characters and, as its
    length, half that number: 1 to 48. *)
Theorem command_invariants (verb code payload dest_id : string)
    (kw : Kwargs) (now : Z) (cmd : Command) :
  Command_init H verb code payload dest_id kw now = Ok cmd →
  String.length (cmd_verb cmd) = 2%nat
  ∧ (String.length verb = 2%nat → cmd_verb cmd = verb)
  ∧ cmd_seqn cmd = "---"
  ∧ 2 ≤ py_len (cmd_payload cmd) ≤ 96
  ∧ cmd_len cmd = py_len (cmd_payload cmd) / 2
  ∧ 1 ≤ cmd_len cmd ≤ 48
  ∧ cmd_callback cmd = kw_callback kw.
Proof.
  intros Hc. pose proof Hc as Hc'.
  apply Command_init_inv in Hc
    as (src & dst & addrs & Ha & Hv & Hverb & Hseqn & _ & _ & Hlen & Hp & _).
  unfold frame_is_valid in Hv.
  destruct (frame_str _ _ addrs code _ payload) as [s|]; [|done].
  rewrite bind_Ok in Hv. injection Hv as Hv.
  apply andb_prop in Hv as [_ [H2 H96]%andb_prop].
  apply Z.leb_le in H2, H96.
  rewrite Hverb, Hseqn, Hp, Hlen.
  split; [|split; [|split; [done|split; [done|split; [done|split]]]]].
  - by destruct verb as [|? [|? [|]]].
  - intros Hl. by destruct verb as [|? [|? [|]]].
  - split; [apply Z.div_le_lower_bound; lia|apply Z.div_le_upper_bound; lia].
  - unfold Command_init in Hc'. rewrite Ha, bind_Ok in Hc'.
    destruct (frame_is_valid H _ _ addrs code _ payload) as [[]|]; [|done..].
    rewrite bind_Ok in Hc'. cbn [negb] in Hc'.
    destruct (_qos _ code kw). by injection Hc' as <-.
Qed.

End PacketProps.

Lemma packet_checks_twice_witness :
  ∃ cmd,
    Command_packet demo_helpers "I" "30C9" "000C0D"
      {| pk_addr0 := Some "34:021943"; pk_addr1 := None;
         pk_addr2 := Some "34:021943"; pk_seqn := None;
         pk_kwargs := no_kwargs; pk_now := 0 |} = Ok cmd
    ∧ is_valid demo_helpers cmd = Ok true
    ∧ cmd_verb cmd = I_
    ∧ addr_id <$> cmd_addrs cmd = ["34:021943"; "--:------"; "34:021943"].
Proof.
  destruct (packet_checks_twice demo_helpers "I" "30C9" "000C0D"
              {| pk_addr0 := Some "34:021943"; pk_addr1 := None;
                 pk_addr2 := Some "34:021943"; pk_seqn := None;
                 pk_kwargs := no_kwargs; pk_now := 0 |}) as [Hok _].
  eexists. split; [vm_compute; reflexivity|].
  split; [|split; reflexivity].
  apply Hok. vm_compute. reflexivity.
Defined.

Lemma command_invariants_witness :
  ∃ cmd,
    Command_init demo_helpers "W" "2309" "0107D0" "01:145038" no_kwargs 0 = Ok cmd
    ∧ String.length (cmd_verb cmd) = 2%nat
    ∧ cmd_len cmd = py_len (cmd_payload cmd) / 2.
Proof.
  eexists. split; [vm_compute; reflexivity|].
  eassert (Hc : Command_init demo_helpers "W" "2309" "0107D0" "01:145038" no_kwargs 0
                = Ok _) by (vm_compute; reflexivity).
  destruct (command_invariants demo_helpers _ _ _ _ _ _ _ Hc) as (Hv & _ & _ & _ & Hl & _).
  split; [exact Hv|exact Hl].
Defined.

(** X19. The QoS of a command: a value that the caller passes wins; without
    one, the priority is HIGH (2), DEFAULT (4) or LOW (6) - LOW only for a
    request of code 0418 - the number of retries is 1 to 5, and the timeout
    is 50 ms, 300 ms or 1 s. *)
Theorem qos_defaults_and_overrides (verb code : string) (kw : Kwargs) :
  (∀ p, kw_priority kw = Some p → (_qos verb code kw).1 = p)
  ∧ (∀ r, kw_retries kw = Some r → qos_retries (_qos verb code kw).2 = r)
  ∧ (∀ t, kw_timeout kw = Some t → qos_timeout (_qos verb code kw).2 = t)
  ∧ (∀ b, kw_disable_backoff kw = Some b →
       qos_disable_backoff (_qos verb code kw).2 = b)
  ∧ (kw_priority kw = None →
     ((_qos verb code kw).1 = Priority_HIGH ∨ (_qos verb code kw).1 = Priority_DEFAULT
      ∨ (_qos verb code kw).1 = Priority_LOW)
     ∧ ((_qos verb code kw).1 = Priority_LOW → verb ++ "/" ++ code = RQ ++ "/0418"))
  ∧ (kw_retries kw = None → 1 ≤ qos_retries (_qos verb code kw).2 ≤ 5)
  ∧ (kw_timeout kw = None →
     qos_timeout (_qos verb code kw).2 = 50000
     ∨ qos_timeout (_qos verb code kw).2 = 300000
     ∨ qos_timeout (_qos verb code kw).2 = 1000000).
Proof.
  unfold _qos.
  set (entry := default QOS_TX_DEFAULT
                  (snd <$> find (λ kv, String.eqb (verb ++ "/" ++ code) (fst kv)) QOS_TABLE)).
  assert (He : (entry = (Some Priority_HIGH, Some 5, None, None)
                ∨ entry = (Some Priority_HIGH, Some 2, Some 1000000, Some true)
                ∨ entry = (Some Priority_HIGH, Some 5, Some 300000, None)
                ∨ entry = (Some Priority_DEFAULT, Some 1, Some 1000000, Some true)
                ∨ entry = QOS_TX_DEFAULT)
               ∨ (entry = (Some Priority_LOW, Some 3, None, None)
                  ∧ verb ++ "/" ++ code = RQ ++ "/0418")).
  { unfold entry, QOS_TABLE. cbn [find fst].
    destruct (String.eqb _ (RQ ++ "/0016")); [left; by left|].
    destruct (String.eqb _ (RQ ++ "/1F09")); [left; by left|].
    destruct (String.eqb _ (I_ ++ "/1FC9")); [left; right; by left|].
    destruct (String.eqb _ (I_ ++ "/0404")); [left; right; right; by left|].
    destruct (String.eqb _ (W_ ++ "/0404")); [left; right; right; by left|].
    destruct (String.eqb _ (RQ ++ "/0418")) eqn:E; [right; split; [done|by apply String.eqb_eq]|].
    destruct (String.eqb _ (RQ ++ "/3220")); [left; right; right; right; by left|].
    left. right. right. right. by right. }
  clearbody entry.
  destruct He as [[-> | [-> | [-> | [-> | ->]]]] | [-> Hk]]; cbn;
    (split; [by intros ? ->|]); (split; [by intros ? ->|]);
    (split; [by intros ? ->|]); (split; [by intros ? ->|]);
    (split; [intros ->; cbn; split; [auto|done]|]);
    (split; [intros ->; cbn; unfold QOS_TX_RETRIES; lia|]);
    intros ->; cbn; auto.
Qed.

Lemma qos_defaults_and_overrides_witness :
  (_qos RQ "0418" no_kwargs).1 = Priority_LOW
  ∧ ((_qos RQ "0418" no_kwargs).1 = Priority_HIGH
     ∨ (_qos RQ "0418" no_kwargs).1 = Priority_DEFAULT
     ∨ (_qos RQ "0418" no_kwargs).1 = Priority_LOW)
  ∧ 1 ≤ qos_retries (_qos RQ "0418" no_kwargs).2 ≤ 5.
Proof.
  destruct (qos_defaults_and_overrides RQ "0418" no_kwargs)
    as (_ & _ & _ & _ & Hp & Hr & _).
  split; [reflexivity|]. split; [apply Hp; reflexivity|apply Hr; reflexivity].
Defined.

(** X20. The zone index of a zone constructor is normalised before the
    protected call.  "HW" stands for the hot-water zone 0xFA; a string of
    hex digits stands for its value; an integer is passed on as it is, and
    none is ever rejected, the condition [0 > zone_idx > 15] of the range
    check being unsatisfiable.  A string that [int(_, 16)] cannot read makes
    the constructor raise [ValueError] to its caller: the conversion is not
    covered by the handler that turns faults into [None]. *)
Theorem zone_index_normalisation {A} (fcn : string → Z → A → res Command)
    (ctl_id : string) (args : A) :
  zone_decorator fcn ctl_id (ZoneStr "HW") args = validate_wrapper (fcn ctl_id 250 args)
  ∧ (∀ s, all_hex s = true → s ≠ "" →
       zone_decorator fcn ctl_id (ZoneStr s) args
       = validate_wrapper (fcn ctl_id (hex_value s) args))
  ∧ (∀ z, zone_decorator fcn ctl_id (ZoneInt z) args
          = validate_wrapper (fcn ctl_id z args))
  ∧ (∀ s, s ≠ "HW" → py_int16 s = Raise ValueError →
       zone_decorator fcn ctl_id (ZoneStr s) args = Raise ValueError).
Proof.
  assert (Hguard : ∀ z, (0 >? z) && (z >? 15) && negb (z =? 250) = false).
  { intros z. assert ((0 >? z) && (z >? 15) = false) as ->; [|done].
    apply andb_false_iff. rewrite !Z.gtb_ltb, !Z.ltb_ge. lia. }
  split; [|split; [|split]].
  - unfold zone_decorator. change (String.eqb "HW" "HW") with true. cbv iota.
    change (py_int16 "FA") with (Ok 250 : res Z). rewrite bind_Ok.
    by rewrite Hguard.
  - intros s Hs Hne. unfold zone_decorator.
    assert (String.eqb s "HW" = false) as ->.
    { apply String.eqb_neq. intros ->. done. }
    rewrite (py_int16_hex s Hs Hne), bind_Ok. by rewrite Hguard.
  - intros z. unfold zone_decorator. rewrite bind_Ok. by rewrite Hguard.
  - intros s Hs Hi. unfold zone_decorator.
    apply String.eqb_neq in Hs. by rewrite Hs, Hi.
Qed.

Lemma zone_index_normalisation_witness :
  zone_decorator (set_zone_mode_body demo_helpers) "01:145038" (ZoneStr "0A")
    (mode_call VNone (VInt 5) None None)
  = validate_wrapper (set_zone_mode_body demo_helpers "01:145038" (hex_value "0A")
                        (mode_call VNone (VInt 5) None None))
  ∧ zone_decorator (set_zone_mode_body demo_helpers) "01:145038" (ZoneStr "kitchen")
      (mode_call VNone (VInt 5) None None)
    = Raise ValueError.
Proof.
  destruct (zone_index_normalisation (set_zone_mode_body demo_helpers) "01:145038"
              (mode_call VNone (VInt 5) None None)) as (_ & Hhex & _ & Hbad).
  split; [apply Hhex; [reflexivity|discriminate]|apply Hbad; [discriminate|reflexivity]].
Defined.

Lemma dhw_params_payload_layout (t1 o t2 : string) :
  is_hex 4 t1 = true → is_hex 2 o = true → is_hex 4 t2 = true →
  let payload := "00" ++ t1 ++ o ++ t2 in
  py_len payload = 12
  ∧ slice 0 2 payload = "00" ∧ slice 2 6 payload = t1
  ∧ slice 6 8 payload = o ∧ slice 8 12 payload = t2.
Proof.
  intros (? & ? & ? & ? & ->)%is_hex_4_inv (? & ? & ->)%is_hex_2_inv
         (? & ? & ? & ? & ->)%is_hex_4_inv.
  repeat split.
Qed.

Section DhwParams.
Context (H : Helpers).

(** X21. What [set_dhw_params] writes, [parser_10a0] reads back: with a
    setpoint and a differential within the asserted ranges ([None] standing
    for 50.0 and 1.0) that the helper encodes on four hex digits, and an
    integer overrun of 0 to 10 minutes, the constructor builds a 6-byte
    payload for the first DHW system; the parser returns the overrun as
    given and the two temperatures as [_temp] decodes the helper's digits,
    a setpoint that decodes to 255 being reported as absent. *)
Theorem dhw_params_round_trip (a : dhw_params) (overrun : Z) (t1 t2 : string) :
  let setpoint := if is_none (dp_setpoint a) then VFloat (Qc_of_Z 50) else dp_setpoint a in
  let differential :=
    if is_none (dp_differential a) then VFloat 1%Qc else dp_differential a in
  dp_overrun a = VInt overrun → 0 ≤ overrun ≤ 10 →
  py_between (Qc_of_Z 30) setpoint (Qc_of_Z 85) = Ok true →
  py_between 1%Qc differential (Qc_of_Z 10) = Ok true →
  temp_to_hex H setpoint = Ok t1 → is_hex 4 t1 = true →
  temp_to_hex H differential = Ok t2 → is_hex 4 t2 = true →
  ∃ payload v1 v2,
    _temp t1 = Ok v1 ∧ _temp t2 = Ok v2
    ∧ py_len payload = 12
    ∧ (∀ ctl_id, set_dhw_params_body H ctl_id a
                 = Command_init H W_ "10A0" payload ctl_id (dp_kwargs a) (dp_now a))
    ∧ (∀ msg, msg_len msg = 6 →
         parser_10a0 payload msg
         = Ok (PDict (<["differential" := v2]>
                      (<["overrun" := VInt overrun]>
                       {["setpoint" := if py_eq_int v1 255 then VNone else v1]})))).
Proof.
  intros setpoint differential Ho Hor Hsp Hdf Ht1 Hh1 Ht2 Hh2.
  destruct (fmt_X_is_hex 2 overrun) as [Oh Ov];
    [lia|change (16 ^ Z.of_nat 2) with 256; lia|].
  destruct (_temp_total t1 Hh1) as [v1 Hv1], (_temp_total t2 Hh2) as [v2 Hv2].
  destruct (dhw_params_payload_layout t1 (fmt_X 2 overrun) t2)
    as (Hlen & H02 & H26 & H68 & H812); try done.
  exists ("00" ++ t1 ++ fmt_X 2 overrun ++ t2), v1, v2.
  split; [done|]. split; [done|]. split; [done|]. split.
  - intros ctl_id. unfold set_dhw_params_body. fold setpoint differential.
    rewrite Ho. cbn [is_none]. rewrite Hsp. res_step.
    rewrite <- Z2Qc_inj_0, py_between_int by lia. res_step.
    rewrite Hdf. res_step. rewrite Ht1. res_step. cbn [py_fmt_X]. res_step.
    rewrite Ht2. by res_step.
  - intros msg Hl. unfold parser_10a0. rewrite Hl.
    rewrite andb_false_r. change ((6 =? 1) || (6 =? 3) || (6 =? 6)) with true.
    res_step. rewrite H02. change (str_in "00" ["00"; "01"]) with true. res_step.
    change (6 >=? 2) with true. change (6 >=? 4) with true. change (6 >=? 6) with true.
    cbv iota. rewrite H26, H68, H812, Hv1. res_step.
    rewrite (is_hex_int16 1 _ Oh), Ov. res_step. rewrite Hv2. by res_step.
Qed.

End DhwParams.

(** ** Fault log entries, from the parser to the log *)

(** Look a constant key up in a record built by displays and updates. *)
Ltac lookup_const :=
  unfold py_dict; cbn [foldl fst snd];
  repeat first [ rewrite lookup_insert_eq | rewrite lookup_insert_ne by done ].

Section FaultLogEntries.
Context (T : Tables).

(** X22. What [parser_0418] returns for a 22-byte reply is an entry for the
    callback of the fault log, never the end of the log.  The test for the
    null entry compares [payload[2:]] with 44 characters, which the 42
    characters left of a 22-byte payload never equal; so, when the parser
    returns a record for such a reply, the record is not empty: it carries
    its index, a number below 64, as two hex digits under [log_idx] together
    with other keys, and - whatever index keys the wrapper adds - the
    callback receives it as the entry of that number, not as a null
    reply. *)
Theorem parsed_entries_feed_fault_log (payload : string) (msg : Msg) :
  msg_verb msg ≠ RQ → String.length payload = 44%nat →
  slice_from 2 payload ≠ "000000B0000000000000000000007FFFFF7000000000"
  ∧ parser_0418 T payload msg ≠ Ok (PDict ∅)
  ∧ ∀ d, parser_0418 T payload msg = Ok (PDict d) →
      ∃ n, py_int16 (slice 4 6 payload) = Ok n ∧ n < 64
        ∧ ∀ idx, entry_reply n (Some (dict_merge idx d))
                 ∧ ¬ null_reply (Some (dict_merge idx d)).
Proof.
  intros Hv Hlen.
  assert (Hnn : slice_from 2 payload ≠ "000000B0000000000000000000007FFFFF7000000000").
  { intros E. apply (f_equal String.length) in E. unfold slice_from in E.
    rewrite length_str_drop, Hlen in E. discriminate E. }
  assert (Hmain : ∀ d, parser_0418 T payload msg = Ok (PDict d) →
            d !! "log_idx" = Some (VStr (slice 4 6 payload))
            ∧ is_Some (d !! "fault_state")
            ∧ ∃ n, py_int16 (slice 4 6 payload) = Ok n ∧ n < 64).
  { intros d Hp. unfold parser_0418 in Hp.
    apply String.eqb_neq in Hv. rewrite Hv in Hp.
    apply String.eqb_neq in Hnn. rewrite Hnn in Hp.
    destruct (py_assert (str_in (msg_verb msg) [I_; RP])); [|done].
    rewrite bind_Ok in Hp.
    destruct (py_assert (bool_decide (is_Some (CODE_0418_FAULT_STATE T _)))); [|done].
    rewrite bind_Ok in Hp.
    destruct (py_int16 (slice 4 6 payload)) as [n|] eqn:En; [|done].
    rewrite bind_Ok in Hp.
    destruct (n <? 64) eqn:E64; [|done]. rewrite py_assert_true, bind_Ok in Hp.
    apply Z.ltb_lt in E64.
    assert (Hd : d !! "log_idx" = Some (VStr (slice 4 6 payload))
                 ∧ is_Some (d !! "fault_state")).
    { clear En. res_inv Hp;
        repeat match goal with
               | |- context [if ?b then _ else _] => destruct b
               end;
        lookup_const; split; eauto. }
    destruct Hd as [Hlog Hfs]. split; [done|]. split; [done|]. by exists n. }
  split; [done|]. split.
  - intros Hp. by destruct (Hmain _ Hp) as (Hlog & _).
  - intros d Hp. destruct (Hmain _ Hp) as (Hlog & [v Hfs] & n & En & E64).
    exists n. split; [done|]. split; [done|]. intros idx.
    assert (Hne : delete "log_idx" (dict_merge idx d) ≠ (∅ : record)).
    { intros E. apply (f_equal (λ m : record, m !! "fault_state")) in E.
      rewrite lookup_delete_ne, lookup_empty in E by done.
      unfold dict_merge in E. by rewrite (lookup_union_Some_l _ _ _ _ Hfs) in E. }
    split.
    + exists (dict_merge idx d), (slice 4 6 payload).
      split; [done|]. split; [by apply lookup_union_Some_l|]. by split.
    + by intros [He _].
Qed.

End FaultLogEntries.

Lemma parsed_entries_feed_fault_log_witness :
  ∃ d, parser_0418 demo_tables "000000B00401010000008694A3CC7FFFFF70000ECC8A"
         (controller_frame "0418" "000000B00401010000008694A3CC7FFFFF70000ECC8A" 0 ∅)
       = Ok (PDict d)
    ∧ ∃ n, py_int16 "00" = Ok n ∧ n < 64
        ∧ ∀ idx, entry_reply n (Some (dict_merge idx d))
                 ∧ ¬ null_reply (Some (dict_merge idx d)).
Proof.
  destruct (parsed_entries_feed_fault_log demo_tables
              "000000B00401010000008694A3CC7FFFFF70000ECC8A"
              (controller_frame "0418" "000000B00401010000008694A3CC7FFFFF70000ECC8A" 0 ∅))
    as (_ & _ & Hentry); [discriminate|reflexivity|].
  eexists. split; [vm_compute; reflexivity|].
  apply Hentry. vm_compute; reflexivity.
Defined.

(** ** Normalisation and the index helper *)

(** X23. [normalise_duration] changes nothing: when it returns, it returns
    the [until] and [duration] it was given.  It returns exactly when they
    fit the mode - no duration with a temporary override, a duration and no
    [until] with a countdown, neither with any other mode - and raises
    [ValueError] otherwise. *)
Theorem normalise_duration_accepts (mode : string) (target : pyval)
    (until duration : option Z) :
  (∀ r, normalise_duration mode target until duration = Ok r → r = (until, duration))
  ∧ (∀ e, normalise_duration mode target until duration = Raise e → e = ValueError)
  ∧ (normalise_duration mode target until duration = Ok (until, duration)
     ↔ if String.eqb mode temporary_override then duration = None
       else if is_substring mode countdown_override
            then until = None ∧ duration ≠ None
            else until = None ∧ duration = None).
Proof.
  unfold normalise_duration.
  destruct (String.eqb mode temporary_override);
    [|destruct (is_substring mode countdown_override)];
    destruct until as [u|], duration as [d|]; cbn;
    (split; [by intros ? [= <-]|]); (split; [by intros ? [= <-]|]);
    split; try done; try (by intros [? ?]); by intros [=].
Qed.

(** X24. [_idx] validates and never edits: when it returns, it returns
    [msg._idx] itself; it returns the empty index of a message that has
    none; for a message indexed by zone (or by parent zone) it checks the
    first byte of the raw payload and does not look at the argument it is
    given; and it raises nothing but [AssertionError], [ValueError] (from
    reading a number) and [TypeError] (an index without a known key). *)
Theorem idx_helper_validates (seqx : string) (msg : Msg) :
  (∀ r, _idx seqx msg = Ok r → r = msg_idx msg)
  ∧ (msg_idx msg = ∅ → _idx seqx msg = Ok ∅)
  ∧ (has_key "zone_idx" (msg_idx msg) || has_key "parent_idx" (msg_idx msg) = true →
     ∀ seqx', _idx seqx msg = _idx seqx' msg)
  ∧ (∀ e, _idx seqx msg = Raise e →
       e = AssertionError ∨ e = ValueError ∨ e = TypeError).
Proof.
  split; [|split; [|split]].
  - intros r. apply _idx_result.
  - intros He. unfold _idx, has_key. rewrite He.
    rewrite !bool_decide_eq_false_2; [done|..];
      try (rewrite lookup_empty; by intros [? ?]). by intros ?.
  - intros Hz seqx'. unfold _idx. by rewrite Hz.
  - intros e. unfold _idx.
    assert (Hint : ∀ s, py_int16 s = Raise ValueError ∨ ∃ n, py_int16 s = Ok n).
    { intros s. unfold py_int16. destruct (match int_strip s with "" => _ | _ => _ end); eauto. }
    assert (Hnum : ∀ s b, (py_int16 s ≫= λ n, py_assert (n <? b) ≫= λ _, mret (msg_idx msg))
                          = Raise e → e = AssertionError ∨ e = ValueError ∨ e = TypeError).
    { intros s b. destruct (Hint s) as [->|[n ->]]; [intros [= <-]; auto|].
      rewrite bind_Ok. destruct (n <? b); [done|]. intros [= <-]. auto. }
    assert (Hin : ∀ s l, (py_assert (str_in s l) ≫= λ _, mret (msg_idx msg)) = Raise e →
                         e = AssertionError ∨ e = ValueError ∨ e = TypeError).
    { intros s l. destruct (str_in s l); [done|]. intros [= <-]. auto. }
    repeat match goal with
           | |- (if ?b then _ else _) = _ → _ => destruct b
           end; eauto.
    + intros [= <-]. auto.
    + done.
Qed.

(** ** The properties above, on sample frames and calls *)

Lemma str_decoder_printable_witness :
  ∃ bs, fromhex_opt "4869207F00" = Some bs
    ∧ (VStr "Hi" = VNone ↔ Forall (λ x, ¬ (31 < x ∧ x < 127)) bs)
    ∧ (∀ s, VStr "Hi" = VStr s → str_forall is_printable s = true ∧ py_strip s = s).
Proof.
  destruct (str_decoder_printable "4869207F00") as [Hok _].
  apply (Hok (VStr "Hi")). reflexivity.
Defined.

Lemma array_parsers_elementwise_witness :
  ∃ l, parser_30c9 "0007D00108FC" (array_frame "30C9" "0007D00108FC" ∅) = Ok (PList l)
    ∧ Forall2 (λ c r, parser_30c9_parser c = Ok r) (chunks 6 "0007D00108FC") l.
Proof.
  destruct (array_parsers_elementwise "0007D00108FC"
              (array_frame "30C9" "0007D00108FC" ∅)
              (PList [py_dict [("zone_idx", VStr "00");
                               ("temperature", VFloat (py_truediv 2000 100))];
                      py_dict [("zone_idx", VStr "01");
                               ("temperature", VFloat (py_truediv 2300 100))]]))
    as (_ & Harr).
  destruct (Harr eq_refl) as (_ & H30c9 & _).
  destruct (H30c9 eq_refl) as (l & [= <-] & Hl).
  eexists. split; [reflexivity|exact Hl].
Defined.

Lemma wrapper_merges_index_witness :
  ∃ r, parser_decorator demo_tables parser_12b0 "01C800"
         (controller_frame "12B0" "01C800" 0 {["zone_idx" := VStr "01"]})
       = Ok (PDict r)
    ∧ ∃ d, (d = ∅ ∨ parser_12b0 "01C800"
                      (controller_frame "12B0" "01C800" 0 {["zone_idx" := VStr "01"]})
                    = Ok (PDict d)
            ∨ _handle_rq demo_tables
                (controller_frame "12B0" "01C800" 0 {["zone_idx" := VStr "01"]}) "01C800"
              = Ok d)
        ∧ (∀ k v, d !! k = Some v → r !! k = Some v)
        ∧ (∀ k, d !! k = None
                → r !! k = ({["zone_idx" := VStr "01"]} : record) !! k).
Proof.
  eexists. split; [vm_compute; reflexivity|].
  edestruct (wrapper_merges_index demo_tables parser_12b0 "01C800"
               (controller_frame "12B0" "01C800" 0 {["zone_idx" := VStr "01"]}))
    as [_ Hdict]; [vm_compute; reflexivity|].
  apply Hdict. reflexivity.
Defined.

Lemma request_never_reaches_parser_witness :
  parser_decorator demo_tables parser_30c9 "00" (request_frame "30C9" "00" ∅)
  = parser_decorator demo_tables parser_unknown "00" (request_frame "30C9" "00" ∅)
  ∧ parser_decorator demo_tables parser_unknown "00" (request_frame "30C9" "00" ∅)
    = Ok (PDict ∅).
Proof.
  split; [|by vm_compute].
  eapply (request_never_reaches_parser demo_tables parser_30c9 parser_unknown "00"
            (request_frame "30C9" "00" ∅)); [reflexivity|].
  right. split; reflexivity.
Defined.

Lemma destination_check_bypass_witness :
  check_verb_code_dst demo_tables (request_frame "30C9" "00" ∅) = Ok tt
  ∧ check_verb_code_dst demo_tables (controller_frame "30C9" "0007D0" 0 ∅) = Ok tt.
Proof.
  split.
  - destruct (destination_check_bypass demo_tables (request_frame "30C9" "00" ∅))
      as (Hgw & _).
    apply Hgw. left. reflexivity.
  - destruct (destination_check_bypass demo_tables
                (controller_frame "30C9" "0007D0" 0 ∅)) as (_ & Hinfo & _).
    apply Hinfo; [reflexivity|by eexists].
Defined.

Lemma tpi_params_round_trip_witness :
  ∃ payload v,
    set_tpi_params_payload demo_helpers
      {| tp_domain_id := AStr "FC"; tp_cycle_rate := VInt 6; tp_min_on_time := VInt 1;
         tp_min_off_time := VInt 1; tp_proportional_band_width := VInt 2;
         tp_kwargs := no_kwargs; tp_now := 0 |} = Ok payload
    ∧ py_len payload = 16
    ∧ _temp "00C8" = Ok v
    ∧ (∀ msg, msg_src_type msg ≠ "08" → msg_len msg = 8 →
         parser_1100 payload msg
         = Ok (PDict (<["_unknown_1" := VStr "01"]>
                      (<["proportional_band_width" := v]>
                       (py_dict [("cycle_rate", VInt 6);
                                 ("min_on_time", VFloat (Qc_of_Z 1));
                                 ("min_off_time", VFloat (Qc_of_Z 1));
                                 ("_unknown_0", VStr "FF")]))))).
Proof.
  apply (tpi_params_round_trip demo_helpers "FC" 6 1 1 (VInt 2) no_kwargs 0 "00C8");
    [by right|right; by left|lia|lia|by vm_compute|reflexivity|reflexivity].
Defined.

Lemma tpi_params_none_is_rejected_witness :
  set_tpi_params demo_helpers "01:145038"
    {| tp_domain_id := AStr "FC"; tp_cycle_rate := VNone; tp_min_on_time := VInt 5;
       tp_min_off_time := VInt 5; tp_proportional_band_width := VNone;
       tp_kwargs := no_kwargs; tp_now := 0 |}
  = Ok (None, [Log_exception]).
Proof. apply tpi_params_none_is_rejected. by left. Defined.

Lemma dhw_params_round_trip_witness :
  ∃ payload v1 v2,
    _temp "1388" = Ok v1 ∧ _temp "0064" = Ok v2
    ∧ py_len payload = 12
    ∧ (∀ ctl_id, set_dhw_params_body demo_helpers ctl_id (dhw_call VNone (VInt 5) VNone)
                 = Command_init demo_helpers W_ "10A0" payload ctl_id no_kwargs 0)
    ∧ (∀ msg, msg_len msg = 6 →
         parser_10a0 payload msg
         = Ok (PDict (<["differential" := v2]>
                      (<["overrun" := VInt 5]>
                       {["setpoint" := if py_eq_int v1 255 then VNone else v1]})))).
Proof.
  apply (dhw_params_round_trip demo_helpers (dhw_call VNone (VInt 5) VNone) 5
           "1388" "0064");
    [reflexivity|lia|by vm_compute|by vm_compute
    |reflexivity|reflexivity|reflexivity|reflexivity].
Defined.

Lemma normalise_duration_accepts_witness :
  normalise_duration countdown_override (VInt 1) None (Some 30) = Ok (None, Some 30)
  ∧ normalise_duration follow_schedule VNone None (Some 30) = Raise ValueError.
Proof.
  split.
  - apply (normalise_duration_accepts countdown_override (VInt 1) None (Some 30)).
    by split.
  - reflexivity.
Defined.

Lemma idx_helper_validates_witness :
  _idx "FF" (controller_frame "12B0" "01C800" 0 {["zone_idx" := VStr "01"]})
  = _idx "01" (controller_frame "12B0" "01C800" 0 {["zone_idx" := VStr "01"]})
  ∧ _idx "00" (controller_frame "1F09" "FF073F" 0 ∅) = Ok ∅.
Proof.
  split.
  - apply (idx_helper_validates "FF"
             (controller_frame "12B0" "01C800" 0 {["zone_idx" := VStr "01"]})).
    reflexivity.
  - by apply (idx_helper_validates "00" (controller_frame "1F09" "FF073F" 0 ∅)).
Defined.


(** ** The entry point *)

Section EntryPoint.
Context (T : Tables) (other_parsers : string → option (string → Msg → res parsed)).

(** X25. What leaves [parse_payload].  A result is the result of the parser
    selected for the code, and then nothing is logged.  [None] is returned,
    with exactly one log entry, when that parser raised an exception of a
    class named in a handler.  An exception leaves [parse_payload] only if
    the parser raised it and its class is not among those: none of
    [AssertionError], [LookupError], [TypeError], [ValueError] and the like
    ever reaches the caller. *)
Theorem entry_point_handlers (msg : Msg) :
  let parser := default (parser_decorator T parser_unknown)
                        (PAYLOAD_PARSERS T other_parsers (msg_code msg)) in
  (∀ p l, parse_payload T other_parsers msg = Ok (Some p, l) →
     l = [] ∧ parser (msg_raw_payload msg) msg = Ok p)
  ∧ (∀ l, parse_payload T other_parsers msg = Ok (None, l) →
       ∃ e, parser (msg_raw_payload msg) msg = Raise e
         ∧ caught_by e HANDLED = true ∧ length l = 1%nat)
  ∧ (∀ e, parse_payload T other_parsers msg = Raise e →
       parser (msg_raw_payload msg) msg = Raise e ∧ caught_by e HANDLED = false).
Proof.
  intros parser. pose proof (parse_payload_outcome T other_parsers msg) as Ho.
  cbv zeta in Ho. fold parser in Ho.
  destruct (parser (msg_raw_payload msg) msg) as [result|e] eqn:Ep.
  - rewrite Ho. split; [|split]; [|done..]. by intros p l [= <- <-].
  - destruct (caught_by e HANDLED) eqn:Ec.
    + destruct Ho as [l' ->]. split; [done|]. split; [|done].
      intros l [= <-]. by exists e.
    + rewrite Ho. split; [done|]. split; [done|]. by intros e' [= <-].
Qed.

End EntryPoint.

Lemma entry_point_handlers_witness :
  parser_decorator demo_tables parser_1f09 "02073F" (controller_frame "1F09" "02073F" 0 ∅)
  = Raise AssertionError
  ∧ ∃ e, default (parser_decorator demo_tables parser_unknown)
           (PAYLOAD_PARSERS demo_tables no_other_parsers "1F09")
           "02073F" (controller_frame "1F09" "02073F" 0 ∅) = Raise e
      ∧ caught_by e HANDLED = true ∧ length [Log_warning] = 1%nat.
Proof.
  split; [by vm_compute|].
  destruct (entry_point_handlers demo_tables no_other_parsers
              (controller_frame "1F09" "02073F" 0 ∅)) as (_ & Hnone & _).
  apply Hnone. by vm_compute.
Defined.

(** ** The index keys of all the parsers *)

Lemma adds_no_index_refl (idx : record) : adds_no_index idx idx.
Proof. by intros k _. Qed.

Lemma adds_no_index_empty (idx : record) : adds_no_index idx ∅.
Proof. intros k _ [v Hv]. by rewrite lookup_empty in Hv. Qed.

Lemma adds_no_index_insert (idx : record) (k0 : string) (v : pyval) (d : record) :
  k0 ∉ identity_keys → adds_no_index idx d → adds_no_index idx (<[k0 := v]> d).
Proof.
  intros Hk0 Hd k Hk. rewrite lookup_insert_ne by (intros ->; done). by apply Hd.
Qed.

Lemma adds_no_index_singleton (idx : record) (k0 : string) (v : pyval) :
  k0 ∉ identity_keys → adds_no_index idx {[k0 := v]}.
Proof.
  intros Hk0. rewrite <- insert_empty.
  apply adds_no_index_insert; [done|apply adds_no_index_empty].
Qed.

Lemma adds_no_index_foldl (idx base : record) (l : list (string * pyval)) :
  Forall (λ kv : string * pyval, kv.1 ∉ identity_keys) l →
  adds_no_index idx base →
  adds_no_index idx (foldl (λ m kv, <[kv.1 := kv.2]> m) base l).
Proof.
  intros Hl. revert base. induction Hl as [|kv l Hkv Hl IH]; intros base Hb.
  - done.
  - cbn [foldl]. apply IH. by apply adds_no_index_insert.
Qed.

Lemma adds_no_index_update (idx a b : record) :
  adds_no_index idx a → (∀ k, k ∈ identity_keys → b !! k = None) →
  adds_no_index idx (dict_merge a b).
Proof.
  intros Ha Hb k Hk. unfold dict_merge. rewrite lookup_union_is_Some.
  intros [[v Hv]|Hka]; [|by apply Ha]. by rewrite Hb in Hv.
Qed.

Lemma adds_no_index_one_kind (idx d : record) :
  exclusive idx → adds_no_index idx d → one_kind idx d.
Proof.
  rewrite exclusive_pairwise. intros Hi Hd k k' Hk Hk' Hik Hdk'.
  apply Hi; [done|done|done|]. by apply Hd.
Qed.

Lemma adds_no_index_exclusive (idx d : record) :
  exclusive idx → adds_no_index idx d → exclusive d.
Proof.
  intros Hi Hd. apply exclusive_pairwise. intros k k' Hk Hk' Hdk Hdk'.
  apply (proj1 (exclusive_pairwise idx) Hi); [done|done|by apply Hd|by apply Hd].
Qed.

(** The merge of the wrapper is exclusive exactly when the index of the
    message and the record are of one kind. *)
Lemma exclusive_merge_iff (idx d : record) :
  exclusive idx → exclusive d →
  exclusive (dict_merge idx d) ↔ one_kind idx d.
Proof.
  intros Hi Hd. split; [|by apply exclusive_merge].
  rewrite exclusive_pairwise. intros Hr k k' Hk Hk' Hik Hdk'.
  apply Hr; [done|done|..]; unfold dict_merge; rewrite lookup_union_is_Some; auto.
Qed.

Lemma hands_on_index_exclusive (msg : Msg) (p : parsed) :
  idx_exclusive msg → hands_on_index msg p → Forall exclusive (records_of p).
Proof.
  intros Hm Hp. destruct p as [d|l]; [|done].
  apply Forall_singleton. by eapply adds_no_index_exclusive.
Qed.

Lemma _handle_rq_result (T : Tables) (msg : Msg) (payload : string) (d : record) :
  _handle_rq T msg payload = Ok d → d = msg_idx msg.
Proof.
  unfold _handle_rq. intros Hd.
  destruct (code_regex T (msg_code msg) RQ); [|by destruct (isinstance _ _)].
  destruct (py_assert _); [rewrite bind_Ok in Hd|done].
  destruct (_ && _); [done|]. by eapply _idx_result.
Qed.

(** A record built by displays and updates from keys that are none of the
    index keys, over nothing or over the result of [_idx]. *)
Ltac plain :=
  repeat match goal with
         | |- context [if ?b then _ else _] => destruct b
         end;
  unfold hands_on_index, ordinal_blob, py_dict, py_update; cbn [foldl fst snd];
  repeat lazymatch goal with
         | |- adds_no_index _ (<[?k := _]> _) =>
             apply adds_no_index_insert; [by apply not_identity_key|]
         end;
  lazymatch goal with
  | |- adds_no_index _ ∅ => apply adds_no_index_empty
  | |- adds_no_index _ {[ _ := _ ]} =>
      apply adds_no_index_singleton; by apply not_identity_key
  | E : _idx _ ?m = Ok ?r |- adds_no_index _ ?r =>
      rewrite (_idx_result _ _ _ E); apply adds_no_index_refl
  end.

(** A record built from keys that are none of the index keys has at most
    one of them. *)
Ltac plain_exclusive :=
  unfold py_dict; cbn [foldl fst snd];
  repeat (apply exclusive_insert_other; [by apply not_identity_key|]);
  apply exclusive_empty.

Section AllParsers.
Context (T : Tables) (E : Externals).

Lemma parser_0016_plain payload msg p :
  parser_0016 payload msg = Ok p → hands_on_index msg p.
Proof. unfold parser_0016. intros Hr. res_inv Hr; plain. Qed.

Lemma parser_1030_plain payload msg p :
  parser_1030 payload msg = Ok p → hands_on_index msg p.
Proof.
  unfold parser_1030. intros Hr. res_inv Hr. cbn [hands_on_index].
  match goal with
  | Hi : _idx _ _ = Ok ?r, Hm : map_res _ _ = Ok ?l |- _ =>
      rewrite (_idx_result _ _ _ Hi);
      assert (Hl : Forall (λ kv : string * pyval, kv.1 ∉ identity_keys) l);
      [eapply map_res_Forall; [|exact Hm]|clear Hi Hm; revert Hl; generalize l]
  end.
  { clear. intros seqx kv Hkv.
    unfold parser_1030_parser in Hkv. res_inv Hkv; cbn [fst];
      by apply not_identity_key. }
  intros l Hl. apply adds_no_index_foldl; [done|apply adds_no_index_refl].
Qed.

Lemma parser_10a0_plain payload msg p :
  parser_10a0 payload msg = Ok p → hands_on_index msg p.
Proof. unfold parser_10a0. intros Hr. res_inv Hr; plain. Qed.

Lemma parser_1100_plain payload msg p :
  parser_1100 payload msg = Ok p → hands_on_index msg p.
Proof. unfold parser_1100. intros Hr. res_inv Hr; plain. Qed.

Lemma parser_0009_plain payload msg p :
  parser_0009 payload msg = Ok p → hands_on_index msg p.
Proof.
  intros Hr. pose proof (parser_0009_exclusive _ _ _ Hr) as Hex.
  unfold parser_0009 in Hr. by res_inv Hr.
Qed.

Lemma parser_1260_plain payload msg p :
  parser_1260 payload msg = Ok p → hands_on_index msg p.
Proof. unfold parser_1260. intros Hr. res_inv Hr; plain. Qed.

Lemma parser_12b0_plain payload msg p :
  parser_12b0 payload msg = Ok p → hands_on_index msg p.
Proof. unfold parser_12b0. intros Hr. res_inv Hr; plain. Qed.

Lemma parser_1f09_plain payload msg p :
  parser_1f09 payload msg = Ok p → hands_on_index msg p.
Proof. unfold parser_1f09. intros Hr. res_inv Hr; plain. Qed.

Lemma parser_0001_plain payload msg p :
  parser_0001 payload msg = Ok p → hands_on_index msg p.
Proof. unfold parser_0001. intros Hr. res_inv Hr; plain. Qed.

Lemma parser_0002_plain payload msg p :
  parser_0002 payload msg = Ok p → hands_on_index msg p.
Proof. unfold parser_0002. intros Hr. res_inv Hr; plain. Qed.

Lemma parser_0004_plain payload msg p :
  parser_0004 payload msg = Ok p → hands_on_index msg p.
Proof. unfold parser_0004. intros Hr. res_inv Hr; plain. Qed.

Lemma parser_0005_plain payload msg p :
  parser_0005 E payload msg = Ok p → hands_on_index msg p.
Proof.
  assert (Hp : ∀ seqx r, parser_0005_parser E payload msg seqx = Ok r →
                 adds_no_index (msg_idx msg) r ∧ exclusive r).
  { unfold parser_0005_parser. intros seqx r Hr. res_inv Hr.
    split; [plain|plain_exclusive]. }
  unfold parser_0005. intros Hr. res_inv Hr; cbn [hands_on_index].
  - plain.
  - eapply map_res_Forall; [|done]. intros seqx r Hr. by apply (Hp seqx).
  - by apply (Hp payload).
Qed.

Lemma parser_0006_plain payload msg p :
  parser_0006 payload msg = Ok p → hands_on_index msg p.
Proof. unfold parser_0006. intros Hr. res_inv Hr; plain. Qed.

Lemma parser_000e_plain payload msg p :
  parser_000e payload msg = Ok p → hands_on_index msg p.
Proof. unfold parser_000e. intros Hr. res_inv Hr; plain. Qed.

Lemma parser_0100_plain payload msg p :
  parser_0100 payload msg = Ok p → hands_on_index msg p.
Proof. unfold parser_0100. intros Hr. res_inv Hr; plain. Qed.

Lemma parser_01d0_plain payload msg p :
  parser_01d0 payload msg = Ok p → hands_on_index msg p.
Proof. unfold parser_01d0. intros Hr. res_inv Hr; plain. Qed.

Lemma parser_01e9_plain payload msg p :
  parser_01e9 payload msg = Ok p → hands_on_index msg p.
Proof. unfold parser_01e9. intros Hr. res_inv Hr; plain. Qed.

Lemma parser_0404_plain payload msg p :
  parser_0404 payload msg = Ok p → hands_on_index msg p.
Proof.
  assert (Hp : ∀ seqx r, parser_0404_header seqx = Ok r →
                 adds_no_index (msg_idx msg) r).
  { unfold parser_0404_header. intros seqx r Hr. res_inv Hr. plain. }
  unfold parser_0404. intros Hr. res_inv Hr; cbn [hands_on_index].
  - by eapply Hp.
  - unfold py_update; cbn [foldl fst snd].
    apply adds_no_index_insert; [by apply not_identity_key|]. by eapply Hp.
Qed.

Lemma parser_042f_plain payload msg p :
  parser_042f payload msg = Ok p → hands_on_index msg p.
Proof. unfold parser_042f. intros Hr. res_inv Hr; plain. Qed.

Lemma parser_0b04_plain payload msg p :
  parser_0b04 payload msg = Ok p → hands_on_index msg p.
Proof. unfold parser_0b04. intros Hr. res_inv Hr; plain. Qed.

Lemma parser_1060_plain payload msg p :
  parser_1060 payload msg = Ok p → hands_on_index msg p.
Proof. unfold parser_1060. intros Hr. res_inv Hr; plain. Qed.

Lemma parser_1090_plain payload msg p :
  parser_1090 payload msg = Ok p → hands_on_index msg p.
Proof. unfold parser_1090. intros Hr. res_inv Hr; plain. Qed.

Lemma parser_10e0_plain payload msg p :
  parser_10e0 payload msg = Ok p → hands_on_index msg p.
Proof. unfold parser_10e0. intros Hr. res_inv Hr; plain. Qed.

Lemma parser_1290_plain payload msg p :
  parser_1290 payload msg = Ok p → hands_on_index msg p.
Proof. unfold parser_1290. intros Hr. res_inv Hr; plain. Qed.

Lemma parser_1298_plain payload msg p :
  parser_1298 payload msg = Ok p → hands_on_index msg p.
Proof. unfold parser_1298. intros Hr. res_inv Hr; plain. Qed.

Lemma parser_12a0_plain payload msg p :
  parser_12a0 payload msg = Ok p → hands_on_index msg p.
Proof. unfold parser_12a0. intros Hr. res_inv Hr; plain. Qed.

Lemma parser_12c0_plain payload msg p :
  parser_12c0 payload msg = Ok p → hands_on_index msg p.
Proof. unfold parser_12c0. intros Hr. res_inv Hr; plain. Qed.

Lemma parser_12c8_plain payload msg p :
  parser_12c8 payload msg = Ok p → hands_on_index msg p.
Proof. unfold parser_12c8. intros Hr. res_inv Hr; plain. Qed.

Lemma parser_1f41_plain payload msg p :
  parser_1f41 E payload msg = Ok p → hands_on_index msg p.
Proof. unfold parser_1f41. intros Hr. res_inv Hr; plain. Qed.

Lemma parser_1fd4_plain payload msg p :
  parser_1fd4 payload msg = Ok p → hands_on_index msg p.
Proof. unfold parser_1fd4. intros Hr. res_inv Hr; plain. Qed.

Lemma parser_2249_plain payload msg p :
  parser_2249 payload msg = Ok p → hands_on_index msg p.
Proof.
  unfold parser_2249. intros Hr. res_inv Hr. cbn [hands_on_index].
  match goal with
  | Hp : parser_2249_parser _ _ = Ok _ |- _ =>
      unfold parser_2249_parser in Hp; res_inv Hp
  end.
  plain.
Qed.

Lemma parser_22d0_plain payload msg p :
  parser_22d0 payload msg = Ok p → hands_on_index msg p.
Proof. unfold parser_22d0. intros Hr. res_inv Hr; plain. Qed.

Lemma parser_22d9_plain payload msg p :
  parser_22d9 payload msg = Ok p → hands_on_index msg p.
Proof. unfold parser_22d9. intros Hr. res_inv Hr; plain. Qed.

Lemma parser_22f1_plain payload msg p :
  plain_keys E → parser_22f1 E payload msg = Ok p → hands_on_index msg p.
Proof.
  intros (Hfan & Hheat & _) Hr. unfold parser_22f1 in Hr. res_inv Hr.
  cbn [hands_on_index]. unfold py_update; cbn [foldl fst snd].
  do 2 (apply adds_no_index_insert; [by apply not_identity_key|]).
  match goal with
  | H : match FAN_MODES E ?b with _ => _ end = Ok _ |- _ =>
      destruct (FAN_MODES E b); [|destruct (_ || _); [destruct (HEATER_MODES E b)|]];
      try discriminate H; injection H as <-
  end.
  - by apply adds_no_index_singleton.
  - by apply adds_no_index_singleton.
  - apply adds_no_index_empty.
Qed.

Lemma parser_22f3_plain payload msg p :
  plain_keys E → parser_22f3 E payload msg = Ok p → hands_on_index msg p.
Proof.
  intros (_ & _ & Hboost & _) Hr. unfold parser_22f3 in Hr. res_inv Hr.
  by apply adds_no_index_singleton.
Qed.

Lemma parser_2349_plain payload msg p :
  parser_2349 E payload msg = Ok p → hands_on_index msg p.
Proof. unfold parser_2349. intros Hr. res_inv Hr; plain. Qed.

Lemma parser_2d49_plain payload msg p :
  parser_2d49 payload msg = Ok p → hands_on_index msg p.
Proof. unfold parser_2d49. intros Hr. res_inv Hr; plain. Qed.

Lemma parser_2e04_plain payload msg p :
  parser_2e04 E payload msg = Ok p → hands_on_index msg p.
Proof. unfold parser_2e04. intros Hr. res_inv Hr; plain. Qed.

Lemma parser_3120_plain payload msg p :
  parser_3120 payload msg = Ok p → hands_on_index msg p.
Proof. unfold parser_3120. intros Hr. res_inv Hr; plain. Qed.

Lemma parser_313f_plain payload msg p :
  parser_313f E payload msg = Ok p → hands_on_index msg p.
Proof. unfold parser_313f. intros Hr. res_inv Hr; plain. Qed.

Lemma parser_31d9_plain payload msg p :
  parser_31d9 payload msg = Ok p → hands_on_index msg p.
Proof. unfold parser_31d9. intros Hr. res_inv Hr; plain. Qed.

Lemma parser_31da_plain payload msg p :
  parser_31da payload msg = Ok p → hands_on_index msg p.
Proof. unfold parser_31da. intros Hr. res_inv Hr; plain. Qed.

Lemma parser_31e0_plain payload msg p :
  parser_31e0 payload msg = Ok p → hands_on_index msg p.
Proof. unfold parser_31e0. intros Hr. res_inv Hr; plain. Qed.

Lemma parser_3220_plain payload msg p :
  plain_keys E → parser_3220 E payload msg = Ok p → hands_on_index msg p.
Proof.
  intros (_ & _ & _ & Hid & Htype & Hname & Hdesc & Hval) Hr.
  unfold parser_3220 in Hr.
  destruct (decode_frame E (slice 2 10 payload)) as [frame|] eqn:Ef; [|done].
  rewrite bind_Ok in Hr. cbv zeta in Hr.
  assert (Hres : adds_no_index (msg_idx msg)
            (py_dict [(MSG_ID E, VInt frame.1.1.2); (MSG_TYPE E, VStr frame.1.1.1);
                      (MSG_NAME E, default VNone (frame.1.2 !! MSG_NAME E))])).
  { unfold py_dict; cbn [foldl fst snd].
    do 3 (apply adds_no_index_insert; [done|]). apply adds_no_index_empty. }
  assert (Hv : ∀ k, k ∈ identity_keys → delete (MSG_NAME E) frame.1.2 !! k = None).
  { intros k Hk. apply lookup_delete_None. right. by eapply Hval. }
  res_inv Hr; cbn [hands_on_index]; try done;
    try (by apply adds_no_index_update).
  match goal with
  | H : match ?m with _ => _ end = Ok _ |- _ => destruct m; [|done]; injection H as <-
  end.
  destruct (py_truthy _); [apply adds_no_index_insert; [done|]|];
    by apply adds_no_index_update.
Qed.

Lemma parser_3ef0_plain payload msg p :
  parser_3ef0 payload msg = Ok p → hands_on_index msg p.
Proof. unfold parser_3ef0. intros Hr. res_inv Hr; plain. Qed.

Lemma parser_3ef1_plain payload msg p :
  parser_3ef1 payload msg = Ok p → hands_on_index msg p.
Proof. unfold parser_3ef1. intros Hr. res_inv Hr; plain. Qed.

Lemma parser_7fff_plain payload msg p :
  parser_7fff T payload msg = Ok p → hands_on_index msg p.
Proof. unfold parser_7fff. intros Hr. res_inv Hr; plain. Qed.

End AllParsers.

Section IndexExclusivity.
Context (T : Tables) (E : Externals).

(** Every decorated parser but the index writers hands the index on. *)
Lemma decorated_parsers_hand_on c body payload msg p :
  (c, body) ∈ decorated_parsers T E → c ∉ index_writers → plain_keys E →
  body payload msg = Ok p → hands_on_index msg p.
Proof.
  intros Hin Hc Hk Hp. unfold decorated_parsers, embedded_parsers in Hin.
  apply elem_of_app in Hin as [Hin|Hin];
    repeat (apply elem_of_cons in Hin as [[= -> ->]|Hin];
            [first
               [ by (exfalso; apply Hc; apply (bool_decide_unpack _); vm_compute)
               | eauto using parser_0009_plain, parser_1260_plain, parser_12b0_plain,
                   parser_1f09_plain, parser_0016_plain, parser_1030_plain,
                   parser_10a0_plain, parser_1100_plain, parser_0001_plain,
                   parser_0002_plain, parser_0004_plain, parser_0005_plain,
                   parser_0006_plain, parser_000e_plain, parser_0100_plain,
                   parser_01d0_plain, parser_01e9_plain, parser_0404_plain,
                   parser_042f_plain, parser_0b04_plain, parser_1060_plain,
                   parser_1090_plain, parser_10e0_plain, parser_1290_plain,
                   parser_1298_plain, parser_12a0_plain, parser_12c0_plain,
                   parser_12c8_plain, parser_1f41_plain, parser_1fd4_plain,
                   parser_2249_plain, parser_22d0_plain, parser_22d9_plain,
                   parser_22f1_plain, parser_22f3_plain, parser_2349_plain,
                   parser_2d49_plain, parser_2e04_plain, parser_3120_plain,
                   parser_313f_plain, parser_31d9_plain, parser_31da_plain,
                   parser_31e0_plain, parser_3220_plain, parser_3ef0_plain,
                   parser_3ef1_plain ]|]);
    inversion Hin.
Qed.

(** Every parser returns records with at most one index key. *)
Lemma record_parsers_exclusive c body payload msg res :
  (c, body) ∈ record_parsers T E → idx_exclusive msg → plain_keys E →
  body payload msg = Ok res → Forall exclusive (records_of res).
Proof.
  intros Hin Hm Hk Hr. unfold record_parsers in Hin.
  apply elem_of_app in Hin as [Hin|Hin].
  - destruct (decide (c ∈ index_writers)) as [Hc|Hc].
    + unfold decorated_parsers in Hin. apply elem_of_app in Hin as [Hin|Hin];
        [by eapply embedded_parsers_exclusive|].
      exfalso. unfold index_writers in Hc.
      repeat (apply elem_of_cons in Hin as [[= -> ->]|Hin];
              [by repeat (apply elem_of_cons in Hc as [Hc|Hc]; [done|]);
                  inversion Hc|]).
      inversion Hin.
    + apply (hands_on_index_exclusive msg); [done|].
      by eapply decorated_parsers_hand_on.
  - apply list_elem_of_singleton in Hin as [= -> ->].
    apply (hands_on_index_exclusive msg); [done|]. by eapply parser_7fff_plain.
Qed.

(** [parser_1fc9] returns lists of three strings. *)
Lemma parser_1fc9_triples src_id payload msg l :
  parser_1fc9 T src_id payload msg = Ok l →
  Forall (λ v, ∃ a b c, v = VList [VStr a; VStr b; VStr c]) l.
Proof.
  unfold parser_1fc9. intros Hr. res_inv Hr.
  eapply map_res_Forall; [|done]. clear. intros seqx v Hv.
  unfold parser_1fc9_parser in Hv. res_inv Hv; eauto.
Qed.


End IndexExclusivity.

(** The names of the instance are none of the index keys. *)
Lemma demo_externals_plain : plain_keys demo_externals.
Proof.
  repeat (split; [by apply not_identity_key|]).
  intros frame r k [= <-] Hk. unfold identity_keys in Hk.
  repeat (apply elem_of_cons in Hk as [->|Hk]; [done|]). inversion Hk.
Qed.


